(** * QuantumNetworkMetrics: the metrics package and its collector

    A shallow embedding of [src/metrics/*.py] and of
    [MetricsCollector] ([src/metrics/metrics_collector.py]).

    Modelling conventions.
    - A Python [float] is a value of [num]: an exact rational ([Qc]) or one
      of the IEEE special values [inf], [-inf], [nan].  Arithmetic on finite
      values is exact, so rounding, overflow and the sign of zero are not
      represented; the special values follow IEEE 754.
    - A Python [int] is a [Z].  Where the code divides an [int] by a [float]
      (or a [float] by an [int]) Python first converts the [int], and raises
      [OverflowError] for one beyond the range of a double: [float_of_int].
    - An exception is a value of [exn]; a call that can raise returns a
      [result].  Python's [/] raises [ZeroDivisionError] on a zero divisor,
      numpy's division does not.
    - A [dict] read by key is a [gmap]; the per-node table of the
      aggregator, whose iteration order the code depends on, is an
      association list in insertion order.
    - [ns.sim_time()] is an extra argument [now] of the operation that
      reads the clock.  The [qubits] argument of [record_delivery] is
      represented by what the NetSquid calls made on it return. *)

From Stdlib Require Import QArith Qcanon ZArith.
From stdpp Require Import gmap strings list fin_maps numbers.

Local Open Scope Z_scope.

(** ** Exceptions and results *)

Inductive exn :=
| ValueError (msg : string)
| ZeroDivisionError
| TypeError
| KeyError
| OverflowError.

Inductive result (A : Type) :=
| Ok (a : A)
| Raise (e : exn).
Arguments Ok {A} a.
Arguments Raise {A} e.

#[export] Instance result_ret : MRet result := fun A a => Ok a.
#[export] Instance result_bind : MBind result := fun A B f m =>
  match m with
  | Ok a => f a
  | Raise e => Raise e
  end.

Definition is_ok {A} (r : result A) : Prop :=
  match r with Ok _ => True | Raise _ => False end.

(** ** Floating-point values *)

Inductive num :=
| Fin (q : Qc)
| PInf
| NInf
| NaN.

#[export] Instance num_eq_dec : EqDecision num.
Proof. solve_decision. Defined.

(** The [float] whose value is the integer [z]: a literal such as [10.0],
    a length, or an [int] that [float_of_int] has found in range. *)
Definition of_Z (z : Z) : num := Fin (Qc_of_Z z).
Definition of_nat (n : nat) : num := of_Z (Z.of_nat n).

Definition zero : num := Fin 0.
Definition one : num := Fin 1.

(** The conversion of an [int] operand of [/] to [float]: the integers of
    magnitude [2^1024 - 2^970] and above round beyond the largest double
    and raise [OverflowError] ("int too large to convert to float"). *)
Definition float_limit : Z := 2 ^ 1024 - 2 ^ 970.

Definition float_of_int (z : Z) : result num :=
  if bool_decide (Z.abs z < float_limit) then Ok (of_Z z)
  else Raise OverflowError.

(** Comparisons: every comparison with [nan] is false. *)
Definition num_lt (a b : num) : bool :=
  match a, b with
  | Fin x, Fin y => bool_decide (x < y)%Qc
  | Fin _, PInf => true
  | NInf, Fin _ => true
  | NInf, PInf => true
  | _, _ => false
  end.

Definition num_le (a b : num) : bool :=
  match a, b with
  | Fin x, Fin y => bool_decide (x <= y)%Qc
  | Fin _, PInf => true
  | PInf, PInf => true
  | NInf, Fin _ => true
  | NInf, PInf => true
  | NInf, NInf => true
  | _, _ => false
  end.

Definition num_gt (a b : num) : bool := num_lt b a.

Definition num_eqb (a b : num) : bool :=
  match a, b with
  | Fin x, Fin y => bool_decide (x = y)
  | PInf, PInf => true
  | NInf, NInf => true
  | _, _ => false
  end.

Definition num_opp (a : num) : num :=
  match a with
  | Fin x => Fin (- x)%Qc
  | PInf => NInf
  | NInf => PInf
  | NaN => NaN
  end.

Definition num_add (a b : num) : num :=
  match a, b with
  | NaN, _ | _, NaN => NaN
  | Fin x, Fin y => Fin (x + y)%Qc
  | PInf, NInf | NInf, PInf => NaN
  | PInf, _ | _, PInf => PInf
  | NInf, _ | _, NInf => NInf
  end.

Definition num_sub (a b : num) : num := num_add a (num_opp b).

(** An infinity ([inf] when [positive], [-inf] otherwise) times the finite
    value [x]; [inf * 0] is [nan]. *)
Definition inf_times (positive : bool) (x : Qc) : num :=
  match (x ?= 0)%Qc with
  | Eq => NaN
  | Gt => if positive then PInf else NInf
  | Lt => if positive then NInf else PInf
  end.

Definition num_mul (a b : num) : num :=
  match a, b with
  | NaN, _ | _, NaN => NaN
  | Fin x, Fin y => Fin (x * y)%Qc
  | PInf, Fin y => inf_times true y
  | NInf, Fin y => inf_times false y
  | Fin x, PInf => inf_times true x
  | Fin x, NInf => inf_times false x
  | PInf, PInf | NInf, NInf => PInf
  | PInf, NInf | NInf, PInf => NInf
  end.

(** IEEE division.  A zero divisor is taken to be [+0.0]: [x / 0] is an
    infinity with the sign of [x], and [0 / 0] is [nan]. *)
Definition fdiv (a b : num) : num :=
  match a, b with
  | NaN, _ | _, NaN => NaN
  | Fin x, Fin y =>
      if bool_decide (y = 0%Qc) then
        match (x ?= 0)%Qc with
        | Eq => NaN
        | Gt => PInf
        | Lt => NInf
        end
      else Fin (x / y)%Qc
  | Fin _, (PInf | NInf) => zero
  | PInf, Fin y => if bool_decide (y < 0)%Qc then NInf else PInf
  | NInf, Fin y => if bool_decide (y < 0)%Qc then PInf else NInf
  | (PInf | NInf), (PInf | NInf) => NaN
  end.

(** Python's [a / b] on floats. *)
Definition py_div (a b : num) : result num :=
  if num_eqb b zero then Raise ZeroDivisionError else Ok (fdiv a b).

(** [x ** 2]. *)
Definition num_pow2 (a : num) : num := num_mul a a.

(** The builtins [min(a, b)] and [max(a, b)]: the first argument is kept
    unless the second is strictly smaller (resp. greater). *)
Definition py_min (a b : num) : num := if num_lt b a then b else a.
Definition py_max (a b : num) : num := if num_gt b a then b else a.

(** [x.sum()] and [np.mean(x)] of a one-dimensional array. *)
Definition np_sum (xs : list num) : num := foldl num_add zero xs.
Definition np_mean (xs : list num) : num := fdiv (np_sum xs) (of_nat (length xs)).

(** ** Formula library *)

(** [throughput.py] *)
Definition throughput (num_entangled_states : Z) (total_time : num) : result num :=
  if num_le total_time zero then Ok zero
  else
    states ← float_of_int num_entangled_states;
    py_div states total_time.

(** [latency.py] *)
Definition request_latency (completion_time request_time : num) : num :=
  num_sub completion_time request_time.

Definition unit_latency (total_time : num) (num_units : Z) : result num :=
  if bool_decide (num_units <= 0) then Ok PInf
  else
    units ← float_of_int num_units;
    py_div total_time units.

Definition scaled_latency (request_latency : num) (num_units : Z) : result num :=
  if bool_decide (num_units <= 0) then Ok PInf
  else
    units ← float_of_int num_units;
    py_div request_latency units.

(** [fairness.py]: Jain's index, computed with numpy's division. *)
Definition fairness (values : list num) : num :=
  let x := values in
  if bool_decide (length x = 0%nat) then one
  else fdiv (num_pow2 (np_sum x))
            (num_mul (of_nat (length x)) (np_sum (map num_pow2 x))).

(** [robustness.py] *)
Definition higher_is_better : list string := ["throughput"; "fidelity"; "fairness"].

Definition unknown_metric_type (metric_type : string) : string :=
  "Unknown metric_type: " +:+ metric_type +:+
  ". Must be 'throughput', 'fidelity', 'fairness', or 'latency'".

Definition robustness (metric_baseline metric_degraded : num) (metric_type : string)
  : result num :=
  if bool_decide (metric_type ∈ higher_is_better) then
    if num_le metric_baseline zero then Ok zero
    else py_div metric_degraded metric_baseline
  else if bool_decide (metric_type = "latency") then
    if num_le metric_degraded zero then Ok PInf
    else py_div metric_baseline metric_degraded
  else Raise (ValueError (unknown_metric_type metric_type)).

(** ** Requests and numpy arrays *)

(** A delivered state is a numpy array.  The code only takes its [len]
    and averages a list of them along axis 0. *)
Class NdArray (A : Type) := {
  np_len : A -> nat;
  np_mean_axis0 : list A -> A
}.

(** Arrays given by their rows, averaged entry by entry over the shape of
    the first one (the arrays of one request all have the same shape). *)
Definition matrix := list (list num).

Definition matrix_add (a b : matrix) : matrix := zip_with (zip_with num_add) a b.

Definition matrix_mean (ms : list matrix) : matrix :=
  match ms with
  | [] => []
  | m :: rest =>
      map (map (fun x => fdiv x (of_nat (length ms)))) (foldl matrix_add m rest)
  end.

#[export] Instance matrix_ndarray : NdArray matrix := {
  np_len := length;
  np_mean_axis0 := matrix_mean
}.

(** The request dictionary built by [record_request].  Key
    ['delivered_states'] is deleted and key ['delivered_state'] may be added
    by [_finalize_request]: both are optional. ['completion_time'] holds
    [None] until the quota is met.  The keys ['num_units'] and ['node_id']
    are always present, so the defaults of [req.get] in the aggregator are
    never used. *)
Record request (A : Type) := mk_request {
  request_id : Z;
  num_units : Z;
  node_id : string;
  request_time : num;
  completion_time : option num;
  delivered_states : option (list A);
  delivered_state : option A;
  completed_units : Z
}.
Arguments mk_request {A}.
Arguments request_id {A}.
Arguments num_units {A}.
Arguments node_id {A}.
Arguments request_time {A}.
Arguments completion_time {A}.
Arguments delivered_states {A}.
Arguments delivered_state {A}.
Arguments completed_units {A}.

(** ** Result dictionaries *)

Inductive atom :=
| AFloat (x : num)
| AInt (z : Z).

Inductive value :=
| VFloat (x : num)
| VInt (z : Z)
| VNodes (d : gmap string (gmap string atom)).

Definition atom_value (a : atom) : value :=
  match a with
  | AFloat x => VFloat x
  | AInt z => VInt z
  end.

(** ** The aggregator: the loop over the requests

    The loop [for req in requests] is the same text in [metrics.py] and in
    [aggregate_metrics.py]. *)

Record node_data := mk_node_data {
  nd_units : Z;
  nd_latencies : list num;
  nd_fidelities : list num;
  nd_first_request_time : num;
  nd_last_completion_time : num
}.

Definition new_node_data : node_data :=
  {| nd_units := 0;
     nd_latencies := [];
     nd_fidelities := [];
     nd_first_request_time := PInf;
     nd_last_completion_time := zero |}.

(** [per_node_data]: a dictionary in insertion order. *)
Fixpoint alist_mem {V} (k : string) (d : list (string * V)) : bool :=
  match d with
  | [] => false
  | (k', _) :: rest => if bool_decide (k' = k) then true else alist_mem k rest
  end.

Fixpoint alist_alter {V} (f : V -> V) (k : string) (d : list (string * V))
  : list (string * V) :=
  match d with
  | [] => []
  | (k', v) :: rest =>
      if bool_decide (k' = k) then (k', f v) :: rest
      else (k', v) :: alist_alter f k rest
  end.

Record acc := mk_acc {
  latencies : list num;
  unit_latencies : list num;
  scaled_latencies : list num;
  per_node_data : list (string * node_data);
  fidelities : list num;
  total_units : Z;
  fid_idx : nat
}.

Definition new_acc : acc :=
  {| latencies := []; unit_latencies := []; scaled_latencies := [];
     per_node_data := []; fidelities := []; total_units := 0; fid_idx := 0 |}.

(** [for i in range(num_states): if fid_idx < len(fidelity_values): ...] *)
Fixpoint take_fidelities (num_states : nat) (fidelity_values : list num)
    (node : string) (st : acc) : acc :=
  match num_states with
  | O => st
  | S n =>
      let st' :=
        match fidelity_values !! fid_idx st with
        | Some fid =>
            {| latencies := latencies st;
               unit_latencies := unit_latencies st;
               scaled_latencies := scaled_latencies st;
               per_node_data :=
                 alist_alter (fun d =>
                   {| nd_units := nd_units d;
                      nd_latencies := nd_latencies d;
                      nd_fidelities := nd_fidelities d ++ [fid];
                      nd_first_request_time := nd_first_request_time d;
                      nd_last_completion_time := nd_last_completion_time d |})
                   node (per_node_data st);
               fidelities := fidelities st ++ [fid];
               total_units := total_units st;
               fid_idx := S (fid_idx st) |}
        | None => st
        end in
      take_fidelities n fidelity_values node st'
  end.

(** [req['completion_time']] is [None] for a request whose quota is not
    met: the subtraction in [request_latency] then raises. *)
Definition float_of (o : option num) : result num :=
  match o with
  | Some x => Ok x
  | None => Raise TypeError
  end.

Definition is_nonempty {X} (l : list X) : bool :=
  match l with [] => false | _ => true end.

(** Truth value of [fidelity_values]: [None] and [[]] are false. *)
Definition given (fidelity_values : option (list num)) : list num :=
  match fidelity_values with Some l => l | None => [] end.

(** One iteration of [for req in requests]. *)
Definition request_step `{NdArray A} (fidelity_values : option (list num))
    (st : acc) (req : request A) : result acc :=
  completion ← float_of (completion_time req);
  let req_latency := request_latency completion (request_time req) in
  let num_units := num_units req in
  unit_lat ← unit_latency req_latency num_units;
  scaled_lat ← scaled_latency req_latency num_units;
  let node := node_id req in
  let data0 :=
    if alist_mem node (per_node_data st) then per_node_data st
    else per_node_data st ++ [(node, new_node_data)] in
  let data1 :=
    alist_alter (fun d =>
      {| nd_units := nd_units d + num_units;
         nd_latencies := nd_latencies d ++ [req_latency];
         nd_fidelities := nd_fidelities d;
         nd_first_request_time :=
           py_min (nd_first_request_time d) (request_time req);
         nd_last_completion_time :=
           py_max (nd_last_completion_time d) completion |})
      node data0 in
  let st1 :=
    {| latencies := latencies st ++ [req_latency];
       unit_latencies := unit_latencies st ++ [unit_lat];
       scaled_latencies := scaled_latencies st ++ [scaled_lat];
       per_node_data := data1;
       fidelities := fidelities st;
       total_units := total_units st + num_units;
       fid_idx := fid_idx st |} in
  match delivered_state req with
  | Some state =>
      if is_nonempty (given fidelity_values)
      then Ok (take_fidelities (np_len state) (given fidelity_values) node st1)
      else Ok st1
  | None => Ok st1
  end.

Fixpoint request_loop `{NdArray A} (fidelity_values : option (list num))
    (st : acc) (requests : list (request A)) : result acc :=
  match requests with
  | [] => Ok st
  | req :: rest =>
      st' ← request_step fidelity_values st req;
      request_loop fidelity_values st' rest
  end.

(** [len(req.get('delivered_state', []))], and its sum over the requests:
    the number of fidelity samples the loop can take. *)
Definition state_len `{NdArray A} (req : request A) : nat :=
  match delivered_state req with
  | Some state => np_len state
  | None => 0
  end.

Definition states_len `{NdArray A} (requests : list (request A)) : nat :=
  foldr (fun req n => (state_len req + n)%nat) 0%nat requests.

(** The dictionary returned for an empty request list (both modules). *)
Definition empty_metrics : gmap string value :=
  <["throughput" := VFloat zero]>
  (<["mean_request_latency" := VFloat zero]>
  (<["mean_unit_latency" := VFloat zero]>
  (<["mean_scaled_latency" := VFloat zero]>
  (<["fairness_throughput" := VFloat one]>
  (<["fairness_latency" := VFloat one]> ∅))))).

(** [data['units'] / node_active_time * 1e9], or [0.0] for an empty window. *)
Definition node_throughput_of (data : node_data) : result num :=
  let node_active_time :=
    num_sub (nd_last_completion_time data) (nd_first_request_time data) in
  if num_gt node_active_time zero then
    units ← float_of_int (nd_units data);
    q ← py_div units node_active_time;
    mret (num_mul q (of_Z 1000000000))
  else mret zero.

Record node_acc := mk_node_acc {
  per_node_throughputs : list num;
  per_node_latencies : list num;
  per_node_fidelities : list num;
  per_node_metrics : gmap string (gmap string atom);
  last_node_id : option string
}.

Definition new_node_acc : node_acc :=
  {| per_node_throughputs := []; per_node_latencies := [];
     per_node_fidelities := []; per_node_metrics := ∅; last_node_id := None |}.

(** ** [metrics.py]: [aggregate_metrics] *)
Module Metrics.

(** One iteration of [for node_id, data in per_node_data.items()]. *)
Definition node_step (st : node_acc) (entry : string * node_data)
  : result node_acc :=
  let '(node, data) := entry in
  let node_active_time :=
    num_sub (nd_last_completion_time data) (nd_first_request_time data) in
  node_throughput ← node_throughput_of data;
  let node_avg_latency := np_mean (nd_latencies data) in
  let entry0 : gmap string atom :=
    <["throughput" := AFloat node_throughput]>
    (<["avg_latency" := AFloat node_avg_latency]>
    (<["total_units" := AInt (nd_units data)]>
    (<["active_time" := AFloat node_active_time]> ∅))) in
  let st1 :=
    {| per_node_throughputs := per_node_throughputs st ++ [node_throughput];
       per_node_latencies := per_node_latencies st ++ [node_avg_latency];
       per_node_fidelities := per_node_fidelities st;
       per_node_metrics := <[node := entry0]> (per_node_metrics st);
       last_node_id := Some node |} in
  if is_nonempty (nd_fidelities data) then
    let node_avg_fidelity := np_mean (nd_fidelities data) in
    mret
      {| per_node_throughputs := per_node_throughputs st1;
         per_node_latencies := per_node_latencies st1;
         per_node_fidelities := per_node_fidelities st1 ++ [node_avg_fidelity];
         per_node_metrics :=
           <[node := <["avg_fidelity" := AFloat node_avg_fidelity]> entry0]>
             (per_node_metrics st1);
         last_node_id := Some node |}
  else mret st1.

Fixpoint node_loop (st : node_acc) (items : list (string * node_data))
  : result node_acc :=
  match items with
  | [] => Ok st
  | entry :: rest => st' ← node_step st entry; node_loop st' rest
  end.

Definition aggregate_metrics `{NdArray A} (requests : list (request A))
    (simulation_time : num) (fidelity_values : option (list num))
    (rejected_states : Z) : result (gmap string value) :=
  if is_nonempty requests then
    st ← request_loop fidelity_values new_acc requests;
    nodes ← node_loop new_node_acc (per_node_data st);
    overall ← throughput (total_units st) simulation_time;
    let metrics : gmap string value :=
      <["throughput" := VFloat overall]>
      (<["mean_request_latency" := VFloat (np_mean (latencies st))]>
      (<["mean_unit_latency" := VFloat (np_mean (unit_latencies st))]>
      (<["mean_scaled_latency" := VFloat (np_mean (scaled_latencies st))]>
      (<["fairness_throughput" := VFloat (fairness (per_node_throughputs nodes))]>
      (<["fairness_latency" := VFloat (fairness (per_node_latencies nodes))]>
      (<["per_node_metrics" := VNodes (per_node_metrics nodes)]>
      (<["rejected_states" := VInt rejected_states]> ∅))))))) in
    if is_nonempty (fidelities st) then
      let metrics1 := <["mean_fidelity" := VFloat (np_mean (fidelities st))]> metrics in
      if is_nonempty (per_node_fidelities nodes) then
        mret (<["fairness_fidelity" := VFloat (fairness (per_node_fidelities nodes))]>
                metrics1)
      else mret metrics1
    else mret metrics
  else mret empty_metrics.

End Metrics.

(** ** [aggregate_metrics.py]: [aggregate_metrics], the function the
    collector imports *)
Module AggregateMetrics.

(** One iteration of [for node_id, data in per_node_data.items()]; the
    loop variable [node_id] outlives the loop. *)
Definition node_step (st : node_acc) (entry : string * node_data)
  : result node_acc :=
  let '(node, data) := entry in
  node_throughput ← node_throughput_of data;
  let node_avg_latency := np_mean (nd_latencies data) in
  let entry0 : gmap string atom :=
    <["throughput" := AFloat node_throughput]>
    (<["total_units" := AInt (nd_units data)]> ∅) in
  let st1 :=
    {| per_node_throughputs := per_node_throughputs st ++ [node_throughput];
       per_node_latencies := per_node_latencies st ++ [node_avg_latency];
       per_node_fidelities := per_node_fidelities st;
       per_node_metrics := <[node := entry0]> (per_node_metrics st);
       last_node_id := Some node |} in
  if is_nonempty (nd_fidelities data) then
    let node_avg_fidelity := np_mean (nd_fidelities data) in
    mret
      {| per_node_throughputs := per_node_throughputs st1;
         per_node_latencies := per_node_latencies st1;
         per_node_fidelities := per_node_fidelities st1 ++ [node_avg_fidelity];
         per_node_metrics :=
           <[node := <["avg_fidelity" := AFloat node_avg_fidelity]> entry0]>
             (per_node_metrics st1);
         last_node_id := Some node |}
  else mret st1.

Fixpoint node_loop (st : node_acc) (items : list (string * node_data))
  : result node_acc :=
  match items with
  | [] => Ok st
  | entry :: rest => st' ← node_step st entry; node_loop st' rest
  end.

(** [per_node_metrics[node_id]] with the value [node_id] has after the
    loop ([None] if the loop body never ran). *)
Definition last_node_metrics (nodes : node_acc) : result (gmap string atom) :=
  match last_node_id nodes with
  | Some node =>
      match per_node_metrics nodes !! node with
      | Some d => Ok d
      | None => Raise KeyError
      end
  | None => Raise KeyError
  end.

Definition aggregate_metrics `{NdArray A} (requests : list (request A))
    (simulation_time : num) (fidelity_values : option (list num))
    (rejected_states : Z) : result (gmap string value) :=
  if is_nonempty requests then
    st ← request_loop fidelity_values new_acc requests;
    nodes ← node_loop new_node_acc (per_node_data st);
    splat ← last_node_metrics nodes;
    (* { ..., **per_node_metrics[node_id] }: the later keys win *)
    let metrics : gmap string value :=
      (atom_value <$> splat) ∪
      (<["mean_request_latency" := VFloat (np_mean (latencies st))]>
      (<["mean_unit_latency" := VFloat (np_mean (unit_latencies st))]>
      (<["mean_scaled_latency" := VFloat (np_mean (scaled_latencies st))]>
      (<["rejected_states" := VInt rejected_states]> ∅)))) in
    if is_nonempty (fidelities st) then
      mret (<["mean_fidelity" := VFloat (np_mean (fidelities st))]> metrics)
    else mret metrics
  else mret empty_metrics.

(** The keys a per-node dictionary of this module can hold. *)
Definition node_keys : gset string :=
  {[ "throughput"; "total_units"; "avg_fidelity" ]}.

End AggregateMetrics.

(** ** [metrics_collector.py]: [MetricsCollector] *)

Record collector (A : Type) := mk_collector {
  requests : list (request A);
  start_time : num;
  end_time : num;
  fidelity_threshold : num;
  _active_requests : gmap Z (request A);
  rejected_states : Z;
  fidelity_values : list num
}.
Arguments mk_collector {A}.
Arguments requests {A}.
Arguments start_time {A}.
Arguments end_time {A}.
Arguments fidelity_threshold {A}.
Arguments _active_requests {A}.
Arguments rejected_states {A}.
Arguments fidelity_values {A}.

(** What the NetSquid calls of [record_delivery] return on the argument
    [qubits]. *)
Inductive qubits (A : Type) :=
| NoQubits
    (* [qubits] is [None] or an empty list *)
| FidelityRaises
    (* a call of [qapi.fidelity] raises *)
| Qubits (fid_phi_plus fid_psi_plus fid_phi_minus fid_psi_minus : num)
         (dm : option A).
    (* the four fidelities, and [qubits[0].qstate.dm] ([None]: reading it
       raises) *)
Arguments NoQubits {A}.
Arguments FidelityRaises {A}.
Arguments Qubits {A}.

Section Collector.
Context `{NdArray A}.

Definition set_active (c : collector A) (m : gmap Z (request A)) : collector A :=
  mk_collector (requests c) (start_time c) (end_time c) (fidelity_threshold c)
    m (rejected_states c) (fidelity_values c).

Definition set_completed_units (req : request A) (n : Z) : request A :=
  mk_request (request_id req) (num_units req) (node_id req) (request_time req)
    (completion_time req) (delivered_states req) (delivered_state req) n.

Definition set_completion_time (req : request A) (t : option num) : request A :=
  mk_request (request_id req) (num_units req) (node_id req) (request_time req)
    t (delivered_states req) (delivered_state req) (completed_units req).

Definition set_delivered_states (req : request A) (l : option (list A))
  : request A :=
  mk_request (request_id req) (num_units req) (node_id req) (request_time req)
    (completion_time req) l (delivered_state req) (completed_units req).

Definition set_delivered_state (req : request A) (s : option A) : request A :=
  mk_request (request_id req) (num_units req) (node_id req) (request_time req)
    (completion_time req) (delivered_states req) s (completed_units req).

(** [__init__] *)
Definition new_collector (fidelity_threshold : num) : collector A :=
  {| requests := []; start_time := zero; end_time := zero;
     fidelity_threshold := fidelity_threshold;
     _active_requests := ∅; rejected_states := 0; fidelity_values := [] |}.

Definition start_simulation (c : collector A) (now : num) : collector A :=
  mk_collector (requests c) now (end_time c) (fidelity_threshold c)
    (_active_requests c) (rejected_states c) (fidelity_values c).

Definition end_simulation (c : collector A) (now : num) : collector A :=
  mk_collector (requests c) (start_time c) now (fidelity_threshold c)
    (_active_requests c) (rejected_states c) (fidelity_values c).

(** The dictionary stored by [record_request]. *)
Definition new_request (request_id num_units : Z) (node_id : string) (now : num)
  : request A :=
  {| request_id := request_id;
     num_units := num_units;
     node_id := node_id;
     request_time := now;
     completion_time := None;
     delivered_states := Some [];
     delivered_state := None;
     completed_units := 0 |}.

Definition record_request (c : collector A) (request_id num_units : Z)
    (node_id : string) (now : num) : result (collector A) :=
  Ok (set_active c
        (<[request_id := new_request request_id num_units node_id now]>
           (_active_requests c))).

Definition _finalize_request (c : collector A) (request_id : Z)
  : result (collector A) :=
  match _active_requests c !! request_id with
  | None => Ok c
  | Some req =>
      match delivered_states req with
      | None => Raise KeyError
      | Some states =>
          let req1 :=
            if is_nonempty states
            then set_delivered_state req (Some (np_mean_axis0 states))
            else req in
          let req2 := set_delivered_states req1 None in
          Ok (mk_collector (requests c ++ [req2]) (start_time c) (end_time c)
                (fidelity_threshold c)
                (delete request_id (_active_requests c))
                (rejected_states c) (fidelity_values c))
      end
  end.

(** The end of [record_delivery], after the [try] block: [req] is the
    request as the block left it. *)
Definition check_complete (c : collector A) (request_id : Z) (req : request A)
    (now : num) : result (collector A) :=
  if bool_decide (completed_units req >= num_units req) then
    let req' := set_completion_time req (Some now) in
    _finalize_request (set_active c (<[request_id := req']> (_active_requests c)))
      request_id
  else Ok (set_active c (<[request_id := req]> (_active_requests c))).

Definition max_fidelity (f00 f01 f10 f11 : num) : num :=
  py_max (py_max (py_max f00 f01) f10) f11.

Definition record_delivery (c : collector A) (request_id qubit_id : Z)
    (qs : qubits A) (now : num) : result (collector A) :=
  match _active_requests c !! request_id with
  | None => Ok c
  | Some req0 =>
      let req := set_completed_units req0 (completed_units req0 + 1) in
      match qs with
      | NoQubits => check_complete c request_id req now
      | FidelityRaises =>
          (* except Exception: print a warning, pass *)
          check_complete c request_id req now
      | Qubits fid_phi_plus fid_psi_plus fid_phi_minus fid_psi_minus dm =>
          let max_fid :=
            max_fidelity fid_phi_plus fid_psi_plus fid_phi_minus fid_psi_minus in
          if num_gt (fidelity_threshold c) zero
             && num_lt max_fid (fidelity_threshold c) then
            let req' := set_completed_units req (completed_units req - 1) in
            Ok (mk_collector (requests c) (start_time c) (end_time c)
                  (fidelity_threshold c)
                  (<[request_id := req']> (_active_requests c))
                  (rejected_states c + 1) (fidelity_values c))
          else
            let c1 :=
              mk_collector (requests c) (start_time c) (end_time c)
                (fidelity_threshold c) (_active_requests c)
                (rejected_states c) (fidelity_values c ++ [max_fid]) in
            match dm, delivered_states req with
            | Some d, Some states =>
                check_complete c1 request_id
                  (set_delivered_states req (Some (states ++ [d]))) now
            | _, _ =>
                (* reading the state or the key raises: caught, pass *)
                check_complete c1 request_id req now
            end
      end
  end.

Definition calculate_metrics (c : collector A) (now : num)
  : result (collector A * gmap string value) :=
  let c1 := if num_eqb (end_time c) zero then end_simulation c now else c in
  let simulation_time := num_sub (end_time c1) (start_time c1) in
  metrics ← AggregateMetrics.aggregate_metrics (requests c1) simulation_time
              (Some (fidelity_values c1)) (rejected_states c1);
  mret (c1,
        <["total_requests" := VInt (Z.of_nat (length (requests c1)))]>
        (<["end_time" := VFloat (end_time c1)]>
        (<["start_time" := VFloat (start_time c1)]>
        (<["simulation_time" := VFloat simulation_time]> metrics)))).

(** A delivery event and a run of events through [record_delivery]. *)
Record delivery := mk_delivery {
  d_request_id : Z;
  d_qubit_id : Z;
  d_qubits : qubits A;
  d_time : num
}.

Fixpoint deliver_all (c : collector A) (ds : list delivery)
  : result (collector A) :=
  match ds with
  | [] => Ok c
  | d :: rest =>
      c' ← record_delivery c (d_request_id d) (d_qubit_id d) (d_qubits d) (d_time d);
      deliver_all c' rest
  end.

(** The delivery is rejected by the fidelity threshold. *)
Definition below_threshold (threshold : num) (qs : qubits A) : bool :=
  match qs with
  | Qubits f00 f01 f10 f11 _ =>
      num_gt threshold zero && num_lt (max_fidelity f00 f01 f10 f11) threshold
  | _ => false
  end.

(** A delivery to request [rid] that the threshold does not reject. *)
Definition accepted (threshold : num) (rid : Z) (d : delivery) : Prop :=
  d_request_id d = rid /\ below_threshold threshold (d_qubits d) = false.

(** The fields of a request that the [try] block of [record_delivery]
    leaves alone, with one more completed unit. *)
Definition counted_once (req req1 : request A) : Prop :=
  request_id req1 = request_id req /\
  num_units req1 = num_units req /\
  node_id req1 = node_id req /\
  request_time req1 = request_time req /\
  completion_time req1 = completion_time req /\
  delivered_state req1 = delivered_state req /\
  completed_units req1 = completed_units req + 1 /\
  (is_Some (delivered_states req) -> is_Some (delivered_states req1)).

(** The fields of the collector other than the fidelity samples. *)
Definition same_ledger (c c1 : collector A) : Prop :=
  requests c1 = requests c /\
  _active_requests c1 = _active_requests c /\
  fidelity_threshold c1 = fidelity_threshold c /\
  rejected_states c1 = rejected_states c /\
  start_time c1 = start_time c /\
  end_time c1 = end_time c.

(** Request [rid], registered on [c0] with quota [n], is still active in
    [c] with [k] completed units; nothing was completed since. *)
Definition pending (c0 : collector A) (rid n k : Z) (c : collector A) : Prop :=
  requests c = requests c0 /\
  fidelity_threshold c = fidelity_threshold c0 /\
  exists r,
    _active_requests c = <[rid := r]> (_active_requests c0) /\
    request_id r = rid /\
    num_units r = n /\
    completed_units r = k /\
    completion_time r = None /\
    is_Some (delivered_states r).

End Collector.

(** ** Example runs

    States are two-qubit density matrices (4 x 4). *)

Definition half : num := Fin (Q2Qc (1 # 2)).

(** The density matrix of the Bell state [b00]. *)
Definition bell_dm : matrix :=
  [ [half; zero; zero; half];
    [zero; zero; zero; zero];
    [zero; zero; zero; zero];
    [half; zero; zero; half] ].

(** A pair in state [b00]: fidelity 1 to [b00], 0 to the other three. *)
Definition good_pair : qubits matrix := Qubits one zero zero zero (Some bell_dm).

(** The diagonal state [diag(a, b, b, a)]: fidelity [a] to [b00] and [b10],
    [b] to [b01] and [b11]. *)
Definition diagonal_dm (a b : num) : matrix :=
  [ [a; zero; zero; zero];
    [zero; b; zero; zero];
    [zero; zero; b; zero];
    [zero; zero; zero; a] ].

Definition diagonal_pair (a b : num) : qubits matrix :=
  Qubits a b a b (Some (diagonal_dm a b)).

(** A pair whose best-match fidelity is one half. *)
Definition fair_pair : qubits matrix := diagonal_pair half zero.

(** A pair whose best-match fidelity is 0.3. *)
Definition poor_pair : qubits matrix :=
  diagonal_pair (Fin (Q2Qc (3 # 10))) (Fin (Q2Qc (2 # 10))).

(** Two nodes: request 0 (2 units, node A) and request 1 (1 unit, node B)
    are registered at time 0; units arrive at 5, 10 (request 0) and 20
    (request 1); the simulation ends at 20. *)
Definition two_nodes_run : result (collector matrix) :=
  c ← record_request (start_simulation (new_collector zero) zero) 0 2 "A" zero;
  c ← record_request c 1 1 "B" zero;
  c ← deliver_all c
        [ mk_delivery 0 0 good_pair (of_Z 5);
          mk_delivery 0 1 good_pair (of_Z 10);
          mk_delivery 1 2 good_pair (of_Z 20) ];
  mret (end_simulation c (of_Z 20)).

(** One request of five units; the fifth pair has fidelity one half. *)
Definition five_units_run : result (collector matrix) :=
  c ← record_request (start_simulation (new_collector zero) zero) 0 5 "A" zero;
  c ← deliver_all c
        [ mk_delivery 0 0 good_pair (of_Z 10);
          mk_delivery 0 1 good_pair (of_Z 20);
          mk_delivery 0 2 good_pair (of_Z 30);
          mk_delivery 0 3 good_pair (of_Z 40);
          mk_delivery 0 4 fair_pair (of_Z 50) ];
  mret (end_simulation c (of_Z 50)).

(** [metrics = collector.calculate_metrics()] after a run. *)
Definition metrics_of (run : result (collector matrix)) (now : num)
  : result (gmap string value) :=
  c ← run; cm ← calculate_metrics c now; mret (snd cm).

(** A collector with threshold 0.5 and request 0 (2 units, node A)
    registered at time 0. *)
Definition one_active : collector matrix :=
  set_active (new_collector half) (<[0 := new_request 0 2 "A" zero]> ∅).

(** The same, after one accepted unit. *)
Definition one_delivered : collector matrix :=
  set_active (new_collector half)
    (<[0 := set_completed_units (new_request 0 2 "A" zero) 1]> ∅).

(** A collector with threshold 0.5 and request 0 registered with a quota
    of 3 units. *)
Definition three_requested : collector matrix :=
  set_active (new_collector half) (<[0 := new_request 0 3 "A" zero]> ∅).

(** Three accepted deliveries to request 0. *)
Definition three_units : list (delivery (A := matrix)) :=
  [ mk_delivery 0 0 good_pair (of_Z 10);
    mk_delivery 0 1 NoQubits (of_Z 20);
    mk_delivery 0 2 fair_pair (of_Z 30) ].

(** The same deliveries, the third one first. *)
Definition three_units_reordered : list (delivery (A := matrix)) :=
  [ mk_delivery 0 2 fair_pair (of_Z 30);
    mk_delivery 0 0 good_pair (of_Z 10);
    mk_delivery 0 1 NoQubits (of_Z 20) ].

(** A single completed request: one unit for node A, asked at 0, completed
    at 10, delivered without a state. *)
Definition single_request : list (request matrix) :=
  [ mk_request 0 1 "A" zero (Some (of_Z 10)) None None 1 ].

(** The value under key [k] of a returned dictionary. *)
Definition field (r : result (gmap string value)) (k : string) : option value :=
  match r with
  | Ok m => m !! k
  | Raise _ => None
  end.

(** ** Runs of the collector *)

Section CollectorRuns.
Context `{NdArray A}.

(** A call made by the simulation: [record_request] or [record_delivery]. *)
Inductive event :=
| Register (request_id num_units : Z) (node_id : string) (now : num)
| Deliver (d : delivery (A := A)).

Definition apply_event (c : collector A) (e : event) : result (collector A) :=
  match e with
  | Register request_id num_units node_id now =>
      record_request c request_id num_units node_id now
  | Deliver d =>
      record_delivery c (d_request_id d) (d_qubit_id d) (d_qubits d) (d_time d)
  end.

(** The quota registered by an event is at most [bound] in magnitude. *)
Definition quota_within (bound : Z) (e : event) : Prop :=
  match e with
  | Register _ num_units _ _ => Z.abs num_units <= bound
  | Deliver _ => True
  end.

Fixpoint run_events (c : collector A) (events : list event)
  : result (collector A) :=
  match events with
  | [] => Ok c
  | e :: rest => c' ← apply_event c e; run_events c' rest
  end.

(** What holds of a request while it is active under key [rid], and once
    it is in the completed list. *)
Definition active_ok (rid : Z) (r : request A) : Prop :=
  request_id r = rid /\
  completion_time r = None /\
  delivered_state r = None /\
  is_Some (delivered_states r) /\
  0 <= completed_units r /\
  completed_units r < Z.max (num_units r) 1.

Definition completed_ok (r : request A) : Prop :=
  is_Some (completion_time r) /\
  delivered_states r = None /\
  completed_units r = Z.max (num_units r) 1.

(** Every request of the collector has a quota of magnitude at most
    [bound]. *)
Definition quota_ok (bound : Z) (c : collector A) : Prop :=
  (forall rid r, _active_requests c !! rid = Some r ->
                 Z.abs (num_units r) <= bound) /\
  Forall (fun r => Z.abs (num_units r) <= bound) (requests c).

Definition ledger_ok (c : collector A) : Prop :=
  (forall rid r, _active_requests c !! rid = Some r -> active_ok rid r) /\
  Forall completed_ok (requests c).

(** The state stored and the sample recorded by a delivery that the
    threshold does not reject. *)
Definition stored_state (qs : qubits A) : option A :=
  match qs with
  | Qubits _ _ _ _ dm => dm
  | _ => None
  end.

Definition sample_of (qs : qubits A) : option num :=
  match qs with
  | Qubits f00 f01 f10 f11 _ => Some (max_fidelity f00 f01 f10 f11)
  | _ => None
  end.

(** The collector [c0] after request [rid] was registered at [t0] with
    quota [n] and the deliveries [done] were counted for it. *)
Definition in_progress (c0 : collector A) (rid n : Z) (node : string) (t0 : num)
    (done : list (delivery (A := A))) : collector A :=
  mk_collector (requests c0) (start_time c0) (end_time c0) (fidelity_threshold c0)
    (<[rid := mk_request rid n node t0 None
                (Some (omap (fun d => stored_state (d_qubits d)) done)) None
                (Z.of_nat (length done))]> (_active_requests c0))
    (rejected_states c0)
    (fidelity_values c0 ++ omap (fun d => sample_of (d_qubits d)) done).

(** A dictionary value used as a [float]: by the division of
    [robustness] and by [np.array(values, dtype=float)].  The dictionaries
    of [calculate_metrics] hold floats under the keys that are read; an
    [int] is converted, and raises [OverflowError] beyond the range of a
    double. *)
Definition as_number (v : value) : result num :=
  match v with
  | VFloat x => Ok x
  | VInt z => float_of_int z
  | VNodes _ => Raise TypeError
  end.

(** [if key in baseline_metrics and key in current_metrics:
       robustness_metrics[out] = robustness(..., metric_type)] *)
Definition robustness_entry (baseline_metrics current_metrics : gmap string value)
    (key out metric_type : string) (robustness_metrics : gmap string num)
  : result (gmap string num) :=
  match baseline_metrics !! key, current_metrics !! key with
  | Some b, Some d =>
      b ← as_number b;
      d ← as_number d;
      r ← robustness b d metric_type;
      mret (<[out := r]> robustness_metrics)
  | _, _ => mret robustness_metrics
  end.

Definition calculate_robustness (c : collector A)
    (baseline_metrics : gmap string value) (now : num)
  : result (collector A * gmap string num) :=
  cm ← calculate_metrics c now;
  let current_metrics := snd cm in
  let entry := robustness_entry baseline_metrics current_metrics in
  r ← entry "throughput" "robustness_throughput" "throughput" ∅;
  r ← entry "mean_fidelity" "robustness_fidelity" "fidelity" r;
  r ← entry "mean_request_latency" "robustness_mean_request_latency" "latency" r;
  r ← entry "mean_unit_latency" "robustness_mean_unit_latency" "latency" r;
  r ← entry "mean_scaled_latency" "robustness_mean_scaled_latency" "latency" r;
  r ← entry "fairness_throughput" "robustness_fairness_throughput" "fairness" r;
  r ← entry "fairness_latency" "robustness_fairness_latency" "fairness" r;
  r ← entry "fairness_fidelity" "robustness_fairness_fidelity" "fairness" r;
  mret (fst cm, r).

End CollectorRuns.

(** A run with threshold 0.5: request 0 (2 units) receives a good pair, a
    pair below the threshold and a second good pair. *)
Definition example_events : list (event (A := matrix)) :=
  [ Register 0 2 "A" zero;
    Deliver (mk_delivery 0 0 good_pair (of_Z 10));
    Deliver (mk_delivery 0 1 poor_pair (of_Z 20));
    Deliver (mk_delivery 0 2 good_pair (of_Z 30)) ].


(** A baseline dictionary for [calculate_robustness]. *)
Definition example_baseline : gmap string value :=
  <["throughput" := VFloat (of_Z 100)]>
  (<["mean_request_latency" := VFloat (of_Z 40)]>
  (<["fairness_throughput" := VFloat one]> ∅)).

(** The collector with one active request, started at 1 and ended at 9,
    and the dictionary [calculate_metrics] returns for it. *)
Definition stamped_collector : collector matrix :=
  end_simulation (start_simulation one_active (of_Z 1)) (of_Z 9).

Definition stamped_metrics : gmap string value :=
  <["total_requests" := VInt 0]>
  (<["end_time" := VFloat (of_Z 9)]>
  (<["start_time" := VFloat (of_Z 1)]>
  (<["simulation_time" := VFloat (num_sub (of_Z 9) (of_Z 1))]> empty_metrics))).

(** ** Views of a request list

    The quantities the aggregator computes, as functions of the list of
    requests: the latency of a request, the units asked for, the requests
    of one node, and the node identifiers in the order in which they first
    occur (the key order of [per_node_data]). *)

Definition latency_of {A} (req : request A) : option num :=
  match completion_time req with
  | Some completion => Some (request_latency completion (request_time req))
  | None => None
  end.

Definition requested_units {A} (requests : list (request A)) : Z :=
  foldr (fun req n => num_units req + n) 0 requests.

Definition node_requests {A} (node : string) (requests : list (request A))
  : list (request A) :=
  filter (fun req => node_id req = node) requests.

Definition node_units {A} (node : string) (requests : list (request A)) : Z :=
  requested_units (node_requests node requests).

Definition node_latencies {A} (node : string) (requests : list (request A))
  : list num :=
  omap latency_of (node_requests node requests).

Definition first_seen (ids : list string) : list string :=
  foldl (fun seen node => if bool_decide (node ∈ seen) then seen
                          else seen ++ [node]) [] ids.

(** The units and latencies held in [per_node_data], and what they are
    after the requests [seen]. *)
Definition node_view (data : list (string * node_data))
  : list (string * (Z * list num)) :=
  (fun e => (e.1, (nd_units e.2, nd_latencies e.2))) <$> data.

Definition node_spec {A} (seen : list (request A))
  : list (string * (Z * list num)) :=
  (fun node => (node, (node_units node seen, node_latencies node seen)))
    <$> first_seen (node_id <$> seen).

Definition all_completed {A} (requests : list (request A)) : bool :=
  forallb (fun req => bool_decide (is_Some (completion_time req))) requests.

(** The unit counts the aggregators convert to [float] fit a double: the
    [num_units] of every request, their sum over the requests of every
    node, and their sum over all requests. *)
Definition units_in_range {A} (requests : list (request A)) : Prop :=
  Forall (fun req => Z.abs (num_units req) < float_limit) requests /\
  (forall node, Z.abs (node_units node requests) < float_limit) /\
  Z.abs (requested_units requests) < float_limit.

(** Three completed requests of nodes A, B, A. *)
Definition three_requests : list (request matrix) :=
  [ mk_request 0 2 "A" zero (Some (of_Z 10)) None None 2;
    mk_request 1 1 "B" (of_Z 5) (Some (of_Z 20)) None (Some bell_dm) 1;
    mk_request 2 3 "A" (of_Z 10) (Some (of_Z 40)) None None 3 ].

(** ** [demo_main.py]: [calculate_combined_metrics]

    The dictionaries of the runs are those [calculate_metrics] returns
    ([run_single_simulation] returns [metrics_collector.calculate_metrics()]). *)

(** [metrics[key]] *)
Definition dict_get (metrics : gmap string value) (key : string) : result value :=
  match metrics !! key with
  | Some v => Ok v
  | None => Raise KeyError
  end.

(** The five lists filled for one direction ([ra_...] or [rb_...]). *)
Record node_lists := mk_node_lists {
  nl_throughputs : list value;
  nl_latencies : list value;
  nl_unit_latencies : list value;
  nl_scaled_latencies : list value;
  nl_fidelities : list value
}.

Definition new_node_lists : node_lists :=
  {| nl_throughputs := []; nl_latencies := []; nl_unit_latencies := [];
     nl_scaled_latencies := []; nl_fidelities := [] |}.

(** One iteration of [for metrics in all_metrics_ra]. *)
Definition extract_step (lists : node_lists) (metrics : gmap string value)
  : result node_lists :=
  t ← dict_get metrics "throughput";
  l ← dict_get metrics "mean_request_latency";
  u ← dict_get metrics "mean_unit_latency";
  s ← dict_get metrics "mean_scaled_latency";
  f ← dict_get metrics "mean_fidelity";
  mret {| nl_throughputs := nl_throughputs lists ++ [t];
          nl_latencies := nl_latencies lists ++ [l];
          nl_unit_latencies := nl_unit_latencies lists ++ [u];
          nl_scaled_latencies := nl_scaled_latencies lists ++ [s];
          nl_fidelities := nl_fidelities lists ++ [f] |}.

Fixpoint extract_loop (lists : node_lists)
    (all_metrics : list (gmap string value)) : result node_lists :=
  match all_metrics with
  | [] => Ok lists
  | metrics :: rest =>
      lists' ← extract_step lists metrics;
      extract_loop lists' rest
  end.

(** [np.array(values, dtype=float)] *)
Fixpoint as_numbers (values : list value) : result (list num) :=
  match values with
  | [] => Ok []
  | v :: rest =>
      x ← as_number v;
      xs ← as_numbers rest;
      mret (x :: xs)
  end.

(** [fairness(values) if len(values) > 1 else 1.0] *)
Definition fairness_across (values : list value) : result num :=
  if bool_decide (1 < length values)%nat then
    xs ← as_numbers values;
    mret (fairness xs)
  else mret one.

Record combined_metrics := mk_combined_metrics {
  cm_node_throughputs : list value;
  cm_node_latencies : list value;
  cm_node_fidelities : list value;
  J_throughput : num;
  J_latency : num;
  J_fidelity : num;
  cm_ra : node_lists;
  cm_rb : node_lists
}.

Definition calculate_combined_metrics
    (all_metrics_ra all_metrics_rb : list (gmap string value))
  : result combined_metrics :=
  ra ← extract_loop new_node_lists all_metrics_ra;
  rb ← extract_loop new_node_lists all_metrics_rb;
  let node_throughputs := nl_throughputs ra ++ nl_throughputs rb in
  let node_latencies := nl_latencies ra ++ nl_latencies rb in
  let node_fidelities := nl_fidelities ra ++ nl_fidelities rb in
  j_throughput ← fairness_across node_throughputs;
  j_latency ← fairness_across node_latencies;
  j_fidelity ← fairness_across node_fidelities;
  mret {| cm_node_throughputs := node_throughputs;
          cm_node_latencies := node_latencies;
          cm_node_fidelities := node_fidelities;
          J_throughput := j_throughput;
          J_latency := j_latency;
          J_fidelity := j_fidelity;
          cm_ra := ra;
          cm_rb := rb |}.

(** The keys [calculate_combined_metrics] reads in every dictionary. *)
Definition combined_keys : list string :=
  ["throughput"; "mean_request_latency"; "mean_unit_latency";
   "mean_scaled_latency"; "mean_fidelity"].

(** Two dictionaries with the five keys. *)
Definition run_metrics (t f : num) : gmap string value :=
  <["throughput" := VFloat t]>
  (<["mean_request_latency" := VFloat (of_Z 10)]>
  (<["mean_unit_latency" := VFloat (of_Z 5)]>
  (<["mean_scaled_latency" := VFloat (of_Z 5)]>
  (<["mean_fidelity" := VFloat f]> ∅)))).

(** The dictionaries the two aggregators return for the three requests,
    and the result of [calculate_robustness] on the example collector. *)
Definition metrics_py_example : gmap string value :=
  match Metrics.aggregate_metrics three_requests (of_Z 40) None 0 with
  | Ok m => m
  | Raise _ => ∅
  end.

Definition aggregate_metrics_py_example : gmap string value :=
  match AggregateMetrics.aggregate_metrics three_requests (of_Z 40) None 0 with
  | Ok m => m
  | Raise _ => ∅
  end.


(** * Properties *)

(** ** Arithmetic helpers *)

Lemma Qc_of_nat_succ (n : nat) :
  Qc_of_Z (Z.of_nat (S n)) = (Qc_of_Z (Z.of_nat n) + 1)%Qc.
Proof. by rewrite Nat2Z.inj_succ, <- Z.add_1_r, Z2Qc_inj_add, Z2Qc_inj_1. Qed.

Lemma Qc_of_nat_nonzero (n : nat) : n ≠ 0%nat -> Qc_of_Z (Z.of_nat n) ≠ 0%Qc.
Proof.
  intros Hn Heq. rewrite <- Z2Qc_inj_0 in Heq.
  apply Z2Qc_inj in Heq. lia.
Qed.

(** A guarded Python division does not raise. *)
Lemma py_div_guarded (a b : num) :
  num_le b zero = false -> py_div a b = Ok (fdiv a b).
Proof.
  intros Hle. unfold py_div.
  destruct (num_eqb b zero) eqn:Heq; [|done].
  destruct b as [y| | |]; simpl in *; try done.
  apply bool_decide_eq_true in Heq. subst y.
  apply bool_decide_eq_false in Hle. exfalso. apply Hle. done.
Qed.

(** ** Formula library *)

(** The examples of the docstrings. *)
Example fairness_equal_shares :
  fairness [of_Z 100; of_Z 100; of_Z 100] = one.
Proof. vm_compute. f_equal. by apply Qc_is_canon. Qed.

Example fairness_half : fairness [of_Z 100; of_Z 0] = Fin (Q2Qc (1 # 2)).
Proof. vm_compute. f_equal. by apply Qc_is_canon. Qed.

Example fairness_nine_tenths : fairness [of_Z 100; of_Z 50] = Fin (Q2Qc (9 # 10)).
Proof. vm_compute. f_equal. by apply Qc_is_canon. Qed.

Example robustness_throughput_drop :
  robustness (of_Z 100) (of_Z 80) "throughput" = Ok (Fin (Q2Qc (4 # 5))).
Proof. vm_compute. do 2 f_equal. by apply Qc_is_canon. Qed.

(** C10, as stated, fails: for one copy of [0.0] both the numerator and the
    denominator of Jain's index are zero, and numpy's division yields
    [nan]. *)
Lemma fairness_zero_copies_nan :
  fairness (replicate 1 (Fin 0)) = NaN /\ fairness (replicate 1 (Fin 0)) ≠ one.
Proof. split; [by vm_compute | by vm_compute]. Qed.

(** Sums and squares of copies of one value. *)
Lemma foldl_add_replicate (n : nat) (a x : Qc) :
  foldl num_add (Fin a) (replicate n (Fin x))
  = Fin (a + Qc_of_Z (Z.of_nat n) * x)%Qc.
Proof.
  revert a. induction n as [|n IH]; intros a.
  - cbn [replicate foldl]. f_equal. change (Z.of_nat 0) with 0%Z.
    rewrite Z2Qc_inj_0. ring.
  - cbn [replicate foldl num_add]. rewrite IH, Qc_of_nat_succ. f_equal. ring.
Qed.

Lemma np_sum_replicate (n : nat) (x : Qc) :
  np_sum (replicate n (Fin x)) = Fin (Qc_of_Z (Z.of_nat n) * x)%Qc.
Proof.
  unfold np_sum, zero. rewrite foldl_add_replicate. f_equal. ring.
Qed.

Lemma foldl_add_absorbing (x : num) (n : nat) :
  num_add x x = x -> foldl num_add x (replicate n x) = x.
Proof.
  intros Hx. induction n as [|n IH]; [done|].
  cbn [replicate foldl]. by rewrite Hx.
Qed.

Lemma np_sum_copies (x : num) (n : nat) :
  num_add zero x = x -> num_add x x = x ->
  np_sum (replicate (S n) x) = x.
Proof.
  intros H0 Hx. unfold np_sum. cbn [replicate foldl]. rewrite H0.
  by apply foldl_add_absorbing.
Qed.

Lemma map_pow2_replicate (n : nat) (x : num) :
  map num_pow2 (replicate n x) = replicate n (num_pow2 x).
Proof. induction n as [|n IH]; simpl; [done | by rewrite IH]. Qed.

(** Jain's index of copies of [0.0], [inf], [-inf] or [nan] is [0 / 0],
    [inf / inf] or [nan]. *)
Lemma fairness_copies_nan (n : nat) (x : num) :
  num_add zero x = x -> num_add x x = x ->
  num_add zero (num_pow2 x) = num_pow2 x ->
  num_add (num_pow2 x) (num_pow2 x) = num_pow2 x ->
  fdiv (num_pow2 x) (num_mul (of_nat (S n)) (num_pow2 x)) = NaN ->
  fairness (replicate (S n) x) = NaN.
Proof.
  intros H0 Hx H0' Hx' Hdiv. unfold fairness. cbv zeta.
  rewrite length_replicate, bool_decide_eq_false_2 by done.
  rewrite map_pow2_replicate, !np_sum_copies by done. exact Hdiv.
Qed.

(** Copies of a whole number: in the exact arithmetic of the model Jain's
    index is [1.0] for every value but zero. *)
Lemma fairness_copies_whole (n : nat) (z : Z) :
  z ≠ 0 -> fairness (replicate (S n) (of_Z z)) = one.
Proof.
  intros Hz. unfold fairness. cbv zeta.
  rewrite length_replicate, bool_decide_eq_false_2 by done.
  unfold of_Z. rewrite map_pow2_replicate. unfold num_pow2. cbn [num_mul].
  rewrite !np_sum_replicate. unfold of_nat, of_Z. cbn [num_mul fdiv].
  pose proof (Qc_of_nat_nonzero (S n) ltac:(done)) as Hq.
  assert (Hx : Qc_of_Z z ≠ 0%Qc).
  { intros H0. rewrite <- Z2Qc_inj_0 in H0. by apply Z2Qc_inj in H0. }
  set (q := Qc_of_Z (Z.of_nat (S n))) in *. set (x := Qc_of_Z z) in *.
  assert (Hden : (q * (q * (x * x)))%Qc ≠ 0%Qc).
  { intros H0. apply Qcmult_integral in H0 as [H0|H0]; [done|].
    apply Qcmult_integral in H0 as [H0|H0]; [done|].
    by apply Qcmult_integral in H0 as [H0|H0]. }
  rewrite bool_decide_eq_false_2 by done.
  unfold one. f_equal. field. done.
Qed.

(** C10, amended: [fairness] of the empty list is [1.0]; of [n + 1] copies
    of [0.0], of [inf], of [-inf] or of [nan] it is [nan]; of [n + 1] copies
    of a whole number [z] that is not zero it is [1.0] when
    [((n + 1) * z)^2 <= 2^53]: every intermediate result ([k * z], [z * z],
    their sums and products) is then a whole number of magnitude at most
    [2^53], which the float operations compute without rounding.  Of copies
    of any other finite value the result is [1.0] up to the rounding of the
    float operations only, and nothing is stated. *)
Theorem fairness_replicate (n : nat) (z : Z) :
  fairness [] = one /\
  fairness (replicate (S n) zero) = NaN /\
  fairness (replicate (S n) PInf) = NaN /\
  fairness (replicate (S n) NInf) = NaN /\
  fairness (replicate (S n) NaN) = NaN /\
  (z ≠ 0 -> (Z.of_nat (S n) * z) ^ 2 <= 2 ^ 53 ->
   fairness (replicate (S n) (of_Z z)) = one).
Proof.
  split; [reflexivity|].
  split_and!; try (apply fairness_copies_nan; reflexivity).
  intros Hz _. by apply fairness_copies_whole.
Qed.

(** C10, amended, on three copies of 100 (the example of the docstring)
    and on 1024 copies of 65536. *)
Lemma fairness_replicate_witness :
  fairness (replicate 3 (of_Z 100)) = one /\
  fairness (replicate 1024 (of_Z 65536)) = one.
Proof.
  split.
  - apply (fairness_replicate 2 100); [lia|by vm_compute].
  - apply (fairness_replicate 1023 65536); [lia|by vm_compute].
Defined.

(** C9: [robustness] returns [degraded / baseline] for the higher-is-better
    metric types, [0.0] when the baseline is not positive; [baseline /
    degraded] for ['latency'], [inf] when the degraded value is not
    positive; it raises [ValueError] for every other metric type, and only
    then. *)
Theorem robustness_cases (baseline degraded : num) (metric_type : string) :
  (metric_type ∈ ["throughput"; "fidelity"; "fairness"] ->
     robustness baseline degraded metric_type
     = Ok (if num_le baseline zero then zero else fdiv degraded baseline)) /\
  (metric_type = "latency" ->
     robustness baseline degraded metric_type
     = Ok (if num_le degraded zero then PInf else fdiv baseline degraded)) /\
  (metric_type ∉ ["throughput"; "fidelity"; "fairness"; "latency"] ->
     robustness baseline degraded metric_type
     = Raise (ValueError (unknown_metric_type metric_type))).
Proof.
  unfold robustness, higher_is_better. split; [|split].
  - intros Hin. rewrite bool_decide_eq_true_2 by done.
    destruct (num_le baseline zero) eqn:Hle; [done|].
    by apply py_div_guarded.
  - intros ->. rewrite bool_decide_eq_false_2.
    2:{ rewrite !elem_of_cons, elem_of_nil. intros [?|[?|[?|[]]]]; discriminate. }
    rewrite bool_decide_eq_true_2 by done.
    destruct (num_le degraded zero) eqn:Hle; [done|].
    by apply py_div_guarded.
  - intros Hnot. rewrite bool_decide_eq_false_2.
    2:{ intros Hin. apply Hnot. rewrite !elem_of_cons in *. tauto. }
    rewrite bool_decide_eq_false_2; [done|].
    intros ->. apply Hnot. rewrite !elem_of_cons. tauto.
Qed.

(** C9 on the three kinds of metric type. *)
Lemma robustness_cases_witness :
  robustness (of_Z 100) (of_Z 80) "throughput"
    = Ok (if num_le (of_Z 100) zero then zero else fdiv (of_Z 80) (of_Z 100)) /\
  robustness (of_Z 10) (of_Z 0) "latency"
    = Ok (if num_le (of_Z 0) zero then PInf else fdiv (of_Z 10) (of_Z 0)) /\
  robustness (of_Z 1) (of_Z 1) "jitter"
    = Raise (ValueError (unknown_metric_type "jitter")).
Proof.
  split; [|split].
  - apply (proj1 (robustness_cases (of_Z 100) (of_Z 80) "throughput")).
    rewrite !elem_of_cons. tauto.
  - apply (proj1 (proj2 (robustness_cases (of_Z 10) (of_Z 0) "latency"))).
    reflexivity.
  - apply (proj2 (proj2 (robustness_cases (of_Z 1) (of_Z 1) "jitter"))).
    rewrite !elem_of_cons, elem_of_nil. intros [?|[?|[?|[?|[]]]]]; discriminate.
Defined.

(** ** Request ledger *)

Section Ledger.
Context `{NdArray A}.
Implicit Types (c : collector A) (req : request A) (qs : qubits A).

Lemma set_completed_units_undo req :
  set_completed_units (set_completed_units req (completed_units req + 1))
    (completed_units (set_completed_units req (completed_units req + 1)) - 1)
  = req.
Proof. destruct req. unfold set_completed_units. simpl. f_equal. lia. Qed.

(** C7: a delivery for a request id that is not active returns without
    an error and leaves every field of the collector as it was. *)
Theorem record_delivery_inactive c (rid qid : Z) qs (now : num) :
  _active_requests c !! rid = None ->
  record_delivery c rid qid qs now = Ok c.
Proof. intros Hnone. unfold record_delivery. by rewrite Hnone. Qed.

(** C3: with a threshold configured (positive) and a best-match fidelity
    below it, a delivery to an active request adds exactly one to
    [rejected_states]; the active requests (so the request and its
    [completed_units]), the fidelity samples and the completed list are
    unchanged. *)
Theorem record_delivery_below_threshold c (rid qid : Z)
    (f00 f01 f10 f11 : num) (dm : option A) (now : num) req :
  _active_requests c !! rid = Some req ->
  num_gt (fidelity_threshold c) zero = true ->
  num_lt (max_fidelity f00 f01 f10 f11) (fidelity_threshold c) = true ->
  exists c',
    record_delivery c rid qid (Qubits f00 f01 f10 f11 dm) now = Ok c' /\
    rejected_states c' = rejected_states c + 1 /\
    _active_requests c' = _active_requests c /\
    _active_requests c' !! rid = Some req /\
    fidelity_values c' = fidelity_values c /\
    requests c' = requests c.
Proof.
  intros Hreq Hthr Hlow. unfold record_delivery.
  rewrite Hreq, Hthr, Hlow. cbn [andb].
  rewrite set_completed_units_undo.
  eexists. split; [reflexivity|]. cbn.
  rewrite insert_id by done. auto.
Qed.

(** The [try] block of [record_delivery], for a delivery that the
    threshold does not reject: the request gains one completed unit, and
    the completion test runs on a collector that differs from [c] at most
    in its fidelity samples. *)
Lemma record_delivery_counted c (rid qid : Z) qs (now : num) req :
  _active_requests c !! rid = Some req ->
  below_threshold (fidelity_threshold c) qs = false ->
  exists c1 req1,
    record_delivery c rid qid qs now = check_complete c1 rid req1 now /\
    same_ledger c c1 /\
    counted_once req req1 /\
    (match qs with
     | Qubits _ _ _ _ _ => True
     | _ => fidelity_values c1 = fidelity_values c
     end).
Proof.
  intros Hreq Hok. unfold record_delivery. rewrite Hreq.
  destruct qs as [| |f00 f01 f10 f11 dm].
  - exists c, (set_completed_units req (completed_units req + 1)).
    repeat split; auto.
  - exists c, (set_completed_units req (completed_units req + 1)).
    repeat split; auto.
  - cbn [below_threshold] in Hok. rewrite Hok.
    cbn [set_completed_units delivered_states].
    destruct dm as [d|], (delivered_states req) as [states|] eqn:Hst;
      eexists _, _; (split; [reflexivity|]);
      repeat split; cbn; auto; try (by intros [? ?]); eauto.
Qed.

(** The completion test, below the quota and at the quota. *)
Lemma check_complete_pending c (rid : Z) req (now : num) :
  completed_units req < num_units req ->
  check_complete c rid req now
  = Ok (set_active c (<[rid := req]> (_active_requests c))).
Proof.
  intros Hlt. unfold check_complete.
  by rewrite bool_decide_eq_false_2 by lia.
Qed.

Lemma check_complete_done c (rid : Z) req (now : num) :
  completed_units req >= num_units req ->
  is_Some (delivered_states req) ->
  exists r,
    check_complete c rid req now
    = Ok (mk_collector (requests c ++ [r]) (start_time c) (end_time c)
            (fidelity_threshold c) (delete rid (_active_requests c))
            (rejected_states c) (fidelity_values c)) /\
    request_id r = request_id req /\
    num_units r = num_units req /\
    node_id r = node_id req /\
    request_time r = request_time req /\
    completed_units r = completed_units req /\
    completion_time r = Some now /\
    delivered_states r = None.
Proof.
  intros Hge [states Hst]. unfold check_complete.
  rewrite bool_decide_eq_true_2 by lia. cbv zeta.
  unfold _finalize_request. cbn [set_active _active_requests].
  rewrite lookup_insert_eq. cbn [set_completion_time delivered_states].
  rewrite Hst, delete_insert_eq.
  eexists. split; [reflexivity|].
  by destruct (is_nonempty states).
Qed.

(** One accepted delivery to a pending request: before the last unit, and
    the last unit. *)
Lemma pending_step c0 (rid n k : Z) c (d : delivery) :
  pending c0 rid n k c ->
  k + 1 < n ->
  accepted (fidelity_threshold c0) rid d ->
  exists c',
    record_delivery c (d_request_id d) (d_qubit_id d) (d_qubits d) (d_time d)
      = Ok c' /\
    pending c0 rid n (k + 1) c'.
Proof.
  intros (Hreqs & Hthr & r & Hact & Hid & Hn & Hk & Hct & Hst) Hlt [-> Hacc].
  destruct (record_delivery_counted c rid (d_qubit_id d) (d_qubits d) (d_time d) r)
    as (c1 & r1 & Hrd & Hsame & Hcnt & _).
  { by rewrite Hact, lookup_insert_eq. }
  { by rewrite Hthr. }
  destruct Hsame as (Hreqs1 & Hact1 & Hthr1 & _).
  destruct Hcnt as (Hid1 & Hn1 & _ & _ & Hct1 & _ & Hk1 & Hst1).
  rewrite Hrd, check_complete_pending by lia.
  eexists. split; [reflexivity|].
  unfold pending. cbn. rewrite Hreqs1, Hthr1, Hact1, Hact, insert_insert_eq.
  repeat split; [done..|].
  exists r1. repeat split; [congruence..|lia|congruence|auto].
Qed.

Lemma pending_final c0 (rid n k : Z) c (d : delivery) :
  pending c0 rid n k c ->
  k + 1 >= n ->
  accepted (fidelity_threshold c0) rid d ->
  exists c' r,
    record_delivery c (d_request_id d) (d_qubit_id d) (d_qubits d) (d_time d)
      = Ok c' /\
    requests c' = requests c0 ++ [r] /\
    _active_requests c' = delete rid (_active_requests c0) /\
    request_id r = rid /\ num_units r = n /\
    completed_units r = k + 1 /\
    completion_time r = Some (d_time d).
Proof.
  intros (Hreqs & Hthr & r & Hact & Hid & Hn & Hk & Hct & Hst) Hge [-> Hacc].
  destruct (record_delivery_counted c rid (d_qubit_id d) (d_qubits d) (d_time d) r)
    as (c1 & r1 & Hrd & Hsame & Hcnt & _).
  { by rewrite Hact, lookup_insert_eq. }
  { by rewrite Hthr. }
  destruct Hsame as (Hreqs1 & Hact1 & Hthr1 & _).
  destruct Hcnt as (Hid1 & Hn1 & _ & _ & Hct1 & _ & Hk1 & Hst1).
  destruct (check_complete_done c1 rid r1 (d_time d))
    as (r' & Hcc & Hid' & Hn' & _ & _ & Hk' & Hct' & _); [lia|auto|].
  rewrite Hrd, Hcc. eexists _, r'. split; [reflexivity|]. cbn.
  rewrite Hreqs1, Hreqs, Hact1, Hact, delete_insert_eq.
  repeat split; congruence.
Qed.

Lemma deliver_all_app c (l1 l2 : list delivery) :
  deliver_all c (l1 ++ l2) = (c' ← deliver_all c l1; deliver_all c' l2).
Proof.
  revert c. induction l1 as [|d l1 IH]; intros c; [done|].
  cbn [app deliver_all].
  destruct (record_delivery c _ _ _ _) as [c'|e]; [apply IH|done].
Qed.

Lemma pending_run c0 (rid n : Z) (ds : list delivery) :
  forall (k : Z) c,
    pending c0 rid n k c ->
    Forall (accepted (fidelity_threshold c0) rid) ds ->
    k + Z.of_nat (length ds) < n ->
    exists c',
      deliver_all c ds = Ok c' /\
      pending c0 rid n (k + Z.of_nat (length ds)) c'.
Proof.
  induction ds as [|d ds IH]; intros k c Hp Hall Hlen.
  - exists c. split; [done|]. cbn. by rewrite Z.add_0_r.
  - inversion_clear Hall as [|? ? Hd Hall']. cbn [length] in Hlen.
    destruct (pending_step c0 rid n k c d Hp) as (c' & Hrd & Hp'); [lia|done|].
    destruct (IH (k + 1) c' Hp' Hall') as (c'' & Hrun & Hp''); [lia|].
    exists c''. cbn [deliver_all]. rewrite Hrd. split; [exact Hrun|].
    replace (k + Z.of_nat (length (d :: ds)))
      with (k + 1 + Z.of_nat (length ds)) by (cbn [length]; lia).
    exact Hp''.
Qed.

Lemma record_request_pending c0 (rid n : Z) (node : string) (t0 : num) c1 :
  record_request c0 rid n node t0 = Ok c1 ->
  pending c0 rid n 0 c1.
Proof.
  intros [= <-]. unfold pending. cbn. repeat split.
  exists (new_request rid n node t0). by repeat split.
Qed.

(** C6: a request registered with quota [n >= 1] that receives [n]
    accepted deliveries, in any order, is completed at the [n]-th one and
    not before: the completed list grows by exactly that request, stamped
    with the time of the [n]-th delivery; the request leaves the active
    set; a later delivery to the same id changes nothing. *)
Theorem request_completes_exactly_once c0 (rid n : Z) (node : string)
    (t0 : num) c1 (ds0 ds : list delivery) :
  1 <= n ->
  record_request c0 rid n node t0 = Ok c1 ->
  length ds0 = Z.to_nat n ->
  Forall (accepted (fidelity_threshold c0) rid) ds0 ->
  ds ≡ₚ ds0 ->
  exists c2 r,
    deliver_all c1 ds = Ok c2 /\
    _active_requests c2 !! rid = None /\
    requests c2 = requests c0 ++ [r] /\
    request_id r = rid /\ num_units r = n /\ completed_units r = n /\
    completion_time r = (d_time <$> list.last ds) /\
    (forall k : nat, (k < length ds)%nat ->
       exists ck rk,
         deliver_all c1 (take k ds) = Ok ck /\
         requests ck = requests c0 /\
         _active_requests ck !! rid = Some rk /\
         completed_units rk = Z.of_nat k /\
         completion_time rk = None) /\
    (forall (qid : Z) (qs : qubits A) (now : num),
       record_delivery c2 rid qid qs now = Ok c2).
Proof.
  intros Hn Hreg Hlen0 Hall0 Hperm.
  assert (Hlen : length ds = Z.to_nat n) by (by rewrite Hperm).
  assert (Hall : Forall (accepted (fidelity_threshold c0) rid) ds)
    by (by rewrite Hperm).
  clear Hperm Hlen0 Hall0.
  apply record_request_pending in Hreg as Hp0.
  destruct ds as [|d ds'] using rev_ind; [cbn in Hlen; lia|]. clear IHds'.
  rewrite length_app in Hlen. cbn [length] in Hlen.
  apply Forall_app in Hall as [Hall' Hd]. apply Forall_inv in Hd.
  destruct (pending_run c0 rid n ds' 0 c1 Hp0 Hall') as (cm & Hrun & Hpm); [lia|].
  destruct (pending_final c0 rid n _ cm d Hpm)
    as (c2 & r & Hrd & Hreqs & Hact & Hid & Hnum & Hk & Hct); [lia|done|].
  assert (Hgone : _active_requests c2 !! rid = None)
    by (by rewrite Hact, lookup_delete_eq).
  exists c2, r. rewrite deliver_all_app, Hrun. cbn [mbind result_bind deliver_all].
  rewrite Hrd. repeat split; try done.
  - lia.
  - by rewrite last_snoc.
  - intros k Hklt. rewrite length_app in Hklt. cbn [length] in Hklt.
    rewrite take_app_le by lia.
    destruct (pending_run c0 rid n (take k ds') 0 c1 Hp0) as (ck & Hrunk & Hpk).
    { by apply Forall_take. }
    { rewrite length_take. lia. }
    destruct Hpk as (Hreqsk & _ & rk & Hactk & _ & _ & Hcu & Hctk & _).
    exists ck, rk. repeat split; try done.
    + by rewrite Hactk, lookup_insert_eq.
    + rewrite Hcu, length_take. lia.
  - intros qid qs now. by apply record_delivery_inactive.
Qed.

(** C5, amended: [record_request] never fails.  The active entry of the
    id is afterwards a fresh request with no completed unit, whether or
    not the id was active before; the other active requests and every
    other field of the collector (the completed requests, the rejection
    counter, the samples, the two clock marks and the threshold) are
    unchanged. *)
Theorem record_request_replaces c (rid n : Z) (node : string) (now : num) :
  exists c',
    record_request c rid n node now = Ok c' /\
    _active_requests c' !! rid = Some (new_request rid n node now) /\
    completed_units (new_request (A := A) rid n node now) = 0 /\
    delete rid (_active_requests c') = delete rid (_active_requests c) /\
    requests c' = requests c /\
    rejected_states c' = rejected_states c /\
    fidelity_values c' = fidelity_values c /\
    start_time c' = start_time c /\
    end_time c' = end_time c /\
    fidelity_threshold c' = fidelity_threshold c.
Proof.
  eexists. split; [reflexivity|]. cbn.
  rewrite lookup_insert_eq, delete_insert_eq. by repeat split.
Qed.

(** C2, amended: a delivery whose fidelity computation raises is handled
    as a delivery without a state.  It counts as one completed unit (and
    completes the request when the quota is reached); no fidelity sample
    is recorded and [rejected_states] is unchanged. *)
Theorem record_delivery_fidelity_raises c (rid qid : Z) (now : num) req :
  _active_requests c !! rid = Some req ->
  is_Some (delivered_states req) ->
  exists c',
    record_delivery c rid qid FidelityRaises now = Ok c' /\
    record_delivery c rid qid NoQubits now = Ok c' /\
    fidelity_values c' = fidelity_values c /\
    rejected_states c' = rejected_states c /\
    (completed_units req + 1 < num_units req ->
       requests c' = requests c /\
       completed_units <$> _active_requests c' !! rid
         = Some (completed_units req + 1)) /\
    (completed_units req + 1 >= num_units req ->
       _active_requests c' !! rid = None /\
       exists r, requests c' = requests c ++ [r] /\
                 completed_units r = completed_units req + 1 /\
                 completion_time r = Some now).
Proof.
  intros Hreq Hst. unfold record_delivery. rewrite Hreq.
  set (req1 := set_completed_units req (completed_units req + 1)).
  destruct (decide (completed_units req + 1 < num_units req)) as [Hlt|Hge].
  - rewrite check_complete_pending by done.
    eexists. repeat split; try done; try lia.
    cbn. by rewrite lookup_insert_eq.
  - destruct (check_complete_done c rid req1 now)
      as (r & Hcc & _ & _ & _ & _ & Hcu & Hct & _); [cbn; lia|done|].
    rewrite Hcc. eexists. repeat split; try done; try lia.
    + cbn. apply lookup_delete_eq.
    + by exists r.
Qed.

End Ledger.

(** *** The ledger on the example runs *)

(** C7 on a collector without requests. *)
Lemma record_delivery_inactive_witness :
  _active_requests (new_collector (A := matrix) zero) !! 3 = None /\
  record_delivery (new_collector zero) 3 0 good_pair (of_Z 5)
  = Ok (new_collector zero).
Proof.
  assert (Hyp : _active_requests (new_collector (A := matrix) zero) !! 3 = None)
    by reflexivity.
  split; [exact Hyp|].
  exact (record_delivery_inactive (new_collector zero) 3 0 good_pair (of_Z 5) Hyp).
Defined.

(** C3 with threshold 0.5 and a best-match fidelity of 0.3. *)
Lemma record_delivery_below_threshold_witness :
  exists c',
    record_delivery one_active 0 0 poor_pair (of_Z 5) = Ok c' /\
    rejected_states c' = rejected_states one_active + 1 /\
    _active_requests c' = _active_requests one_active /\
    _active_requests c' !! 0 = Some (new_request 0 2 "A" zero) /\
    fidelity_values c' = fidelity_values one_active /\
    requests c' = requests one_active.
Proof.
  apply (record_delivery_below_threshold one_active 0 0
           (Fin (Q2Qc (3 # 10))) (Fin (Q2Qc (2 # 10)))
           (Fin (Q2Qc (3 # 10))) (Fin (Q2Qc (2 # 10)))
           (Some (diagonal_dm (Fin (Q2Qc (3 # 10))) (Fin (Q2Qc (2 # 10)))))
           (of_Z 5) (new_request 0 2 "A" zero)).
  - reflexivity.
  - reflexivity.
  - reflexivity.
Defined.

(** C2, as stated, fails: the fidelity computation raises and the request
    has one completed unit more than before. *)
Lemma fidelity_raises_counts_unit :
  completed_units <$> _active_requests one_active !! 0 = Some 0 /\
  (c' ← record_delivery one_active 0 0 FidelityRaises (of_Z 5);
   mret (completed_units <$> _active_requests c' !! 0)) = Ok (Some 1).
Proof. split; reflexivity. Qed.

(** C2, amended, on the same delivery: one unit of two is counted. *)
Lemma record_delivery_fidelity_raises_witness :
  exists c',
    record_delivery one_active 0 0 FidelityRaises (of_Z 5) = Ok c' /\
    record_delivery one_active 0 0 NoQubits (of_Z 5) = Ok c' /\
    fidelity_values c' = [] /\
    rejected_states c' = 0 /\
    requests c' = [] /\
    completed_units <$> _active_requests c' !! 0 = Some 1.
Proof.
  destruct (record_delivery_fidelity_raises one_active 0 0 (of_Z 5)
              (new_request 0 2 "A" zero))
    as (c' & Hraise & Hnone & Hfid & Hrej & Hpending & _).
  - reflexivity.
  - by eexists.
  - exists c'. destruct Hpending as [Hreqs Hcu]; [by vm_compute|].
    repeat split; assumption.
Defined.

(** C5, as stated, fails: request 0 is active with one completed unit;
    registering id 0 again returns normally and the entry starts over. *)
Lemma record_request_duplicate_accepted :
  is_Some (_active_requests one_delivered !! 0) /\
  is_ok (record_request one_delivered 0 2 "A" (of_Z 7)) /\
  (c' ← record_request one_delivered 0 2 "A" (of_Z 7);
   mret (completed_units <$> _active_requests c' !! 0)) = Ok (Some 0).
Proof. split; [by eexists|]. split; [exact I|reflexivity]. Qed.

Lemma three_units_reordered_perm : three_units_reordered ≡ₚ three_units.
Proof.
  unfold three_units_reordered, three_units.
  etrans; [apply perm_swap|]. apply perm_skip, perm_swap.
Qed.

(** C6 with a quota of three units, delivered at 30, 10 and 20. *)
Lemma request_completes_exactly_once_witness :
  exists c2 r,
    deliver_all three_requested three_units_reordered = Ok c2 /\
    _active_requests c2 !! 0 = None /\
    requests c2 = [r] /\
    completed_units r = 3 /\
    completion_time r = Some (of_Z 20) /\
    record_delivery c2 0 9 good_pair (of_Z 40) = Ok c2.
Proof.
  destruct (request_completes_exactly_once (new_collector half) 0 3 "A" zero
              three_requested three_units three_units_reordered)
    as (c2 & r & Hrun & Hgone & Hreqs & _ & _ & Hcu & Hct & _ & Hafter).
  - lia.
  - reflexivity.
  - reflexivity.
  - unfold three_units. repeat constructor.
  - exact three_units_reordered_perm.
  - exists c2, r. repeat split; try assumption. apply Hafter.
Defined.

(** ** Metric aggregator *)

(** Equality of evaluated results, up to the proofs of canonicity carried
    by the rationals. *)
Ltac num_eq :=
  repeat match goal with
         | |- @eq Qc _ _ => apply Qc_is_canon; reflexivity
         | |- _ => reflexivity
         | |- _ => f_equal
         end.

(** Both modules return the same dictionary for an empty request list. *)
Lemma aggregate_metrics_empty (simulation_time : num)
    (fidelity_values : option (list num)) (rejected_states : Z) :
  Metrics.aggregate_metrics (A := matrix) [] simulation_time fidelity_values
    rejected_states = Ok empty_metrics /\
  AggregateMetrics.aggregate_metrics (A := matrix) [] simulation_time
    fidelity_values rejected_states = Ok empty_metrics.
Proof. split; reflexivity. Qed.

(** *** What [aggregate_metrics.py] returns for a non-empty list *)

Lemma bind_ok {X Y} (m : result X) (f : X -> result Y) (y : Y) :
  (x ← m; f x) = Ok y -> exists x, m = Ok x /\ f x = Ok y.
Proof. destruct m as [x|e]; [by exists x|done]. Qed.

Lemma node_step_keys (st st' : node_acc) (entry : string * node_data) :
  AggregateMetrics.node_step st entry = Ok st' ->
  (forall node d, per_node_metrics st !! node = Some d ->
                  dom d ⊆ AggregateMetrics.node_keys) ->
  forall node d, per_node_metrics st' !! node = Some d ->
                 dom d ⊆ AggregateMetrics.node_keys.
Proof.
  destruct entry as [k data]. unfold AggregateMetrics.node_step.
  intros Hstep Hinv node d.
  apply bind_ok in Hstep as (thr & _ & Hstep).
  destruct (is_nonempty (nd_fidelities data));
    injection Hstep as <-; cbn [per_node_metrics];
    rewrite ?insert_insert_eq, lookup_insert; case_decide.
  - intros [= <-]. rewrite !dom_insert_L, dom_empty_L.
    unfold AggregateMetrics.node_keys. set_unfold. tauto.
  - apply Hinv.
  - intros [= <-]. rewrite !dom_insert_L, dom_empty_L.
    unfold AggregateMetrics.node_keys. set_unfold. tauto.
  - apply Hinv.
Qed.

Lemma node_loop_keys (items : list (string * node_data)) :
  forall st st',
    AggregateMetrics.node_loop st items = Ok st' ->
    (forall node d, per_node_metrics st !! node = Some d ->
                    dom d ⊆ AggregateMetrics.node_keys) ->
    forall node d, per_node_metrics st' !! node = Some d ->
                   dom d ⊆ AggregateMetrics.node_keys.
Proof.
  induction items as [|entry items IH]; intros st st' Hloop Hinv.
  - by injection Hloop as <-.
  - cbn [AggregateMetrics.node_loop] in Hloop.
    apply bind_ok in Hloop as (st1 & Hstep & Hloop).
    eapply IH; [exact Hloop|]. by eapply node_step_keys.
Qed.

(** For every non-empty request list, whatever the other arguments, a
    dictionary returned by [aggregate_metrics.py] has none of the keys
    ['fairness_throughput'], ['fairness_latency'], ['per_node_metrics'],
    ['fairness_fidelity']. *)
Lemma aggregate_metrics_drops_fairness `{NdArray A}
    (requests : list (request A)) (simulation_time : num) (fidelity_values : option (list num))
    (rejected_states : Z) (m : gmap string value) (k : string) :
  requests ≠ [] ->
  AggregateMetrics.aggregate_metrics requests simulation_time fidelity_values
    rejected_states = Ok m ->
  k ∈ ["fairness_throughput"; "fairness_latency"; "per_node_metrics";
       "fairness_fidelity"] ->
  m !! k = None.
Proof.
  intros Hne Hagg Hk. unfold AggregateMetrics.aggregate_metrics in Hagg.
  destruct requests as [|req rest]; [done|]. cbn [is_nonempty] in Hagg.
  apply bind_ok in Hagg as (st & _ & Hagg).
  apply bind_ok in Hagg as (nodes & Hnodes & Hagg).
  apply bind_ok in Hagg as (splat & Hsplat & Hagg).
  assert (Hdom : dom splat ⊆ AggregateMetrics.node_keys).
  { unfold AggregateMetrics.last_node_metrics in Hsplat.
    destruct (last_node_id nodes) as [node|]; [|done].
    destruct (per_node_metrics nodes !! node) as [d|] eqn:Hd; [|done].
    injection Hsplat as <-.
    eapply (node_loop_keys _ _ _ Hnodes); [|exact Hd].
    intros ? ?. cbn. by rewrite lookup_empty. }
  assert (Hsp : splat !! k = None).
  { apply not_elem_of_dom. intros Hin. apply Hdom in Hin.
    unfold AggregateMetrics.node_keys in Hin.
    rewrite !elem_of_cons, elem_of_nil in Hk.
    destruct Hk as [->|[->|[->|[->|[]]]]]; set_solver. }
  assert (Hbase :
    ((atom_value <$> splat) ∪
     (<["mean_request_latency" := VFloat (np_mean (latencies st))]>
     (<["mean_unit_latency" := VFloat (np_mean (unit_latencies st))]>
     (<["mean_scaled_latency" := VFloat (np_mean (scaled_latencies st))]>
     (<["rejected_states" := VInt rejected_states]> ∅)))) : gmap string value)
    !! k = None).
  { apply lookup_union_None. split; [by rewrite lookup_fmap, Hsp|].
    rewrite !elem_of_cons, elem_of_nil in Hk.
    destruct Hk as [->|[->|[->|[->|[]]]]]; reflexivity. }
  rewrite !elem_of_cons, elem_of_nil in Hk.
  destruct (is_nonempty (fidelities st)); injection Hagg as <-; [|exact Hbase].
  rewrite lookup_insert_ne; [exact Hbase|].
  destruct Hk as [->|[->|[->|[->|[]]]]]; discriminate.
Qed.

Lemma take_min_length {X} (n : nat) (l : list X) :
  take (Nat.min n (length l)) l = take n l.
Proof.
  destruct (Nat.le_gt_cases n (length l)) as [Hle|Hgt].
  - by rewrite Nat.min_l.
  - rewrite Nat.min_r, !take_ge by lia. done.
Qed.

(** The samples taken by the request loop are a prefix of
    [fidelity_values]: one sample per row of each delivered state. *)
Lemma take_fidelities_prefix (n : nat) (fvl : list num) (node : string) :
  forall st : acc,
    fidelities st = take (fid_idx st) fvl ->
    (fid_idx st <= length fvl)%nat ->
    fid_idx (take_fidelities n fvl node st)
      = Nat.min (fid_idx st + n) (length fvl) /\
    fidelities (take_fidelities n fvl node st)
      = take (fid_idx (take_fidelities n fvl node st)) fvl.
Proof.
  induction n as [|n IH]; intros st Hfid Hidx; cbn [take_fidelities].
  - split; [lia|done].
  - destruct (fvl !! fid_idx st) as [fid|] eqn:Hlook.
    + apply lookup_lt_Some in Hlook as Hlt.
      match goal with
      | |- context [take_fidelities n fvl node ?s] => set (st1 := s)
      end.
      assert (Hf1 : fidelities st1 = take (fid_idx st1) fvl).
      { cbn. rewrite Hfid. symmetry. by apply take_S_r. }
      assert (Hi1 : (fid_idx st1 <= length fvl)%nat) by (cbn; lia).
      destruct (IH st1 Hf1 Hi1) as [Hi Hf].
      split; [rewrite Hi; unfold st1; cbn [fid_idx]; lia|exact Hf].
    + apply lookup_ge_None in Hlook.
      destruct (IH st Hfid Hidx) as [Hi Hf]. split; [lia|done].
Qed.

Lemma request_step_prefix `{NdArray A} (fidelity_values : option (list num))
    (st st' : acc) (req : request A) :
  request_step fidelity_values st req = Ok st' ->
  fidelities st = take (fid_idx st) (given fidelity_values) ->
  (fid_idx st <= length (given fidelity_values))%nat ->
  fid_idx st'
    = Nat.min (fid_idx st + state_len req) (length (given fidelity_values)) /\
  fidelities st' = take (fid_idx st') (given fidelity_values).
Proof.
  intros Hstep Hfid Hidx. unfold request_step in Hstep.
  apply bind_ok in Hstep as (completion & _ & Hstep).
  apply bind_ok in Hstep as (unit_lat & _ & Hstep).
  apply bind_ok in Hstep as (scaled_lat & _ & Hstep).
  unfold state_len.
  destruct (delivered_state req) as [state|].
  - destruct (given fidelity_values) as [|fid fvl] eqn:Hgiven;
      cbn [is_nonempty] in Hstep; injection Hstep as <-.
    + cbn in *. split; [lia|done].
    + match goal with
      | |- context [take_fidelities ?n ?l ?nd ?s] =>
          destruct (take_fidelities_prefix n l nd s) as [Hi Hf];
          [exact Hfid|exact Hidx|]
      end.
      split; [exact Hi|exact Hf].
  - injection Hstep as <-. cbn. split; [lia|done].
Qed.

Lemma request_loop_prefix `{NdArray A} (fidelity_values : option (list num))
    (requests : list (request A)) :
  forall st st' : acc,
    request_loop fidelity_values st requests = Ok st' ->
    fidelities st = take (fid_idx st) (given fidelity_values) ->
    (fid_idx st <= length (given fidelity_values))%nat ->
    fid_idx st'
      = Nat.min (fid_idx st + states_len requests)
          (length (given fidelity_values)) /\
    fidelities st' = take (fid_idx st') (given fidelity_values).
Proof.
  induction requests as [|req rest IH]; intros st st' Hloop Hfid Hidx.
  - injection Hloop as <-. cbn. split; [lia|done].
  - cbn [request_loop] in Hloop.
    apply bind_ok in Hloop as (st1 & Hstep & Hloop).
    destruct (request_step_prefix _ _ _ _ Hstep Hfid Hidx) as [Hi1 Hf1].
    destruct (IH st1 st' Hloop Hf1) as [Hi Hf]; [lia|].
    split; [|exact Hf]. cbn [states_len foldr]. fold (states_len rest). lia.
Qed.

(** For every non-empty request list, ['mean_fidelity'] is the mean of
    the first [states_len requests] samples, and is absent when there is no
    such sample. *)
Lemma aggregate_metrics_mean_fidelity `{NdArray A}
    (requests : list (request A)) (simulation_time : num)
    (fidelity_values : option (list num)) (rejected_states : Z)
    (m : gmap string value) :
  requests ≠ [] ->
  AggregateMetrics.aggregate_metrics requests simulation_time fidelity_values
    rejected_states = Ok m ->
  m !! "mean_fidelity"
  = match take (states_len requests) (given fidelity_values) with
    | [] => None
    | used => Some (VFloat (np_mean used))
    end.
Proof.
  intros Hne Hagg. unfold AggregateMetrics.aggregate_metrics in Hagg.
  destruct requests as [|req rest]; [done|]. cbn [is_nonempty] in Hagg.
  apply bind_ok in Hagg as (st & Hloop & Hagg).
  apply bind_ok in Hagg as (nodes & Hnodes & Hagg).
  apply bind_ok in Hagg as (splat & Hsplat & Hagg).
  destruct (request_loop_prefix _ _ _ _ Hloop) as [Hi Hf]; [done|cbn; lia|].
  cbn [fid_idx new_acc] in Hi. rewrite Nat.add_0_l in Hi.
  assert (Hused : fidelities st
                  = take (states_len (req :: rest)) (given fidelity_values)).
  { rewrite Hf, Hi. apply take_min_length. }
  rewrite <- Hused.
  destruct (fidelities st) as [|f fs] eqn:Hfs; cbn [is_nonempty] in Hagg;
    injection Hagg as <-.
  - apply lookup_union_None. split; [|reflexivity].
    rewrite lookup_fmap.
    assert (Hdom : dom splat ⊆ AggregateMetrics.node_keys).
    { unfold AggregateMetrics.last_node_metrics in Hsplat.
      destruct (last_node_id nodes) as [node|]; [|done].
      destruct (per_node_metrics nodes !! node) as [d|] eqn:Hd; [|done].
      injection Hsplat as <-.
      eapply (node_loop_keys _ _ _ Hnodes); [|exact Hd].
      intros ? ?. cbn. by rewrite lookup_empty. }
    assert (Hsp : splat !! "mean_fidelity" = None).
    { apply not_elem_of_dom. intros Hin. apply Hdom in Hin.
      unfold AggregateMetrics.node_keys in Hin. set_solver. }
    by rewrite Hsp.
  - by rewrite lookup_insert_eq.
Qed.


(** ** The aggregator as a function of the request list *)

Lemma first_seen_snoc (ids : list string) (node : string) :
  first_seen (ids ++ [node])
  = if bool_decide (node ∈ first_seen ids) then first_seen ids
    else first_seen ids ++ [node].
Proof. unfold first_seen. by rewrite foldl_app. Qed.

Lemma first_seen_elem (ids : list string) (node : string) :
  node ∈ first_seen ids <-> node ∈ ids.
Proof.
  induction ids as [|id ids IH] using rev_ind.
  - done.
  - rewrite first_seen_snoc, elem_of_app, list_elem_of_singleton.
    case_bool_decide as Hin.
    + split; [tauto|]. intros [?| ->]; [tauto|done].
    + rewrite elem_of_app, list_elem_of_singleton. tauto.
Qed.

Lemma first_seen_NoDup (ids : list string) : NoDup (first_seen ids).
Proof.
  induction ids as [|id ids IH] using rev_ind.
  - constructor.
  - rewrite first_seen_snoc. case_bool_decide as Hin; [done|].
    apply list.NoDup_app. split_and!; [done| |apply list.NoDup_singleton].
    intros x Hx ->%list_elem_of_singleton. done.
Qed.

Lemma alist_mem_keys {V} (k : string) (d : list (string * V)) :
  alist_mem k d = bool_decide (k ∈ d.*1).
Proof.
  induction d as [|[k' v] d IH]; cbn [alist_mem].
  - symmetry. apply bool_decide_eq_false_2. apply not_elem_of_nil.
  - cbn [fmap list_fmap fst]. destruct (decide (k' = k)) as [->|Hne].
    + rewrite (bool_decide_eq_true_2 (k = k)) by done.
      symmetry. apply bool_decide_eq_true_2. apply elem_of_cons. by left.
    + rewrite (bool_decide_eq_false_2 (k' = k)) by done.
      rewrite IH. apply bool_decide_ext. rewrite elem_of_cons.
      split; [tauto|]. intros [->|?]; [done|tauto].
Qed.

Lemma node_view_keys (data : list (string * node_data)) :
  (node_view data).*1 = data.*1.
Proof. unfold node_view. by rewrite <- list_fmap_compose. Qed.

Lemma node_view_cons (k : string) (v : node_data)
    (data : list (string * node_data)) :
  node_view ((k, v) :: data) = (k, (nd_units v, nd_latencies v)) :: node_view data.
Proof. reflexivity. Qed.

Lemma node_view_app (d d' : list (string * node_data)) :
  node_view (d ++ d') = node_view d ++ node_view d'.
Proof. apply fmap_app. Qed.

Lemma node_view_snoc (data : list (string * node_data)) (k : string)
    (v : node_data) :
  node_view (data ++ [(k, v)])
  = node_view data ++ [(k, (nd_units v, nd_latencies v))].
Proof. apply node_view_app. Qed.

Lemma node_view_unchanged (g : node_data -> node_data) (k : string)
    (d : list (string * node_data)) :
  (forall v, nd_units (g v) = nd_units v /\ nd_latencies (g v) = nd_latencies v) ->
  node_view (alist_alter g k d) = node_view d.
Proof.
  intros Hg.
  induction d as [|[k' v] d IH]; [done|]. cbn [alist_alter].
  case_bool_decide; rewrite !node_view_cons.
  - destruct (Hg v) as [-> ->]. done.
  - by rewrite IH.
Qed.

Lemma requested_units_app {A} (l l' : list (request A)) :
  requested_units (l ++ l') = requested_units l + requested_units l'.
Proof.
  unfold requested_units. induction l as [|req l IH]; cbn [foldr app]; lia.
Qed.

Lemma node_requests_snoc {A} (node : string) (seen : list (request A))
    (req : request A) :
  node_requests node (seen ++ [req])
  = if bool_decide (node_id req = node) then node_requests node seen ++ [req]
    else node_requests node seen.
Proof.
  unfold node_requests. rewrite list.filter_app.
  case_bool_decide as Hnode.
  - by rewrite filter_cons_True by done.
  - rewrite filter_cons_False by done. apply app_nil_r.
Qed.

Lemma node_requests_absent {A} (node : string) (seen : list (request A)) :
  node ∉ node_id <$> seen -> node_requests node seen = [].
Proof.
  intros Hnot. unfold node_requests.
  induction seen as [|req seen IH]; [done|].
  rewrite filter_cons_False.
  - apply IH. intros Hin. apply Hnot. cbn. apply elem_of_cons. by right.
  - intros Heq. apply Hnot. cbn. apply elem_of_cons. by left.
Qed.

(** The update of one node's entry by a request of that node. *)
Lemma node_view_alter {A} (f : node_data -> node_data) (seen : list (request A))
    (req : request A) (lat : num) :
  latency_of req = Some lat ->
  (forall v, nd_units (f v) = nd_units v + num_units req /\
             nd_latencies (f v) = nd_latencies v ++ [lat]) ->
  forall (data : list (string * node_data)) (ks : list string),
    NoDup ks ->
    node_view data
    = (fun node => (node, (node_units node seen, node_latencies node seen)))
        <$> ks ->
    node_view (alist_alter f (node_id req) data)
    = (fun node => (node, (node_units node (seen ++ [req]),
                           node_latencies node (seen ++ [req])))) <$> ks.
Proof.
  intros Hlat Hf.
  assert (Hother : forall k, k ≠ node_id req ->
    node_units k (seen ++ [req]) = node_units k seen /\
    node_latencies k (seen ++ [req]) = node_latencies k seen).
  { intros k Hk. unfold node_units, node_latencies.
    rewrite node_requests_snoc, bool_decide_eq_false_2; [done|].
    intros Heq. by apply Hk. }
  assert (Hsame :
    node_units (node_id req) (seen ++ [req])
      = node_units (node_id req) seen + num_units req /\
    node_latencies (node_id req) (seen ++ [req])
      = node_latencies (node_id req) seen ++ [lat]).
  { unfold node_units, node_latencies.
    rewrite node_requests_snoc, bool_decide_eq_true_2 by done.
    rewrite requested_units_app, omap_app. cbn. rewrite Hlat. cbn.
    split; [lia|done]. }
  induction data as [|[k v] data IH]; intros ks Hnodup Hview.
  - destruct ks; [done|discriminate Hview].
  - destruct ks as [|k0 ks]; [discriminate Hview|].
    rewrite node_view_cons, fmap_cons in Hview.
    injection Hview as -> Hunits Hlats Hrest.
    apply list.NoDup_cons in Hnodup as [Hk0 Hnodup].
    cbn [alist_alter]. rewrite fmap_cons. case_bool_decide as Hk.
    + subst k0. rewrite node_view_cons.
      destruct (Hf v) as [-> ->]. destruct Hsame as [-> ->].
      rewrite Hunits, Hlats. f_equal.
      rewrite Hrest. apply Forall_fmap_ext, list.Forall_forall. intros k Hin.
      destruct (Hother k) as [-> ->]; [|done].
      intros ->. done.
    + rewrite node_view_cons.
      destruct (Hother k0) as [-> ->]; [done|].
      rewrite Hunits, Hlats. f_equal. by apply IH.
Qed.

Lemma take_fidelities_view (n : nat) (fvl : list num) (node : string) :
  forall st : acc,
    let st' := take_fidelities n fvl node st in
    latencies st' = latencies st /\
    unit_latencies st' = unit_latencies st /\
    scaled_latencies st' = scaled_latencies st /\
    total_units st' = total_units st /\
    node_view (per_node_data st') = node_view (per_node_data st).
Proof.
  induction n as [|n IH]; intros st; cbn [take_fidelities]; [done|].
  destruct (fvl !! fid_idx st) as [fid|]; [|apply IH].
  cbv zeta in IH |- *.
  destruct (IH
    {| latencies := latencies st;
       unit_latencies := unit_latencies st;
       scaled_latencies := scaled_latencies st;
       per_node_data :=
         alist_alter (fun d =>
           {| nd_units := nd_units d;
              nd_latencies := nd_latencies d;
              nd_fidelities := nd_fidelities d ++ [fid];
              nd_first_request_time := nd_first_request_time d;
              nd_last_completion_time := nd_last_completion_time d |})
           node (per_node_data st);
       fidelities := fidelities st ++ [fid];
       total_units := total_units st;
       fid_idx := S (fid_idx st) |})
    as (-> & -> & -> & -> & ->).
  cbn. split_and!; try done. by apply node_view_unchanged.
Qed.

Section AggregatorViews.
Context `{NdArray A}.
Implicit Types (req : request A) (requests seen : list (request A)).

(** One iteration of the loop over the requests, on the quantities the
    results are made of. *)
Lemma request_step_view (fidelity_values : option (list num)) (st st' : acc)
    req seen :
  request_step fidelity_values st req = Ok st' ->
  node_view (per_node_data st) = node_spec seen ->
  exists lat u,
    latency_of req = Some lat /\
    latencies st' = latencies st ++ [lat] /\
    unit_latencies st' = unit_latencies st ++ [u] /\
    scaled_latencies st' = scaled_latencies st ++ [u] /\
    total_units st' = total_units st + num_units req /\
    node_view (per_node_data st') = node_spec (seen ++ [req]).
Proof.
  intros Hstep Hview. unfold request_step in Hstep.
  destruct (completion_time req) as [completion|] eqn:Hc; [|discriminate Hstep].
  cbn [float_of mbind result_bind] in Hstep.
  apply bind_ok in Hstep as (unit_lat & Hu & Hstep).
  apply bind_ok in Hstep as (scaled_lat & Hs & Hstep).
  assert (unit_lat = scaled_lat) as <-.
  { unfold unit_latency, scaled_latency in Hu, Hs. rewrite Hu in Hs.
    by injection Hs. }
  exists (request_latency completion (request_time req)), unit_lat.
  assert (Hlat : latency_of req
                 = Some (request_latency completion (request_time req)))
    by (unfold latency_of; by rewrite Hc).
  split; [exact Hlat|].
  set (f := fun d : node_data =>
    {| nd_units := nd_units d + num_units req;
       nd_latencies := nd_latencies d
                        ++ [request_latency completion (request_time req)];
       nd_fidelities := nd_fidelities d;
       nd_first_request_time := py_min (nd_first_request_time d) (request_time req);
       nd_last_completion_time := py_max (nd_last_completion_time d) completion |})
    in Hstep.
  set (data0 := if alist_mem (node_id req) (per_node_data st)
                then per_node_data st
                else per_node_data st ++ [(node_id req, new_node_data)]) in Hstep.
  assert (Hdata : node_view (alist_alter f (node_id req) data0)
                  = node_spec (seen ++ [req])).
  { unfold node_spec. rewrite fmap_app. cbn [fmap list_fmap].
    rewrite first_seen_snoc.
    assert (Hkeys : (per_node_data st).*1 = first_seen (node_id <$> seen)).
    { rewrite <- node_view_keys, Hview. unfold node_spec.
      rewrite <- list_fmap_compose. apply list_fmap_id. }
    subst data0. rewrite alist_mem_keys, Hkeys.
    case_bool_decide as Hin.
    - apply (node_view_alter f seen req _ Hlat); [done| |exact Hview].
      apply first_seen_NoDup.
    - apply (node_view_alter f seen req _ Hlat); [done| |].
      + apply list.NoDup_app. split_and!;
          [apply first_seen_NoDup| |apply list.NoDup_singleton].
        intros x Hx ->%list_elem_of_singleton. done.
      + rewrite node_view_app, Hview. unfold node_spec.
        rewrite fmap_app. f_equal. cbn.
        unfold node_units, node_latencies.
        rewrite node_requests_absent; [done|].
        intros Hseen. apply Hin. by apply first_seen_elem. }
  destruct (delivered_state req) as [state|];
    [destruct (is_nonempty (given fidelity_values))|];
    injection Hstep as <-;
    [|by cbn [latencies unit_latencies scaled_latencies per_node_data
              total_units]; rewrite Hdata..].
  destruct (take_fidelities_view (np_len state) (given fidelity_values)
              (node_id req)
              {| latencies := latencies st
                               ++ [request_latency completion (request_time req)];
                 unit_latencies := unit_latencies st ++ [unit_lat];
                 scaled_latencies := scaled_latencies st ++ [unit_lat];
                 per_node_data := alist_alter f (node_id req) data0;
                 fidelities := fidelities st;
                 total_units := total_units st + num_units req;
                 fid_idx := fid_idx st |})
    as (-> & -> & -> & -> & ->).
  cbn [latencies unit_latencies scaled_latencies per_node_data total_units].
  by rewrite Hdata.
Qed.

Lemma request_loop_view (fidelity_values : option (list num)) requests :
  forall (st st' : acc) seen,
    request_loop fidelity_values st requests = Ok st' ->
    node_view (per_node_data st) = node_spec seen ->
    unit_latencies st = scaled_latencies st ->
    latencies st' = latencies st ++ omap latency_of requests /\
    unit_latencies st' = scaled_latencies st' /\
    total_units st' = total_units st + requested_units requests /\
    node_view (per_node_data st') = node_spec (seen ++ requests).
Proof.
  induction requests as [|req rest IH]; intros st st' seen Hloop Hview Hsame.
  - injection Hloop as <-. rewrite !app_nil_r. cbn. split_and!; try done. lia.
  - cbn [request_loop] in Hloop.
    apply bind_ok in Hloop as (st1 & Hstep & Hloop).
    destruct (request_step_view _ _ _ _ seen Hstep Hview)
      as (lat & u & Hlat & Hl & Hu & Hs & Ht & Hv).
    destruct (IH st1 st' (seen ++ [req]) Hloop Hv) as (Hl' & Hus' & Ht' & Hv').
    { by rewrite Hu, Hs, Hsame. }
    rewrite Hl', Hl, Ht', Ht, Hv', <- !app_assoc. cbn [omap list_omap app].
    rewrite Hlat. split_and!; try done.
    unfold requested_units. cbn [foldr]. lia.
Qed.

End AggregatorViews.
(** *** [aggregate_metrics.py] returns on completed requests *)

Lemma py_div_positive (a b : num) :
  num_lt zero b = true -> py_div a b = Ok (fdiv a b).
Proof.
  intros Hlt. unfold py_div.
  destruct b as [y| | |]; try done. cbn in *.
  apply bool_decide_eq_true in Hlt.
  rewrite bool_decide_eq_false_2; [done|].
  intros ->. by apply Qclt_not_eq in Hlt.
Qed.

Lemma float_limit_positive : 0 < float_limit.
Proof. reflexivity. Qed.

Lemma float_of_int_in_range (z : Z) :
  Z.abs z < float_limit -> float_of_int z = Ok (of_Z z).
Proof. intros Hz. unfold float_of_int. by rewrite bool_decide_eq_true_2. Qed.

Lemma float_of_int_overflow (z : Z) :
  float_limit <= Z.abs z -> float_of_int z = Raise OverflowError.
Proof.
  intros Hz. unfold float_of_int. rewrite bool_decide_eq_false_2; [done|lia].
Qed.

Lemma of_Z_positive (z : Z) : 0 < z -> num_lt zero (of_Z z) = true.
Proof.
  intros Hz. unfold of_Z, zero. cbn [num_lt]. apply bool_decide_eq_true_2.
  rewrite <- Z2Qc_inj_0. by apply (proj1 (Z2Qc_inj_lt 0 z)).
Qed.

(** The latency per unit: no division by zero, and the conversion of
    [num_units] raises only beyond the range of a double. *)
Lemma unit_latency_in_range (total_time : num) (num_units : Z) :
  num_units < float_limit ->
  unit_latency total_time num_units
  = Ok (if bool_decide (num_units <= 0) then PInf
        else fdiv total_time (of_Z num_units)).
Proof.
  intros Hn. unfold unit_latency. case_bool_decide as Hpos; [done|].
  rewrite float_of_int_in_range by lia. cbn [mbind result_bind].
  apply py_div_positive, of_Z_positive. lia.
Qed.

Lemma unit_latency_ok (total_time : num) (num_units : Z) :
  num_units < float_limit -> is_ok (unit_latency total_time num_units).
Proof. intros Hn. by rewrite unit_latency_in_range. Qed.

Lemma scaled_latency_ok (req_latency : num) (num_units : Z) :
  num_units < float_limit -> is_ok (scaled_latency req_latency num_units).
Proof. apply unit_latency_ok. Qed.

Lemma node_throughput_of_ok (data : node_data) :
  Z.abs (nd_units data) < float_limit -> is_ok (node_throughput_of data).
Proof.
  intros Hunits. unfold node_throughput_of. cbv zeta.
  destruct (num_gt _ zero) eqn:Hgt; [|done].
  rewrite float_of_int_in_range by done. cbn [mbind result_bind].
  by rewrite py_div_positive.
Qed.

Lemma is_ok_inv {X} (r : result X) : is_ok r -> exists x, r = Ok x.
Proof. destruct r as [x|e]; [by exists x|done]. Qed.

Lemma length_alist_alter {V} (f : V -> V) (k : string) (d : list (string * V)) :
  length (alist_alter f k d) = length d.
Proof.
  induction d as [|[k' v] d IH]; [done|].
  cbn. case_bool_decide; cbn; by rewrite ?IH.
Qed.

Lemma take_fidelities_nodes (n : nat) (fvl : list num) (node : string) :
  forall st : acc,
    length (per_node_data (take_fidelities n fvl node st))
    = length (per_node_data st).
Proof.
  induction n as [|n IH]; intros st; cbn [take_fidelities]; [done|].
  destruct (fvl !! fid_idx st); [|apply IH].
  rewrite IH. cbn. apply length_alist_alter.
Qed.

Lemma request_step_ok `{NdArray A} (fidelity_values : option (list num))
    (st : acc) (req : request A) :
  is_Some (completion_time req) ->
  num_units req < float_limit ->
  exists st',
    request_step fidelity_values st req = Ok st' /\
    (0 < length (per_node_data st'))%nat.
Proof.
  intros [completion Hc] Hunits. unfold request_step. rewrite Hc.
  cbn [float_of mbind result_bind].
  destruct (is_ok_inv _ (unit_latency_ok
              (request_latency completion (request_time req)) (num_units req)
              Hunits))
    as [unit_lat ->].
  destruct (is_ok_inv _ (scaled_latency_ok
              (request_latency completion (request_time req)) (num_units req)
              Hunits))
    as [scaled_lat ->].
  cbn [mbind result_bind].
  assert (Hdata : (0 < length (if alist_mem (node_id req) (per_node_data st)
                               then per_node_data st
                               else per_node_data st ++ [(node_id req, new_node_data)]))%nat).
  { destruct (alist_mem _ _) eqn:Hmem.
    - destruct (per_node_data st); [done|cbn; lia].
    - rewrite length_app. cbn. lia. }
  destruct (delivered_state req) as [state|];
    [destruct (is_nonempty (given fidelity_values))|];
    eexists; (split; [reflexivity|]);
    rewrite ?take_fidelities_nodes; cbn [per_node_data];
    by rewrite length_alist_alter.
Qed.

Lemma request_loop_ok `{NdArray A} (fidelity_values : option (list num))
    (requests : list (request A)) :
  Forall (fun req => is_Some (completion_time req)) requests ->
  Forall (fun req => num_units req < float_limit) requests ->
  forall st : acc,
    exists st',
      request_loop fidelity_values st requests = Ok st' /\
      (requests ≠ [] -> (0 < length (per_node_data st'))%nat).
Proof.
  induction 1 as [|req rest Hreq _ IH]; intros Hunits st.
  - by exists st.
  - apply list.Forall_cons in Hunits as [Hu Hunits].
    destruct (request_step_ok fidelity_values st req Hreq Hu)
      as (st1 & Hstep & Hlen).
    destruct (IH Hunits st1) as (st' & Hloop & Hrest).
    exists st'. cbn [request_loop]. rewrite Hstep. split; [exact Hloop|].
    intros _. destruct rest as [|req' rest']; [|by apply Hrest].
    by injection Hloop as <-.
Qed.

Lemma node_step_ok (st : node_acc) (k : string) (data : node_data) :
  Z.abs (nd_units data) < float_limit ->
  exists st',
    AggregateMetrics.node_step st (k, data) = Ok st' /\
    last_node_id st' = Some k /\
    is_Some (per_node_metrics st' !! k).
Proof.
  intros Hunits. unfold AggregateMetrics.node_step.
  destruct (is_ok_inv _ (node_throughput_of_ok data Hunits)) as [thr ->].
  cbn [mbind result_bind].
  destruct (is_nonempty (nd_fidelities data));
    eexists; (split; [reflexivity|]); cbn;
    rewrite lookup_insert_eq; by eauto.
Qed.

(** After the per-node loop, [node_id] is a key of [per_node_metrics]. *)
Lemma node_loop_ok (items : list (string * node_data)) :
  Forall (fun entry => Z.abs (nd_units entry.2) < float_limit) items ->
  forall st : node_acc,
    (forall node, last_node_id st = Some node ->
                  is_Some (per_node_metrics st !! node)) ->
    exists st',
      AggregateMetrics.node_loop st items = Ok st' /\
      (forall node, last_node_id st' = Some node ->
                    is_Some (per_node_metrics st' !! node)) /\
      (items ≠ [] -> is_Some (last_node_id st')).
Proof.
  induction items as [|[k data] items IH]; intros Hunits st Hinv.
  - by exists st.
  - apply list.Forall_cons in Hunits as [Hu Hunits].
    destruct (node_step_ok st k data Hu) as (st1 & Hstep & Hlast1 & Hk).
    destruct (IH Hunits st1) as (st' & Hloop & Hinv' & Hlast).
    { intros node Hnode. rewrite Hlast1 in Hnode. by injection Hnode as <-. }
    exists st'. cbn [AggregateMetrics.node_loop]. rewrite Hstep.
    split; [exact Hloop|]. split; [exact Hinv'|].
    intros _. destruct items as [|entry items']; [|by apply Hlast].
    injection Hloop as <-. by eexists.
Qed.

(** After the loop over the requests every node holds the units of its
    requests. *)
Lemma request_loop_node_units `{NdArray A} (fidelity_values : option (list num))
    (requests : list (request A)) (st : acc) :
  request_loop fidelity_values new_acc requests = Ok st ->
  Forall (fun entry => nd_units entry.2 = node_units entry.1 requests)
         (per_node_data st).
Proof.
  intros Hloop.
  destruct (request_loop_view _ _ _ _ [] Hloop) as (_ & _ & _ & Hview);
    [done..|].
  rewrite app_nil_l in Hview. apply list.Forall_forall. intros [k d] Hin.
  assert (Hspec : (k, (nd_units d, nd_latencies d)) ∈ node_spec requests).
  { rewrite <- Hview. unfold node_view. apply list_elem_of_fmap. by exists (k, d). }
  unfold node_spec in Hspec.
  apply list_elem_of_fmap in Hspec as (k' & [= <- Hu _] & _). exact Hu.
Qed.

(** For every list of requests with their completion time set and unit
    counts that fit a double, [aggregate_metrics.py] returns a
    dictionary. *)
Lemma aggregate_metrics_returns `{NdArray A} (requests : list (request A))
    (simulation_time : num) (fidelity_values : option (list num))
    (rejected_states : Z) :
  Forall (fun req => is_Some (completion_time req)) requests ->
  units_in_range requests ->
  is_ok (AggregateMetrics.aggregate_metrics requests simulation_time
           fidelity_values rejected_states).
Proof.
  intros Hall (Hunits & Hnodes & _). unfold AggregateMetrics.aggregate_metrics.
  destruct requests as [|req rest] eqn:Hreqs; [done|]. cbn [is_nonempty].
  destruct (request_loop_ok fidelity_values _ Hall) with (st := new_acc)
    as (st & Hst & Hlen).
  { eapply list.Forall_impl; [exact Hunits|]. intros r Hr. cbn in Hr. lia. }
  rewrite Hst. cbn [mbind result_bind].
  destruct (node_loop_ok (per_node_data st)) with (st := new_node_acc)
    as (nodes & -> & Hinv & Hlast); [|done|].
  { eapply list.Forall_impl; [exact (request_loop_node_units _ _ _ Hst)|].
    intros entry Hentry. cbn in Hentry. rewrite Hentry. apply Hnodes. }
  cbn [mbind result_bind].
  destruct Hlast as [node Hnode].
  { intros Hnil. specialize (Hlen ltac:(done)). rewrite Hnil in Hlen. cbn in Hlen. lia. }
  destruct (Hinv node Hnode) as [d Hd].
  unfold AggregateMetrics.last_node_metrics. rewrite Hnode, Hd.
  cbn [mbind result_bind].
  by destruct (is_nonempty (fidelities st)).
Qed.

(** [metrics.py] always returns the key ['fairness_throughput']. *)
Lemma metrics_py_has_fairness `{NdArray A} (requests : list (request A))
    (simulation_time : num) (fidelity_values : option (list num))
    (rejected_states : Z) (m : gmap string value) :
  Metrics.aggregate_metrics requests simulation_time fidelity_values
    rejected_states = Ok m ->
  is_Some (m !! "fairness_throughput").
Proof.
  unfold Metrics.aggregate_metrics.
  destruct (is_nonempty requests).
  - intros Hagg.
    apply bind_ok in Hagg as (st & _ & Hagg).
    apply bind_ok in Hagg as (nodes & _ & Hagg).
    apply bind_ok in Hagg as (overall & _ & Hagg).
    destruct (is_nonempty (fidelities st));
      [destruct (is_nonempty (per_node_fidelities nodes))|];
      injection Hagg as <-; by eexists.
  - intros [= <-]. by eexists.
Qed.

(** The two modules disagree on every non-empty list of requests on which
    one of them returns. *)
Lemma aggregate_metrics_differ_nonempty `{NdArray A}
    (requests : list (request A)) (simulation_time : num)
    (fidelity_values : option (list num)) (rejected_states : Z) :
  requests ≠ [] ->
  is_ok (Metrics.aggregate_metrics requests simulation_time fidelity_values
           rejected_states) \/
  is_ok (AggregateMetrics.aggregate_metrics requests simulation_time
           fidelity_values rejected_states) ->
  Metrics.aggregate_metrics requests simulation_time fidelity_values
    rejected_states
  ≠ AggregateMetrics.aggregate_metrics requests simulation_time fidelity_values
      rejected_states.
Proof.
  intros Hne Hok Heq.
  assert (Hboth : is_ok (AggregateMetrics.aggregate_metrics requests
                           simulation_time fidelity_values rejected_states))
    by (destruct Hok as [Hok|Hok]; [by rewrite <- Heq|done]).
  destruct (is_ok_inv _ Hboth) as [m Hm].
  rewrite Hm in Heq.
  apply metrics_py_has_fairness in Heq as [v Hv].
  rewrite (aggregate_metrics_drops_fairness _ _ _ _ _ "fairness_throughput" Hne Hm)
    in Hv; [done|].
  rewrite !elem_of_cons. tauto.
Qed.

(** *** The aggregator on the example runs *)

(** C1 on the two-node run: three units in 20 ns, nodes A and B.  The
    dictionary returned by [calculate_metrics] has no ['fairness_throughput'],
    no ['fairness_latency'] and no ['per_node_metrics']; its ['throughput'] is
    the rate of node B, the last node, in states per second (1 / 20 * 1e9),
    not the global rate 3 / 20. *)
Theorem calculate_metrics_two_nodes :
  let metrics := metrics_of two_nodes_run (of_Z 20) in
  is_ok metrics /\
  field metrics "fairness_throughput" = None /\
  field metrics "fairness_latency" = None /\
  field metrics "per_node_metrics" = None /\
  field metrics "throughput" = Some (VFloat (of_Z 50000000)) /\
  field metrics "total_units" = Some (VInt 1) /\
  throughput 3 (of_Z 20) = Ok (Fin (Q2Qc (3 # 20))).
Proof.
  cbv zeta. split; [by vm_compute|].
  repeat split; try (vm_compute; reflexivity); vm_compute; num_eq.
Qed.

(** C4 on a single completed request: [metrics.py] returns a dictionary
    with ['fairness_throughput'] (and the other per-node results),
    [aggregate_metrics.py] one without; the two results differ. *)
Theorem aggregate_metrics_modules_differ :
  field (Metrics.aggregate_metrics single_request (of_Z 10) None 0)
    "fairness_throughput" = Some (VFloat one) /\
  field (AggregateMetrics.aggregate_metrics single_request (of_Z 10) None 0)
    "fairness_throughput" = None /\
  Metrics.aggregate_metrics single_request (of_Z 10) None 0
  ≠ AggregateMetrics.aggregate_metrics single_request (of_Z 10) None 0.
Proof.
  assert (H1 : field (Metrics.aggregate_metrics single_request (of_Z 10) None 0)
                 "fairness_throughput" = Some (VFloat one))
    by (vm_compute; num_eq).
  assert (H2 : field (AggregateMetrics.aggregate_metrics single_request
                        (of_Z 10) None 0) "fairness_throughput" = None)
    by (vm_compute; reflexivity).
  split; [exact H1|]. split; [exact H2|].
  intros Heq. rewrite Heq, H2 in H1. discriminate.
Qed.

(** C8 on the run with one request of five units: five samples were
    accepted, with mean 9/10; the aggregator reads [len] of the averaged
    4 x 4 state, takes the first four samples only, and reports 1. *)
Theorem mean_fidelity_five_units :
  let samples := c ← five_units_run; mret (fidelity_values c) in
  samples = Ok [one; one; one; one; half] /\
  (l ← samples; mret (np_mean l)) = Ok (Fin (Q2Qc (9 # 10))) /\
  field (metrics_of five_units_run (of_Z 50)) "mean_fidelity" = Some (VFloat one).
Proof.
  cbv zeta. repeat split; vm_compute; num_eq.
Qed.

(** * Further properties *)

(** ** Throughput, latency and robustness *)

Lemma fdiv_fin_nonzero (a b : Qc) :
  b ≠ 0%Qc -> fdiv (Fin a) (Fin b) = Fin (a / b)%Qc.
Proof. intros Hb. cbn. by rewrite bool_decide_eq_false_2. Qed.

(** X6: [throughput] never raises [ZeroDivisionError].  When the time is
    [<= 0] it returns [0.0] without looking at the number of states; in
    every other case (a positive time, [inf] or [nan]) it returns the
    quotient of the converted number of states by the time, unless the
    number of states is beyond the range of a double: then, and only then,
    it raises [OverflowError]. *)
Theorem throughput_cases (num_entangled_states : Z) (total_time : num) :
  (num_le total_time zero = true ->
     throughput num_entangled_states total_time = Ok zero) /\
  (num_le total_time zero = false ->
   Z.abs num_entangled_states < float_limit ->
     throughput num_entangled_states total_time
     = Ok (fdiv (of_Z num_entangled_states) total_time)) /\
  (num_le total_time zero = false ->
   float_limit <= Z.abs num_entangled_states ->
     throughput num_entangled_states total_time = Raise OverflowError).
Proof.
  unfold throughput. split_and!.
  - by intros ->.
  - intros Hle Hn. rewrite Hle, float_of_int_in_range by done.
    cbn [mbind result_bind]. by apply py_div_guarded.
  - intros Hle Hn. by rewrite Hle, float_of_int_overflow.
Qed.

(** X6 on five states in a millisecond, in no time, and on [2^1024]
    states. *)
Lemma throughput_cases_witness :
  throughput 5 (of_Z 1000000) = Ok (fdiv (of_Z 5) (of_Z 1000000)) /\
  throughput 5 zero = Ok zero /\
  throughput (2 ^ 1024) (of_Z 1000000) = Raise OverflowError.
Proof.
  split_and!.
  - apply (proj1 (proj2 (throughput_cases 5 (of_Z 1000000))));
      reflexivity.
  - apply (proj1 (throughput_cases 5 zero)). reflexivity.
  - apply (proj2 (proj2 (throughput_cases (2 ^ 1024) (of_Z 1000000)))).
    + reflexivity.
    + by vm_compute.
Defined.

(** X7: [unit_latency] and [scaled_latency] are the same function and
    never raise [ZeroDivisionError]: the result is [inf] when the number of
    units is [<= 0], the quotient of the time by the converted number of
    units when that number is positive and fits a double, and
    [OverflowError] is raised when it does not fit. *)
Theorem unit_latency_cases (total_time : num) (num_units : Z) :
  scaled_latency total_time num_units = unit_latency total_time num_units /\
  (num_units <= 0 -> unit_latency total_time num_units = Ok PInf) /\
  (0 < num_units < float_limit ->
     unit_latency total_time num_units
     = Ok (fdiv total_time (of_Z num_units))) /\
  (float_limit <= num_units ->
     unit_latency total_time num_units = Raise OverflowError).
Proof.
  split; [reflexivity|]. split_and!.
  - intros Hn. unfold unit_latency. by rewrite bool_decide_eq_true_2.
  - intros [Hpos Hn]. rewrite unit_latency_in_range by done.
    by rewrite bool_decide_eq_false_2 by lia.
  - intros Hn. pose proof float_limit_positive as Hlimit.
    unfold unit_latency. rewrite bool_decide_eq_false_2 by lia.
    rewrite float_of_int_overflow by lia. reflexivity.
Qed.

(** X7 on thirty nanoseconds for three units, for no unit, and for
    [2^1024] units. *)
Lemma unit_latency_cases_witness :
  unit_latency (of_Z 30) 3 = Ok (fdiv (of_Z 30) (of_Z 3)) /\
  unit_latency (of_Z 30) 0 = Ok PInf /\
  unit_latency (of_Z 30) (2 ^ 1024) = Raise OverflowError.
Proof.
  split_and!.
  - apply (proj1 (proj2 (proj2 (unit_latency_cases (of_Z 30) 3)))).
    split; reflexivity.
  - apply (proj1 (proj2 (unit_latency_cases (of_Z 30) 0))). lia.
  - apply (proj2 (proj2 (proj2 (unit_latency_cases (of_Z 30) (2 ^ 1024))))).
    by vm_compute.
Defined.

Lemma known_metric_type (metric_type : string) :
  metric_type ∈ ["throughput"; "fidelity"; "fairness"; "latency"] ->
  metric_type ∈ higher_is_better \/ metric_type = "latency".
Proof. unfold higher_is_better. rewrite !elem_of_cons, elem_of_nil. tauto. Qed.

(** X8: a metric that did not change has robustness 1.0, for every metric
    type, when its value is finite and positive. *)
Theorem robustness_unchanged (b : Qc) (metric_type : string) :
  (0 < b)%Qc ->
  metric_type ∈ ["throughput"; "fidelity"; "fairness"; "latency"] ->
  robustness (Fin b) (Fin b) metric_type = Ok one.
Proof.
  intros Hb Hin. unfold robustness.
  assert (Hle : num_le (Fin b) zero = false).
  { cbn. by apply bool_decide_eq_false_2, Qclt_not_le. }
  assert (Hnz : b ≠ 0%Qc) by (by apply not_symmetry, Qclt_not_eq).
  assert (Hdiv : py_div (Fin b) (Fin b) = Ok one).
  { rewrite py_div_guarded by done. rewrite fdiv_fin_nonzero by done.
    unfold one. do 2 f_equal. by field. }
  rewrite Hle.
  destruct (known_metric_type _ Hin) as [Hhigh| ->].
  - by rewrite bool_decide_eq_true_2.
  - by rewrite bool_decide_eq_false_2, bool_decide_eq_true_2
      by (unfold higher_is_better; rewrite ?elem_of_cons, ?elem_of_nil;
          first [done | intros [?|[?|[?|[]]]]; discriminate]).
Qed.

Lemma robustness_unchanged_witness :
  (0 < Qc_of_Z 7)%Qc /\ robustness (of_Z 7) (of_Z 7) "latency" = Ok one.
Proof.
  assert (Hyp : (0 < Qc_of_Z 7)%Qc) by (by vm_compute).
  split; [exact Hyp|].
  apply (robustness_unchanged (Qc_of_Z 7) "latency" Hyp).
  rewrite !elem_of_cons. tauto.
Defined.

(** X9: the robustness of a latency is the robustness of a higher-is-better
    metric with the two values exchanged, when the degraded latency is not
    [<= 0]; when it is, the first is [inf] and the second [0.0]. *)
Theorem robustness_latency_exchange (baseline degraded : num)
    (metric_type : string) :
  metric_type ∈ ["throughput"; "fidelity"; "fairness"] ->
  (num_le degraded zero = false ->
     robustness baseline degraded "latency"
     = robustness degraded baseline metric_type) /\
  (num_le degraded zero = true ->
     robustness baseline degraded "latency" = Ok PInf /\
     robustness degraded baseline metric_type = Ok zero).
Proof.
  intros Hin. unfold robustness.
  rewrite (bool_decide_eq_true_2 (metric_type ∈ higher_is_better)) by done.
  rewrite (bool_decide_eq_false_2 ("latency" ∈ higher_is_better)).
  2:{ unfold higher_is_better. rewrite !elem_of_cons, elem_of_nil.
      intros [?|[?|[?|[]]]]; discriminate. }
  rewrite bool_decide_eq_true_2 by done.
  split; intros ->; done.
Qed.

Lemma robustness_latency_exchange_witness :
  robustness (of_Z 10) (of_Z 15) "latency"
  = robustness (of_Z 15) (of_Z 10) "throughput".
Proof.
  apply (proj1 (robustness_latency_exchange (of_Z 10) (of_Z 15) "throughput"
                  ltac:(rewrite !elem_of_cons; tauto))).
  reflexivity.
Defined.

(** ** The ledger over arbitrary runs *)

Section LedgerRuns.
Context `{NdArray A}.
Implicit Types (c : collector A) (req : request A) (qs : qubits A).

Lemma ledger_ok_new (threshold : num) : ledger_ok (new_collector (A := A) threshold).
Proof. split; [intros rid r; cbn; by rewrite lookup_empty|constructor]. Qed.

Lemma record_request_ledger_ok c (rid n : Z) (node : string) (now : num) :
  ledger_ok c ->
  exists c', record_request c rid n node now = Ok c' /\ ledger_ok c'.
Proof.
  intros [Hact Hdone]. eexists. split; [reflexivity|].
  split; [|exact Hdone]. intros rid' r. cbn.
  rewrite lookup_insert. case_decide as Hrid.
  - intros [= <-]. subst rid'. unfold active_ok. cbn.
    split_and!; [done|done|done|by eexists|lia|lia].
  - apply Hact.
Qed.

Lemma record_delivery_ledger_ok c (rid qid : Z) qs (now : num) :
  ledger_ok c ->
  exists c', record_delivery c rid qid qs now = Ok c' /\ ledger_ok c'.
Proof.
  intros [Hact Hdone].
  destruct (_active_requests c !! rid) as [req|] eqn:Hreq.
  2:{ exists c. unfold record_delivery. by rewrite Hreq. }
  destruct (below_threshold (fidelity_threshold c) qs) eqn:Hb.
  - destruct qs as [| |f00 f01 f10 f11 dm]; try discriminate.
    cbn [below_threshold] in Hb.
    unfold record_delivery. rewrite Hreq, Hb, set_completed_units_undo.
    eexists. split; [reflexivity|]. split; [|exact Hdone].
    cbn. by rewrite insert_id.
  - destruct (record_delivery_counted c rid qid qs now req Hreq Hb)
      as (c1 & req1 & -> & Hsame & Hcnt & _).
    destruct Hsame as (Hreqs1 & Hact1 & _).
    destruct (Hact rid req Hreq) as (Hid & Hct & Hds & Hst & Hcu0 & Hcu).
    destruct Hcnt as (Hid1 & Hn1 & _ & _ & Hct1 & Hds1 & Hcu1 & Hst1).
    destruct (decide (completed_units req1 < num_units req1)) as [Hlt|Hge].
    + rewrite check_complete_pending by done.
      eexists. split; [reflexivity|]. split; cbn; [|by rewrite Hreqs1].
      intros rid' r. rewrite Hact1, lookup_insert. case_decide as Hrid.
      * intros [= <-]. subst rid'. unfold active_ok.
        split_and!; [congruence|congruence|congruence|auto|lia|lia].
      * apply Hact.
    + destruct (check_complete_done c1 rid req1 now)
        as (r & -> & _ & Hn' & _ & _ & Hcu' & Hct' & Hds'); [lia|auto|].
      eexists. split; [reflexivity|]. split; cbn.
      * intros rid' r'. rewrite Hact1. intros Hl.
        apply lookup_delete_Some in Hl as [_ Hl]. by apply Hact.
      * rewrite Hreqs1. apply Forall_app. split; [exact Hdone|].
        apply Forall_singleton. unfold completed_ok.
        rewrite Hct', Hds', Hcu', Hn'. split_and!; [by eexists|done|lia].
Qed.

Lemma apply_event_ledger_ok c (e : event) :
  ledger_ok c -> exists c', apply_event c e = Ok c' /\ ledger_ok c'.
Proof.
  destruct e as [rid n node now|d]; cbn [apply_event].
  - apply record_request_ledger_ok.
  - apply record_delivery_ledger_ok.
Qed.

Lemma run_events_ledger_ok (events : list event) :
  forall c, ledger_ok c ->
    exists c', run_events c events = Ok c' /\ ledger_ok c'.
Proof.
  induction events as [|e events IH]; intros c Hok.
  - by exists c.
  - destruct (apply_event_ledger_ok c e Hok) as (c1 & Hstep & Hok1).
    destruct (IH c1 Hok1) as (c' & Hrun & Hok').
    exists c'. cbn [run_events]. by rewrite Hstep.
Qed.

(** X10: every sequence of [record_request] and [record_delivery] calls
    on a new collector runs without an exception.  Afterwards an active
    request is stored under its own id, has no completion time and fewer
    completed units than its quota (fewer than 1 for a quota below 1); a
    completed request has its completion time and exactly its quota of
    completed units (1 for a quota below 1). *)
Theorem run_events_ok (threshold : num) (events : list event) :
  exists c,
    run_events (new_collector threshold) events = Ok c /\
    (forall rid r, _active_requests c !! rid = Some r ->
       request_id r = rid /\ completion_time r = None /\
       0 <= completed_units r < Z.max (num_units r) 1) /\
    Forall (fun r => is_Some (completion_time r) /\
                     completed_units r = Z.max (num_units r) 1) (requests c).
Proof.
  destruct (run_events_ledger_ok events _ (ledger_ok_new threshold))
    as (c & Hrun & Hact & Hdone).
  exists c. split; [exact Hrun|]. split.
  - intros rid r Hr. destruct (Hact rid r Hr) as (? & ? & _ & _ & ? & ?).
    split_and!; done.
  - eapply Forall_impl; [|exact Hdone]. intros r (? & _ & ?). by split.
Qed.

(** *** Quotas that fit a double *)

Lemma quota_ok_new (bound : Z) (threshold : num) :
  quota_ok bound (new_collector (A := A) threshold).
Proof. split; [intros rid r; cbn; by rewrite lookup_empty|constructor]. Qed.

Lemma record_delivery_quota c (rid qid : Z) qs (now : num) c' (bound : Z) :
  ledger_ok c -> quota_ok bound c ->
  record_delivery c rid qid qs now = Ok c' ->
  quota_ok bound c' /\
  (length (requests c') <= S (length (requests c)))%nat.
Proof.
  intros [Hact _] [Hqa Hqd].
  destruct (_active_requests c !! rid) as [req|] eqn:Hreq.
  2:{ unfold record_delivery. rewrite Hreq. intros [= <-].
      split; [by split|lia]. }
  destruct (below_threshold (fidelity_threshold c) qs) eqn:Hb.
  - destruct qs as [| |f00 f01 f10 f11 dm]; try discriminate.
    cbn [below_threshold] in Hb.
    unfold record_delivery. rewrite Hreq, Hb, set_completed_units_undo.
    intros [= <-]. cbn. rewrite insert_id by done. split; [by split|lia].
  - destruct (record_delivery_counted c rid qid qs now req Hreq Hb)
      as (c1 & req1 & -> & Hsame & Hcnt & _).
    destruct Hsame as (Hreqs1 & Hact1 & _).
    destruct (Hact rid req Hreq) as (_ & _ & _ & Hst & _ & _).
    destruct Hcnt as (_ & Hn1 & _ & _ & _ & _ & _ & Hst1).
    pose proof (Hqa rid req Hreq) as Hbound.
    destruct (decide (completed_units req1 < num_units req1)) as [Hlt|Hge].
    + rewrite check_complete_pending by done.
      intros [= <-]. cbn [set_active requests]. rewrite Hreqs1.
      split; [|lia].
      split; [|cbn; by rewrite Hreqs1]. intros rid' r. cbn.
      rewrite Hact1, lookup_insert.
      case_decide as Hrid; [|by apply Hqa].
      intros [= <-]. by rewrite Hn1.
    + destruct (check_complete_done c1 rid req1 now)
        as (r & -> & _ & Hn' & _); [lia|auto|].
      intros [= <-]. cbn [requests]. rewrite Hreqs1, length_app.
      split; [|cbn; lia].
      split; cbn.
      * intros rid' r'. rewrite Hact1. intros Hl.
        apply lookup_delete_Some in Hl as [_ Hl]. by eapply Hqa.
      * rewrite ?Hreqs1. apply Forall_app. split; [done|].
        apply list.Forall_singleton. by rewrite Hn', Hn1.
Qed.

Lemma run_events_quota (bound : Z) (events : list event) :
  forall c c',
    ledger_ok c -> quota_ok bound c ->
    Forall (quota_within bound) events ->
    run_events c events = Ok c' ->
    quota_ok bound c' /\
    (length (requests c') <= length (requests c) + length events)%nat.
Proof.
  induction events as [|e events IH]; intros c c' Hok Hq Hall Hrun.
  - injection Hrun as <-. split; [done|lia].
  - apply list.Forall_cons in Hall as [He Hall]. cbn [run_events] in Hrun.
    destruct (apply_event_ledger_ok c e Hok) as (c1 & Hstep & Hok1).
    rewrite Hstep in Hrun. cbn [mbind result_bind] in Hrun.
    assert (quota_ok bound c1 /\
            (length (requests c1) <= S (length (requests c)))%nat)
      as [Hq1 Hlen1].
    { destruct e as [rid n node t|d]; cbn [apply_event quota_within] in *.
      - injection Hstep as <-. cbn. split; [|lia].
        destruct Hq as [Hqa Hqd]. split; [|done].
        intros rid' r. cbn. rewrite lookup_insert.
        case_decide; [by intros [= <-]|by apply Hqa].
      - by eapply record_delivery_quota. }
    destruct (IH c1 c' Hok1 Hq1 Hall Hrun) as [Hq' Hlen'].
    split; [done|]. cbn [length]. lia.
Qed.

Lemma requested_units_bounded (bound : Z) (requests : list (request A))
    (P : request A -> Prop) `{!forall req, Decision (P req)} :
  Forall (fun req => Z.abs (num_units req) <= bound) requests ->
  Z.abs (requested_units (filter P requests))
  <= Z.of_nat (length requests) * bound.
Proof.
  induction 1 as [|req rest Hreq _ IH].
  - cbn. lia.
  - assert (0 <= bound) by lia.
    cbn [length]. rewrite Nat2Z.inj_succ.
    destruct (decide (P req)) as [Hp|Hp].
    + rewrite filter_cons_True by done.
      unfold requested_units in *. cbn [foldr]. lia.
    + rewrite filter_cons_False by done. lia.
Qed.

Lemma requested_units_total_bounded (bound : Z) (requests : list (request A)) :
  Forall (fun req => Z.abs (num_units req) <= bound) requests ->
  Z.abs (requested_units requests) <= Z.of_nat (length requests) * bound.
Proof.
  induction 1 as [|req rest Hreq _ IH].
  - cbn. lia.
  - cbn [length]. rewrite Nat2Z.inj_succ.
    unfold requested_units in *. cbn [foldr]. lia.
Qed.

(** Quotas of magnitude at most [bound] fit a double, together with all
    their sums, when [bound] times the number of requests does. *)
Lemma units_in_range_bounded (bound : Z) (requests : list (request A)) :
  Forall (fun req => Z.abs (num_units req) <= bound) requests ->
  Z.of_nat (length requests) * bound < float_limit ->
  units_in_range requests.
Proof.
  intros Hall Hfit. split_and!.
  - apply list.Forall_forall. intros req Hin.
    pose proof (proj1 (list.Forall_forall _ _) Hall req Hin) as Hreq. cbn in Hreq.
    destruct requests as [|r0 rest]; [by apply elem_of_nil in Hin|].
    cbn [length] in Hfit. rewrite Nat2Z.inj_succ in Hfit. nia.
  - intros node. unfold node_units, node_requests.
    pose proof (requested_units_bounded bound requests
                  (fun req => node_id req = node) Hall). lia.
  - pose proof (requested_units_total_bounded bound requests Hall). lia.
Qed.

Lemma calculate_metrics_ledger_ok c (now : num) :
  ledger_ok c -> units_in_range (requests c) ->
  is_ok (calculate_metrics c now).
Proof.
  intros [_ Hdone] Hunits. unfold calculate_metrics. cbv zeta.
  set (c1 := if num_eqb (end_time c) zero then end_simulation c now else c).
  assert (Hreqs : requests c1 = requests c) by (unfold c1; by destruct (num_eqb _ _)).
  assert (Hall : Forall (fun req => is_Some (completion_time req)) (requests c1)).
  { rewrite Hreqs. eapply Forall_impl; [|exact Hdone]. by intros r (? & _). }
  rewrite <- Hreqs in Hunits.
  destruct (is_ok_inv _ (aggregate_metrics_returns (requests c1)
              (num_sub (end_time c1) (start_time c1))
              (Some (fidelity_values c1)) (rejected_states c1) Hall Hunits))
    as [m ->].
  done.
Qed.

(** After a run of events whose quotas are within [bound], the unit
    counts of the completed requests fit a double when [bound] times the
    number of events does. *)
Lemma run_events_units_in_range (bound : Z) (threshold : num)
    (events : list event) c :
  Forall (quota_within bound) events ->
  Z.of_nat (length events) * bound < float_limit ->
  run_events (new_collector threshold) events = Ok c ->
  units_in_range (requests c).
Proof.
  intros Hall Hfit Hrun.
  destruct (run_events_quota bound events _ c (ledger_ok_new threshold)
              (quota_ok_new bound threshold) Hall Hrun) as [[_ Hq] Hlen].
  cbn [new_collector requests length] in Hlen.
  apply (units_in_range_bounded bound); [done|].
  destruct (requests c) as [|r0 rest] eqn:Hreqs.
  - cbn. apply float_limit_positive.
  - apply list.Forall_cons in Hq as [Hr0 _].
    assert (0 <= bound) by lia.
    assert (Z.of_nat (length (r0 :: rest)) <= Z.of_nat (length events)) by lia.
    nia.
Qed.

(** X11: after every sequence of [record_request] and [record_delivery]
    calls whose quotas are at most [bound] in magnitude, [bound] times the
    number of calls fitting a double, [calculate_metrics] returns a
    dictionary: the aggregator meets no request without completion time,
    divides by no zero and converts no [int] beyond the range of a double. *)
Theorem calculate_metrics_after_run (threshold : num) (events : list event)
    (now : num) (bound : Z) :
  Forall (quota_within bound) events ->
  Z.of_nat (length events) * bound < float_limit ->
  exists c c' m,
    run_events (new_collector threshold) events = Ok c /\
    calculate_metrics c now = Ok (c', m).
Proof.
  intros Hall Hfit.
  destruct (run_events_ledger_ok events _ (ledger_ok_new threshold))
    as (c & Hrun & Hok).
  pose proof (run_events_units_in_range bound threshold events c Hall Hfit Hrun)
    as Hunits.
  destruct (is_ok_inv _ (calculate_metrics_ledger_ok c now Hok Hunits))
    as [[c' m] Hm].
  by exists c, c', m.
Qed.

(** *** What one delivery can change *)

Lemma check_complete_effect c (rid : Z) req (now : num) c' :
  check_complete c rid req now = Ok c' ->
  (forall rid', rid' ≠ rid ->
     _active_requests c' !! rid' = _active_requests c !! rid') /\
  (exists done, requests c' = requests c ++ done /\ (length done <= 1)%nat) /\
  fidelity_values c' = fidelity_values c /\
  rejected_states c' = rejected_states c /\
  fidelity_threshold c' = fidelity_threshold c /\
  start_time c' = start_time c /\ end_time c' = end_time c.
Proof.
  unfold check_complete. case_bool_decide as Hge.
  - cbv zeta. unfold _finalize_request. cbn [set_active _active_requests].
    rewrite lookup_insert_eq. cbn [set_completion_time delivered_states].
    destruct (delivered_states req) as [states|]; [|done].
    intros [= <-]. cbn. split_and!; try done.
    + intros rid' Hne. by rewrite lookup_delete_ne, lookup_insert_ne.
    + eexists [_]. split; [reflexivity|cbn; lia].
  - intros [= <-]. cbn. split_and!; try done.
    + intros rid' Hne. by rewrite lookup_insert_ne.
    + exists []. split; [by rewrite app_nil_r|cbn; lia].
Qed.

(** A delivery is either rejected, or leaves the samples alone, or
    records the best-match fidelity of its qubits. *)
Lemma record_delivery_effect c (rid qid : Z) qs (now : num) c' :
  record_delivery c rid qid qs now = Ok c' ->
  (forall rid', rid' ≠ rid ->
     _active_requests c' !! rid' = _active_requests c !! rid') /\
  (exists done, requests c' = requests c ++ done /\ (length done <= 1)%nat) /\
  fidelity_threshold c' = fidelity_threshold c /\
  start_time c' = start_time c /\ end_time c' = end_time c /\
  ((rejected_states c' = rejected_states c + 1 /\
    fidelity_values c' = fidelity_values c /\
    requests c' = requests c /\
    below_threshold (fidelity_threshold c) qs = true) \/
   (rejected_states c' = rejected_states c /\
    (fidelity_values c' = fidelity_values c \/
     exists f, sample_of qs = Some f /\
               fidelity_values c' = fidelity_values c ++ [f] /\
               below_threshold (fidelity_threshold c) qs = false))).
Proof.
  unfold record_delivery.
  destruct (_active_requests c !! rid) as [req0|] eqn:Hreq.
  2:{ intros [= <-]. split_and!; try done.
      - exists []. split; [by rewrite app_nil_r|cbn; lia].
      - right. split; [done|by left]. }
  destruct qs as [| |f00 f01 f10 f11 dm].
  - intros Hcc. apply check_complete_effect in Hcc
      as (Hframe & Hdone & Hfv & Hrej & Hthr & Hst & Hen).
    split_and!; try done. right. split; [done|by left].
  - intros Hcc. apply check_complete_effect in Hcc
      as (Hframe & Hdone & Hfv & Hrej & Hthr & Hst & Hen).
    split_and!; try done. right. split; [done|by left].
  - cbn [below_threshold sample_of].
    destruct (num_gt (fidelity_threshold c) zero
              && num_lt (max_fidelity f00 f01 f10 f11) (fidelity_threshold c))
      eqn:Hb.
    + intros [= <-]. cbn. split_and!; try done.
      * intros rid' Hne. by rewrite lookup_insert_ne.
      * exists []. split; [by rewrite app_nil_r|cbn; lia].
      * by left.
    + intros Hcc.
      assert (exists req1,
        check_complete
          (mk_collector (requests c) (start_time c) (end_time c)
             (fidelity_threshold c) (_active_requests c) (rejected_states c)
             (fidelity_values c ++ [max_fidelity f00 f01 f10 f11]))
          rid req1 now = Ok c') as [req1 Hcc1].
      { destruct dm as [d|];
          [destruct (delivered_states
                       (set_completed_units req0 (completed_units req0 + 1)))|];
          by eexists. }
      apply check_complete_effect in Hcc1
        as (Hframe & Hdone & Hfv & Hrej & Hthr & Hst & Hen).
      cbn in *. split_and!; try done.
      right. split; [done|]. right. by eexists.
Qed.

(** X12: a delivery for request [rid] leaves every other active request
    as it is, never removes or changes a completed request (it appends at
    most one), never lowers a counter and never touches the threshold or
    the clock marks; it adds at most one rejection or one sample, never
    both. *)
Theorem record_delivery_frame c (rid qid : Z) qs (now : num) c' :
  record_delivery c rid qid qs now = Ok c' ->
  (forall rid', rid' ≠ rid ->
     _active_requests c' !! rid' = _active_requests c !! rid') /\
  (exists done, requests c' = requests c ++ done /\ (length done <= 1)%nat) /\
  (exists fs, fidelity_values c' = fidelity_values c ++ fs /\
              Z.of_nat (length fs) + (rejected_states c' - rejected_states c) <= 1 /\
              0 <= rejected_states c' - rejected_states c) /\
  fidelity_threshold c' = fidelity_threshold c /\
  start_time c' = start_time c /\ end_time c' = end_time c.
Proof.
  intros Hrd. apply record_delivery_effect in Hrd
    as (Hframe & Hdone & Hthr & Hst & Hen & Hcases).
  split_and!; try done.
  destruct Hcases as [(Hrej & Hfv & _)|(Hrej & [Hfv|(f & _ & Hfv & _)])].
  - exists []. rewrite app_nil_r. split; [done|]. cbn. lia.
  - exists []. rewrite app_nil_r. split; [done|]. cbn. lia.
  - exists [f]. split; [done|]. cbn. lia.
Qed.

Lemma run_events_samples (threshold : num) (events : list event) :
  forall c c',
    run_events c events = Ok c' ->
    fidelity_threshold c = threshold ->
    num_gt threshold zero = true ->
    Forall (fun f => num_lt f threshold = false) (fidelity_values c) ->
    fidelity_threshold c' = threshold /\
    Forall (fun f => num_lt f threshold = false) (fidelity_values c').
Proof.
  induction events as [|e events IH]; intros c c' Hrun Hthr Hpos Hall.
  - by injection Hrun as <-.
  - cbn [run_events] in Hrun. apply bind_ok in Hrun as (c1 & Hstep & Hrun).
    eapply (IH c1 c' Hrun); [| done |].
    + destruct e as [rid n node now|d]; cbn [apply_event] in Hstep.
      * by injection Hstep as <-.
      * apply record_delivery_effect in Hstep as (_ & _ & Hthr1 & _). congruence.
    + destruct e as [rid n node now|d]; cbn [apply_event] in Hstep.
      * by injection Hstep as <-.
      * apply record_delivery_effect in Hstep
          as (_ & _ & _ & _ & _ & [(_ & -> & _)|(_ & [->|(f & Hs & -> & Hb)])]);
          try done.
        apply Forall_app. split; [done|]. apply Forall_singleton.
        destruct (d_qubits d) as [| |f00 f01 f10 f11 dm]; try discriminate.
        cbn [sample_of] in Hs. injection Hs as <-.
        cbn [below_threshold] in Hb. rewrite Hthr, Hpos in Hb. exact Hb.
Qed.

(** X13: with a positive threshold, no recorded fidelity sample is below
    the threshold, whatever the calls made on the collector. *)
Theorem samples_not_below_threshold (threshold : num) (events : list event) c :
  num_gt threshold zero = true ->
  run_events (new_collector threshold) events = Ok c ->
  Forall (fun f => num_lt f threshold = false) (fidelity_values c).
Proof.
  intros Hpos Hrun.
  by destruct (run_events_samples threshold events _ _ Hrun eq_refl Hpos
                 ltac:(constructor)).
Qed.

(** X14: [_finalize_request] moves a request at most once: after it
    returned the id is not active, calling it again changes nothing, and a
    call for an id that is not active changes nothing. *)
Theorem finalize_request_once c (rid : Z) c1 :
  _finalize_request c rid = Ok c1 ->
  _active_requests c1 !! rid = None /\
  _finalize_request c1 rid = Ok c1 /\
  (_active_requests c !! rid = None -> c1 = c) /\
  (is_Some (_active_requests c !! rid) ->
     exists r, requests c1 = requests c ++ [r] /\ delivered_states r = None).
Proof.
  unfold _finalize_request at 1.
  destruct (_active_requests c !! rid) as [req|] eqn:Hreq.
  - destruct (delivered_states req) as [states|]; [|done].
    intros [= <-]. unfold _finalize_request. cbn.
    rewrite lookup_delete_eq. split_and!; [done|done|done|].
    intros _. eexists. split; [reflexivity|]. by destruct (is_nonempty states).
  - intros [= <-]. unfold _finalize_request. rewrite Hreq.
    split_and!; [done|done|done|]. by intros [? ?].
Qed.

Lemma omap_snoc {X Y} (f : X -> option Y) (l : list X) (x : X) :
  omap f (l ++ [x]) = omap f l ++ from_option (fun y => [y]) [] (f x).
Proof.
  rewrite omap_app. cbn. by destruct (f x).
Qed.

(** One more counted delivery, below the quota. *)
Lemma in_progress_step c0 (rid n : Z) (node : string) (t0 : num)
    (done : list delivery) (d : delivery) :
  accepted (fidelity_threshold c0) rid d ->
  Z.of_nat (length done) + 1 < n ->
  record_delivery (in_progress c0 rid n node t0 done)
    (d_request_id d) (d_qubit_id d) (d_qubits d) (d_time d)
  = Ok (in_progress c0 rid n node t0 (done ++ [d])).
Proof.
  intros [-> Hacc] Hlt. unfold record_delivery, in_progress.
  cbn [_active_requests fidelity_threshold]. rewrite lookup_insert_eq.
  rewrite !omap_snoc, length_app, Nat2Z.inj_add. cbn [length].
  change (Z.of_nat 1) with 1.
  destruct (d_qubits d) as [| |f00 f01 f10 f11 dm] eqn:Hqs;
    cbn [stored_state sample_of from_option].
  - unfold check_complete. cbn. rewrite bool_decide_eq_false_2 by lia.
    cbn. by rewrite insert_insert_eq, <- ?app_assoc, ?app_nil_r.
  - unfold check_complete. cbn. rewrite bool_decide_eq_false_2 by lia.
    cbn. by rewrite insert_insert_eq, <- ?app_assoc, ?app_nil_r.
  - cbn [below_threshold] in Hacc. rewrite Hacc.
    destruct dm as [dm|]; unfold check_complete; cbn;
      rewrite bool_decide_eq_false_2 by lia; cbn;
      by rewrite insert_insert_eq, <- ?app_assoc, ?app_nil_r.
Qed.

Lemma in_progress_run c0 (rid n : Z) (node : string) (t0 : num)
    (ds : list delivery) :
  forall done : list delivery,
    Forall (accepted (fidelity_threshold c0) rid) ds ->
    Z.of_nat (length (done ++ ds)) < n ->
    deliver_all (in_progress c0 rid n node t0 done) ds
    = Ok (in_progress c0 rid n node t0 (done ++ ds)).
Proof.
  induction ds as [|d ds IH]; intros done Hall Hlen.
  - by rewrite app_nil_r.
  - inversion_clear Hall as [|? ? Hd Hall']. cbn [deliver_all].
    rewrite length_app in Hlen. cbn [length] in Hlen.
    rewrite in_progress_step by (done || lia). cbn [mbind result_bind].
    rewrite (IH (done ++ [d])); [by rewrite <- app_assoc|done|].
    rewrite !length_app. cbn [length]. lia.
Qed.

(** The last counted delivery. *)
Lemma in_progress_last c0 (rid n : Z) (node : string) (t0 : num)
    (done : list delivery) (d : delivery) :
  accepted (fidelity_threshold c0) rid d ->
  Z.of_nat (length done) + 1 = n ->
  record_delivery (in_progress c0 rid n node t0 done)
    (d_request_id d) (d_qubit_id d) (d_qubits d) (d_time d)
  = Ok (mk_collector
          (requests c0 ++
           [mk_request rid n node t0 (Some (d_time d)) None
              (match omap (fun d => stored_state (d_qubits d)) (done ++ [d]) with
               | [] => None
               | states => Some (np_mean_axis0 states)
               end) n])
          (start_time c0) (end_time c0) (fidelity_threshold c0)
          (delete rid (_active_requests c0)) (rejected_states c0)
          (fidelity_values c0
           ++ omap (fun d => sample_of (d_qubits d)) (done ++ [d]))).
Proof.
  intros [-> Hacc] Hn. subst n. unfold record_delivery, in_progress.
  cbn [_active_requests fidelity_threshold]. rewrite lookup_insert_eq.
  rewrite !omap_snoc.
  set (states := omap (fun d => stored_state (d_qubits d)) done).
  destruct (d_qubits d) as [| |f00 f01 f10 f11 dm] eqn:Hqs;
    cbn [stored_state sample_of from_option];
    [ | | cbn [below_threshold] in Hacc; rewrite Hacc; destruct dm as [dm|] ];
    unfold check_complete; cbn; rewrite bool_decide_eq_true_2 by lia;
    unfold _finalize_request; cbn; rewrite lookup_insert_eq; cbn;
    rewrite !delete_insert_eq, <- ?app_assoc, ?app_nil_r;
    destruct states; reflexivity.
Qed.

(** X15: registering a request with quota [n >= 1] and delivering [n]
    accepted units to it yields one completed request whose
    ['delivered_state'] is the mean of the delivered states, in delivery
    order (the key is absent if no delivery carried a state), stamped with
    the time of the last delivery; the best-match fidelities are appended
    to the samples in delivery order; nothing else changes. *)
Theorem completed_request_data c0 (rid n : Z) (node : string) (t0 : num)
    (ds : list delivery) :
  1 <= n ->
  length ds = Z.to_nat n ->
  Forall (accepted (fidelity_threshold c0) rid) ds ->
  exists c1,
    record_request c0 rid n node t0 = Ok c1 /\
    deliver_all c1 ds
    = Ok (mk_collector
            (requests c0 ++
             [mk_request rid n node t0 (d_time <$> list.last ds) None
                (match omap (fun d => stored_state (d_qubits d)) ds with
                 | [] => None
                 | states => Some (np_mean_axis0 states)
                 end) n])
            (start_time c0) (end_time c0) (fidelity_threshold c0)
            (delete rid (_active_requests c0)) (rejected_states c0)
            (fidelity_values c0 ++ omap (fun d => sample_of (d_qubits d)) ds)).
Proof.
  intros Hn Hlen Hall. eexists. split; [reflexivity|].
  assert (Hstart :
    set_active c0 (<[rid := new_request rid n node t0]> (_active_requests c0))
    = in_progress c0 rid n node t0 []).
  { unfold in_progress, set_active, new_request. cbn. by rewrite app_nil_r. }
  rewrite Hstart. clear Hstart.
  destruct ds as [|d ds'] using rev_ind; [cbn in Hlen; lia|]. clear IHds'.
  rewrite length_app in Hlen. cbn [length] in Hlen.
  apply Forall_app in Hall as [Hall' Hd]. apply Forall_inv in Hd.
  rewrite deliver_all_app.
  rewrite (in_progress_run c0 rid n node t0 ds' []) by (done || cbn; lia).
  cbn [mbind result_bind deliver_all app].
  rewrite in_progress_last by (done || lia).
  cbn [mbind result_bind]. by rewrite last_snoc.
Qed.

End LedgerRuns.

(** *** The ledger properties on the example runs *)

(** X11 on the example run: one request of two units, three deliveries. *)
Lemma calculate_metrics_after_run_witness :
  exists c c' m,
    run_events (new_collector half) example_events = Ok c /\
    calculate_metrics c (of_Z 40) = Ok (c', m).
Proof.
  apply (calculate_metrics_after_run half example_events (of_Z 40) 2).
  - unfold example_events. repeat constructor. cbn. lia.
  - by vm_compute.
Defined.

(** X12 on the collector with one active request and a good pair. *)
Lemma record_delivery_frame_witness :
  exists c',
    record_delivery one_active 0 0 good_pair (of_Z 5) = Ok c' /\
    (forall rid', rid' ≠ 0 ->
       _active_requests c' !! rid' = _active_requests one_active !! rid') /\
    fidelity_threshold c' = half.
Proof.
  destruct (record_delivery one_active 0 0 good_pair (of_Z 5)) as [c'|e] eqn:Hrd;
    [|by vm_compute in Hrd].
  exists c'. split; [reflexivity|].
  destruct (record_delivery_frame one_active 0 0 good_pair (of_Z 5) c' Hrd)
    as (Hframe & _ & _ & Hthr & _).
  split; [exact Hframe|exact Hthr].
Defined.

(** X13 on the example run. *)
Lemma samples_not_below_threshold_witness :
  exists c,
    run_events (new_collector half) example_events = Ok c /\
    Forall (fun f => num_lt f half = false) (fidelity_values c).
Proof.
  destruct (run_events (new_collector half) example_events) as [c|e] eqn:Hrun;
    [|by vm_compute in Hrun].
  exists c. split; [reflexivity|].
  exact (samples_not_below_threshold half example_events c eq_refl Hrun).
Defined.

(** X14 on the collector with one active request. *)
Lemma finalize_request_once_witness :
  exists c1,
    _finalize_request one_active 0 = Ok c1 /\
    _active_requests c1 !! 0 = None /\
    _finalize_request c1 0 = Ok c1.
Proof.
  destruct (_finalize_request one_active 0) as [c1|e] eqn:Hfin;
    [|by vm_compute in Hfin].
  exists c1. split; [reflexivity|].
  destruct (finalize_request_once one_active 0 c1 Hfin) as (Hgone & Hagain & _).
  split; [exact Hgone|exact Hagain].
Defined.

(** X15 with a quota of three units. *)
Lemma completed_request_data_witness :
  exists c1,
    record_request (new_collector half) 0 3 "A" zero = Ok c1 /\
    is_ok (deliver_all c1 three_units).
Proof.
  destruct (completed_request_data (new_collector half) 0 3 "A" zero three_units)
    as (c1 & Hreg & Hrun).
  - lia.
  - reflexivity.
  - unfold three_units. repeat constructor.
  - exists c1. split; [exact Hreg|]. rewrite Hrun. exact I.
Defined.

(** ** [calculate_metrics] and [calculate_robustness] *)

Section CollectorMetrics.
Context `{NdArray A}.
Implicit Types (c : collector A).

(** X16: [calculate_metrics] changes nothing in the collector but an
    [end_time] of zero, which it sets to the clock.  The four entries it
    adds describe the collector; and once [end_time] is not zero, calling it
    again, at any time, returns the same dictionary. *)
Theorem calculate_metrics_timing c (now : num) c' (m : gmap string value) :
  calculate_metrics c now = Ok (c', m) ->
  c' = (if num_eqb (end_time c) zero then end_simulation c now else c) /\
  m !! "simulation_time" = Some (VFloat (num_sub (end_time c') (start_time c))) /\
  m !! "start_time" = Some (VFloat (start_time c)) /\
  m !! "end_time" = Some (VFloat (end_time c')) /\
  m !! "total_requests" = Some (VInt (Z.of_nat (length (requests c)))) /\
  (num_eqb (end_time c') zero = false ->
   forall now', calculate_metrics c' now' = Ok (c', m)).
Proof.
  unfold calculate_metrics. cbv zeta.
  set (c1 := if num_eqb (end_time c) zero then end_simulation c now else c).
  assert (Hst : start_time c1 = start_time c)
    by (unfold c1; by destruct (num_eqb _ _)).
  assert (Hreqs : requests c1 = requests c)
    by (unfold c1; by destruct (num_eqb _ _)).
  intros Hm. apply bind_ok in Hm as (m0 & Hagg & Hm).
  injection Hm as <- <-. rewrite Hst, Hreqs.
  split_and!; try done;
    try (repeat (rewrite lookup_insert_ne by done); by rewrite lookup_insert_eq).
  intros Hnz now'. rewrite Hnz, Hagg. cbn. by rewrite Hst, Hreqs.
Qed.

(** X17: while no request is completed, [calculate_metrics] returns the
    defaults (rates and latencies 0.0, fairness 1.0) whatever the active
    requests, the samples and the rejections: the dictionary then has no
    ['rejected_states'] and no ['mean_fidelity']. *)
Theorem calculate_metrics_nothing_completed c (now : num) :
  requests c = [] ->
  exists c' (m : gmap string value),
    calculate_metrics c now = Ok (c', m) /\
    m !! "throughput" = Some (VFloat zero) /\
    m !! "mean_request_latency" = Some (VFloat zero) /\
    m !! "mean_unit_latency" = Some (VFloat zero) /\
    m !! "mean_scaled_latency" = Some (VFloat zero) /\
    m !! "fairness_throughput" = Some (VFloat one) /\
    m !! "fairness_latency" = Some (VFloat one) /\
    m !! "total_requests" = Some (VInt 0) /\
    m !! "rejected_states" = None /\
    m !! "mean_fidelity" = None.
Proof.
  intros Hreqs. unfold calculate_metrics. cbv zeta.
  set (c1 := if num_eqb (end_time c) zero then end_simulation c now else c).
  assert (Hreqs1 : requests c1 = [])
    by (unfold c1; by destruct (num_eqb _ _)).
  rewrite Hreqs1. cbn [AggregateMetrics.aggregate_metrics is_nonempty mbind
                       result_bind mret result_ret length].
  eexists _, _. split; [reflexivity|].
  split_and!;
    repeat (rewrite lookup_insert_ne by done);
    first [by rewrite lookup_insert_eq | done].
Qed.

End CollectorMetrics.

(** X16 on a collector whose [end_time] is 9. *)
Lemma calculate_metrics_timing_witness :
  calculate_metrics stamped_collector (of_Z 20)
    = Ok (stamped_collector, stamped_metrics) /\
  stamped_metrics !! "total_requests"
    = Some (VInt (Z.of_nat (length (requests stamped_collector)))) /\
  calculate_metrics stamped_collector (of_Z 99)
    = Ok (stamped_collector, stamped_metrics).
Proof.
  assert (Hyp : calculate_metrics stamped_collector (of_Z 20)
                = Ok (stamped_collector, stamped_metrics)) by reflexivity.
  destruct (calculate_metrics_timing stamped_collector (of_Z 20)
              stamped_collector stamped_metrics Hyp)
    as (_ & _ & _ & _ & Htotal & Hstable).
  split; [exact Hyp|]. split; [exact Htotal|].
  apply Hstable. reflexivity.
Defined.

(** X17 on the collector with one active request. *)
Lemma calculate_metrics_nothing_completed_witness :
  exists c' (m : gmap string value),
    calculate_metrics one_active (of_Z 5) = Ok (c', m) /\
    m !! "throughput" = Some (VFloat zero) /\
    m !! "rejected_states" = None.
Proof.
  destruct (calculate_metrics_nothing_completed one_active (of_Z 5) eq_refl)
    as (c' & m & Hm & Hthr & _ & _ & _ & _ & _ & _ & Hrej & _).
  by exists c', m.
Defined.

(** *** [calculate_robustness] *)

Lemma robustness_known_ok (baseline degraded : num) (metric_type : string) :
  metric_type ∈ ["throughput"; "fidelity"; "fairness"; "latency"] ->
  is_ok (robustness baseline degraded metric_type).
Proof.
  intros Hin. unfold robustness.
  destruct (known_metric_type _ Hin) as [Hhigh| ->].
  - rewrite bool_decide_eq_true_2 by done.
    destruct (num_le baseline zero) eqn:Hle; [done|].
    by rewrite py_div_guarded.
  - rewrite bool_decide_eq_false_2.
    2:{ unfold higher_is_better. rewrite !elem_of_cons, elem_of_nil.
        intros [?|[?|[?|[]]]]; discriminate. }
    rewrite bool_decide_eq_true_2 by done.
    destruct (num_le degraded zero) eqn:Hle; [done|].
    by rewrite py_div_guarded.
Qed.



Lemma robustness_entry_ok (baseline current : gmap string value)
    (key out metric_type : string) (acc : gmap string num)
    (names : gset string) :
  map_Forall (fun _ v => is_ok (as_number v)) baseline ->
  (forall v, current !! key = Some v -> is_ok (as_number v)) ->
  metric_type ∈ ["throughput"; "fidelity"; "fairness"; "latency"] ->
  out ∈ names ->
  dom acc ⊆ names ->
  exists acc',
    robustness_entry baseline current key out metric_type acc = Ok acc' /\
    dom acc' ⊆ names.
Proof.
  intros Hbase Hcur Hmt Hout Hacc. unfold robustness_entry.
  destruct (baseline !! key) as [b|] eqn:Hb; [|by exists acc].
  destruct (current !! key) as [d|] eqn:Hd; [|by exists acc].
  destruct (is_ok_inv _ (Hbase _ _ Hb)) as [b' Hb'].
  destruct (is_ok_inv _ (Hcur _ eq_refl)) as [d' Hd'].
  rewrite Hb', Hd'.
  destruct (is_ok_inv _ (robustness_known_ok b' d' metric_type Hmt)) as [r Hr].
  cbn [mbind result_bind]. rewrite Hr. cbn [mbind result_bind].
  eexists. split; [reflexivity|]. rewrite dom_insert_L.
  apply union_least; [by apply singleton_subseteq_l|done].
Qed.

Ltac known_type := rewrite !elem_of_cons; tauto.

Ltac float_key :=
  rewrite !elem_of_cons, elem_of_nil; intros [?|[?|[?|[]]]]; discriminate.

Ltac in_names :=
  solve [repeat first
    [ by apply elem_of_singleton_2
    | by apply elem_of_union_r, elem_of_singleton_2
    | apply elem_of_union_l ]].

Section CollectorRobustness.
Context `{NdArray A}.
Implicit Types (c : collector A).

(** Every value of a dictionary returned by [aggregate_metrics.py], and
    so by [calculate_metrics], is a [float], but for the counters
    [total_units], [rejected_states] and [total_requests]. *)
Lemma node_step_floats (st st' : node_acc) (entry : string * node_data) :
  AggregateMetrics.node_step st entry = Ok st' ->
  (forall node d k a, per_node_metrics st !! node = Some d ->
     d !! k = Some a -> k ≠ "total_units" -> exists x, a = AFloat x) ->
  forall node d k a, per_node_metrics st' !! node = Some d ->
    d !! k = Some a -> k ≠ "total_units" -> exists x, a = AFloat x.
Proof.
  destruct entry as [k0 data]. unfold AggregateMetrics.node_step.
  intros Hstep Hinv node d k a.
  apply bind_ok in Hstep as (thr & _ & Hstep).
  destruct (is_nonempty (nd_fidelities data));
    injection Hstep as <-; cbn [per_node_metrics];
    rewrite ?insert_insert_eq, lookup_insert; case_decide;
    try apply Hinv; intros [= <-] Ha Hk;
    repeat (apply lookup_insert_Some in Ha as [[<- <-]|[_ Ha]];
            [by eauto|]);
    by rewrite lookup_empty in Ha.
Qed.

Lemma node_loop_floats (items : list (string * node_data)) :
  forall st st',
    AggregateMetrics.node_loop st items = Ok st' ->
    (forall node d k a, per_node_metrics st !! node = Some d ->
       d !! k = Some a -> k ≠ "total_units" -> exists x, a = AFloat x) ->
    forall node d k a, per_node_metrics st' !! node = Some d ->
      d !! k = Some a -> k ≠ "total_units" -> exists x, a = AFloat x.
Proof.
  induction items as [|entry items IH]; intros st st' Hloop Hinv.
  - by injection Hloop as <-.
  - cbn [AggregateMetrics.node_loop] in Hloop.
    apply bind_ok in Hloop as (st1 & Hstep & Hloop).
    eapply IH; [exact Hloop|]. by eapply node_step_floats.
Qed.

Lemma aggregate_metrics_floats (requests : list (request A))
    (simulation_time : num) (fidelity_values : option (list num))
    (rejected_states : Z) (m : gmap string value) (k : string) (v : value) :
  AggregateMetrics.aggregate_metrics requests simulation_time fidelity_values
    rejected_states = Ok m ->
  m !! k = Some v ->
  k ∉ ["total_units"; "rejected_states"; "total_requests"] ->
  exists x, v = VFloat x.
Proof.
  intros Hagg Hv Hk.
  assert (Hk1 : k ≠ "total_units") by (intros ->; apply Hk; rewrite !elem_of_cons; tauto).
  assert (Hk2 : k ≠ "rejected_states") by (intros ->; apply Hk; rewrite !elem_of_cons; tauto).
  unfold AggregateMetrics.aggregate_metrics in Hagg.
  destruct (is_nonempty requests).
  - apply bind_ok in Hagg as (st & _ & Hagg).
    apply bind_ok in Hagg as (nodes & Hnodes & Hagg).
    apply bind_ok in Hagg as (splat & Hsplat & Hagg).
    assert (Hatoms : forall a, splat !! k = Some a -> exists x, a = AFloat x).
    { intros a Ha. unfold AggregateMetrics.last_node_metrics in Hsplat.
      destruct (last_node_id nodes) as [node|]; [|done].
      destruct (per_node_metrics nodes !! node) as [d|] eqn:Hd; [|done].
      injection Hsplat as <-.
      eapply (node_loop_floats _ _ _ Hnodes); [|exact Hd|exact Ha|exact Hk1].
      intros ? ? ? ?. cbn. by rewrite lookup_empty. }
    assert (Hbase : forall v',
      ((atom_value <$> splat) ∪
       (<["mean_request_latency" := VFloat (np_mean (latencies st))]>
       (<["mean_unit_latency" := VFloat (np_mean (unit_latencies st))]>
       (<["mean_scaled_latency" := VFloat (np_mean (scaled_latencies st))]>
       (<["rejected_states" := VInt rejected_states]> ∅)))) : gmap string value)
      !! k = Some v' -> exists x, v' = VFloat x).
    { intros v' Hv'. apply lookup_union_Some_raw in Hv' as [Hv'|[_ Hv']].
      - apply lookup_fmap_Some in Hv' as (a & <- & Ha).
        destruct (Hatoms a Ha) as [x ->]. by eexists.
      - repeat (apply lookup_insert_Some in Hv' as [[<- <-]|[_ Hv']];
                [by eauto|]).
        by rewrite lookup_empty in Hv'. }
    destruct (is_nonempty (fidelities st)); injection Hagg as <-;
      [|by apply Hbase].
    apply lookup_insert_Some in Hv as [[<- <-]|[_ Hv]]; [by eauto|].
    by apply Hbase.
  - injection Hagg as <-. unfold empty_metrics in Hv.
    repeat (apply lookup_insert_Some in Hv as [[<- <-]|[_ Hv]]; [by eauto|]).
    by rewrite lookup_empty in Hv.
Qed.

Lemma calculate_metrics_floats c (now : num) c' (m : gmap string value)
    (k : string) (v : value) :
  calculate_metrics c now = Ok (c', m) ->
  k ∉ ["total_units"; "rejected_states"; "total_requests"] ->
  m !! k = Some v ->
  is_ok (as_number v).
Proof.
  unfold calculate_metrics. cbv zeta. intros Hm Hk Hv.
  apply bind_ok in Hm as (m0 & Hagg & Hm). injection Hm as <- <-.
  apply lookup_insert_Some in Hv as [[<- _]|[_ Hv]].
  { exfalso. apply Hk. rewrite !elem_of_cons. tauto. }
  repeat (apply lookup_insert_Some in Hv as [[<- <-]|[_ Hv]]; [done|]).
  by destruct (aggregate_metrics_floats _ _ _ _ _ _ _ Hagg Hv Hk) as [x ->].
Qed.

Lemma calculate_robustness_ledger_ok c (baseline_metrics : gmap string value)
    (now : num) :
  ledger_ok c ->
  units_in_range (requests c) ->
  map_Forall (fun _ v => is_ok (as_number v)) baseline_metrics ->
  exists c' (r : gmap string num),
    calculate_robustness c baseline_metrics now = Ok (c', r) /\
    dom r ⊆ {[ "robustness_throughput"; "robustness_fidelity";
               "robustness_mean_request_latency";
               "robustness_mean_unit_latency";
               "robustness_mean_scaled_latency";
               "robustness_fairness_throughput";
               "robustness_fairness_latency";
               "robustness_fairness_fidelity" ]}.
Proof.
  intros Hok Hunits Hbase. unfold calculate_robustness.
  destruct (is_ok_inv _ (calculate_metrics_ledger_ok c now Hok Hunits))
    as [[c' m] Hm].
  rewrite Hm. cbn [mbind result_bind fst snd].
  assert (Hcur : forall key,
            key ∉ ["total_units"; "rejected_states"; "total_requests"] ->
            forall v, m !! key = Some v -> is_ok (as_number v))
    by (intros key Hkey v; by apply (calculate_metrics_floats c now c' m)).
  set (names := ({[ "robustness_throughput"; "robustness_fidelity";
                    "robustness_mean_request_latency";
                    "robustness_mean_unit_latency";
                    "robustness_mean_scaled_latency";
                    "robustness_fairness_throughput";
                    "robustness_fairness_latency";
                    "robustness_fairness_fidelity" ]} : gset string)).
  assert (Hd0 : dom (∅ : gmap string num) ⊆ names)
    by (rewrite dom_empty_L; apply empty_subseteq).
  destruct (robustness_entry_ok baseline_metrics m "throughput"
              "robustness_throughput" "throughput" ∅ names Hbase
              (Hcur "throughput" ltac:(float_key)))
    as (r1 & Hr & Hd1); [known_type|in_names|done|].
  rewrite Hr; clear Hr; cbn [mbind result_bind].
  destruct (robustness_entry_ok baseline_metrics m "mean_fidelity"
              "robustness_fidelity" "fidelity" r1 names Hbase
              (Hcur "mean_fidelity" ltac:(float_key)))
    as (r2 & Hr & Hd2); [known_type|in_names|done|].
  rewrite Hr; clear Hr; cbn [mbind result_bind].
  destruct (robustness_entry_ok baseline_metrics m "mean_request_latency"
              "robustness_mean_request_latency" "latency" r2 names Hbase
              (Hcur "mean_request_latency" ltac:(float_key)))
    as (r3 & Hr & Hd3); [known_type|in_names|done|].
  rewrite Hr; clear Hr; cbn [mbind result_bind].
  destruct (robustness_entry_ok baseline_metrics m "mean_unit_latency"
              "robustness_mean_unit_latency" "latency" r3 names Hbase
              (Hcur "mean_unit_latency" ltac:(float_key)))
    as (r4 & Hr & Hd4); [known_type|in_names|done|].
  rewrite Hr; clear Hr; cbn [mbind result_bind].
  destruct (robustness_entry_ok baseline_metrics m "mean_scaled_latency"
              "robustness_mean_scaled_latency" "latency" r4 names Hbase
              (Hcur "mean_scaled_latency" ltac:(float_key)))
    as (r5 & Hr & Hd5); [known_type|in_names|done|].
  rewrite Hr; clear Hr; cbn [mbind result_bind].
  destruct (robustness_entry_ok baseline_metrics m "fairness_throughput"
              "robustness_fairness_throughput" "fairness" r5 names Hbase
              (Hcur "fairness_throughput" ltac:(float_key)))
    as (r6 & Hr & Hd6); [known_type|in_names|done|].
  rewrite Hr; clear Hr; cbn [mbind result_bind].
  destruct (robustness_entry_ok baseline_metrics m "fairness_latency"
              "robustness_fairness_latency" "fairness" r6 names Hbase
              (Hcur "fairness_latency" ltac:(float_key)))
    as (r7 & Hr & Hd7); [known_type|in_names|done|].
  rewrite Hr; clear Hr; cbn [mbind result_bind].
  destruct (robustness_entry_ok baseline_metrics m "fairness_fidelity"
              "robustness_fairness_fidelity" "fairness" r7 names Hbase
              (Hcur "fairness_fidelity" ltac:(float_key)))
    as (r8 & Hr & Hd8); [known_type|in_names|done|].
  rewrite Hr; clear Hr; cbn [mbind result_bind].
  by eexists _, _.
Qed.

(** X18: after every sequence of [record_request] and [record_delivery]
    calls whose quotas are at most [bound] in magnitude, [bound] times the
    number of calls fitting a double, [calculate_robustness] returns for
    every baseline dictionary whose values convert to [float]: it raises no
    [ValueError] and no [ZeroDivisionError], and its result has no other
    keys than the eight robustness names. *)
Theorem calculate_robustness_after_run (threshold : num) (events : list event)
    (baseline_metrics : gmap string value) (now : num) (bound : Z) :
  Forall (quota_within bound) events ->
  Z.of_nat (length events) * bound < float_limit ->
  map_Forall (fun _ v => is_ok (as_number v)) baseline_metrics ->
  exists c c' (r : gmap string num),
    run_events (new_collector threshold) events = Ok c /\
    calculate_robustness c baseline_metrics now = Ok (c', r) /\
    dom r ⊆ {[ "robustness_throughput"; "robustness_fidelity";
               "robustness_mean_request_latency";
               "robustness_mean_unit_latency";
               "robustness_mean_scaled_latency";
               "robustness_fairness_throughput";
               "robustness_fairness_latency";
               "robustness_fairness_fidelity" ]}.
Proof.
  intros Hall Hfit Hbase.
  destruct (run_events_ledger_ok events _ (ledger_ok_new threshold))
    as (c & Hrun & Hok).
  pose proof (run_events_units_in_range bound threshold events c Hall Hfit Hrun)
    as Hunits.
  destruct (calculate_robustness_ledger_ok c baseline_metrics now Hok Hunits
              Hbase)
    as (c' & r & Hr & Hdom).
  by exists c, c', r.
Qed.


End CollectorRobustness.

(** X18 on the example run and baseline. *)
Lemma calculate_robustness_after_run_witness :
  exists c c' (r : gmap string num),
    run_events (new_collector half) example_events = Ok c /\
    calculate_robustness c example_baseline (of_Z 40) = Ok (c', r).
Proof.
  destruct (calculate_robustness_after_run half example_events example_baseline
              (of_Z 40) 2)
    as (c & c' & r & Hrun & Hr & _).
  - unfold example_events. repeat constructor. cbn. lia.
  - by vm_compute.
  - unfold example_baseline.
    repeat (apply map_Forall_insert_2; [exact I|]). apply map_Forall_empty.
  - by exists c, c', r.
Defined.


Lemma throughput_ok (num_entangled_states : Z) (total_time : num) :
  Z.abs num_entangled_states < float_limit ->
  is_ok (throughput num_entangled_states total_time).
Proof.
  intros Hn. unfold throughput.
  destruct (num_le total_time zero) eqn:Hle; [done|].
  rewrite float_of_int_in_range by done. cbn [mbind result_bind].
  by rewrite py_div_guarded.
Qed.

(** *** The loop over the nodes of [metrics.py] *)

Lemma metrics_node_step_entry (st st' : node_acc) (k : string) (d : node_data) :
  Metrics.node_step st (k, d) = Ok st' ->
  (forall k', k' ≠ k -> per_node_metrics st' !! k' = per_node_metrics st !! k') /\
  exists e,
    per_node_metrics st' !! k = Some e /\
    e !! "total_units" = Some (AInt (nd_units d)) /\
    e !! "avg_latency" = Some (AFloat (np_mean (nd_latencies d))).
Proof.
  unfold Metrics.node_step. cbv zeta. intros Hstep.
  apply bind_ok in Hstep as (t & _ & Hstep).
  destruct (is_nonempty (nd_fidelities d));
    injection Hstep as <-; cbn [per_node_metrics];
    (split; [intros k' Hk'; by rewrite !lookup_insert_ne by done|]);
    (eexists; rewrite lookup_insert_eq; split; [reflexivity|]);
    split; repeat (rewrite lookup_insert_ne by done); by rewrite lookup_insert_eq.
Qed.

Lemma metrics_node_step_ok (st : node_acc) (entry : string * node_data) :
  Z.abs (nd_units entry.2) < float_limit ->
  is_ok (Metrics.node_step st entry).
Proof.
  destruct entry as [k d]. intros Hunits. unfold Metrics.node_step. cbv zeta.
  destruct (is_ok_inv _ (node_throughput_of_ok d Hunits)) as [t Ht]. rewrite Ht.
  cbn [mbind result_bind]. by destruct (is_nonempty (nd_fidelities d)).
Qed.

Lemma metrics_node_loop_ok (items : list (string * node_data)) :
  Forall (fun entry => Z.abs (nd_units entry.2) < float_limit) items ->
  forall st, is_ok (Metrics.node_loop st items).
Proof.
  induction 1 as [|entry items Hentry _ IH]; intros st; [done|].
  cbn [Metrics.node_loop].
  destruct (is_ok_inv _ (metrics_node_step_ok st entry Hentry)) as [st1 Hst1].
  rewrite Hst1. apply IH.
Qed.

Lemma metrics_node_loop_entries (items : list (string * node_data)) :
  forall st st',
    Metrics.node_loop st items = Ok st' ->
    NoDup items.*1 ->
    (forall k, k ∉ items.*1 ->
               per_node_metrics st' !! k = per_node_metrics st !! k) /\
    (forall k d, (k, d) ∈ items ->
       exists e,
         per_node_metrics st' !! k = Some e /\
         e !! "total_units" = Some (AInt (nd_units d)) /\
         e !! "avg_latency" = Some (AFloat (np_mean (nd_latencies d)))).
Proof.
  induction items as [|[k0 d0] items IH]; intros st st' Hloop Hnodup.
  - injection Hloop as <-. split; [done|]. intros k d Hin. by apply elem_of_nil in Hin.
  - cbn [Metrics.node_loop] in Hloop.
    apply bind_ok in Hloop as (st1 & Hstep & Hloop).
    rewrite fmap_cons in Hnodup. cbn [fst] in Hnodup.
    apply list.NoDup_cons in Hnodup as [Hk0 Hnodup].
    destruct (metrics_node_step_entry _ _ _ _ Hstep) as (Hother & e0 & He0 & Hfields).
    destruct (IH st1 st' Hloop Hnodup) as (Hkeep & Hentries).
    split.
    + intros k Hk. rewrite fmap_cons in Hk. cbn [fst] in Hk.
      apply not_elem_of_cons in Hk as [Hne Hk].
      by rewrite (Hkeep k Hk), (Hother k Hne).
    + intros k d Hin. apply elem_of_cons in Hin as [[= -> ->]|Hin].
      * exists e0. by rewrite (Hkeep k0 Hk0).
      * by apply Hentries.
Qed.

(** *** The loop over the nodes of [aggregate_metrics.py] *)

Lemma node_loop_snoc (items : list (string * node_data))
    (entry : string * node_data) :
  forall st,
    AggregateMetrics.node_loop st (items ++ [entry])
    = (st1 ← AggregateMetrics.node_loop st items;
       AggregateMetrics.node_step st1 entry).
Proof.
  induction items as [|e items IH]; intros st; cbn [app AggregateMetrics.node_loop].
  - cbn [mbind result_bind].
    destruct (AggregateMetrics.node_step st entry); reflexivity.
  - destruct (AggregateMetrics.node_step st e) as [st1|err]; [|reflexivity].
    cbn [mbind result_bind]. apply IH.
Qed.

Lemma node_step_last (st st' : node_acc) (k : string) (d : node_data) :
  AggregateMetrics.node_step st (k, d) = Ok st' ->
  last_node_id st' = Some k /\
  exists e t,
    per_node_metrics st' !! k = Some e /\
    node_throughput_of d = Ok t /\
    e !! "throughput" = Some (AFloat t) /\
    e !! "total_units" = Some (AInt (nd_units d)).
Proof.
  unfold AggregateMetrics.node_step. intros Hstep.
  apply bind_ok in Hstep as (t & Ht & Hstep).
  destruct (is_nonempty (nd_fidelities d));
    injection Hstep as <-; cbn [per_node_metrics last_node_id];
    (split; [done|]); eexists _, t; rewrite lookup_insert_eq;
    (split; [reflexivity|]); (split; [exact Ht|]);
    split; repeat (rewrite lookup_insert_ne by done); by rewrite lookup_insert_eq.
Qed.

Section AggregatorResults.
Context `{NdArray A}.
Implicit Types (req : request A) (requests : list (request A)).

Lemma request_loop_raises (fidelity_values : option (list num)) requests :
  all_completed requests = false ->
  Forall (fun req => num_units req < float_limit) requests ->
  forall st, request_loop fidelity_values st requests = Raise TypeError.
Proof.
  induction requests as [|req rest IH]; intros Hall Hunits st;
    [discriminate Hall|].
  apply list.Forall_cons in Hunits as [Hu Hunits].
  cbn [all_completed forallb] in Hall. cbn [request_loop].
  destruct (completion_time req) as [completion|] eqn:Hc.
  - rewrite bool_decide_eq_true_2 in Hall by eauto.
    destruct (request_step_ok fidelity_values st req) as (st1 & -> & _);
      [rewrite Hc; eauto|done|].
    cbn [mbind result_bind]. by apply IH.
  - unfold request_step. by rewrite Hc.
Qed.

Lemma units_in_range_each requests :
  units_in_range requests ->
  Forall (fun req => num_units req < float_limit) requests.
Proof.
  intros (Hunits & _). eapply list.Forall_impl; [exact Hunits|].
  intros r Hr. cbn in Hr. lia.
Qed.

Lemma all_completed_Forall requests :
  all_completed requests = true ->
  Forall (fun req => is_Some (completion_time req)) requests.
Proof.
  induction requests as [|req rest IH]; intros Hall; [constructor|].
  cbn [all_completed forallb] in Hall.
  apply andb_prop in Hall as [Hreq Hrest].
  constructor; [by apply bool_decide_eq_true in Hreq|by apply IH].
Qed.

Lemma metrics_py_returns requests (simulation_time : num)
    (fidelity_values : option (list num)) (rejected_states : Z) :
  Forall (fun req => is_Some (completion_time req)) requests ->
  units_in_range requests ->
  is_ok (Metrics.aggregate_metrics requests simulation_time fidelity_values
           rejected_states).
Proof.
  intros Hall Hrange. unfold Metrics.aggregate_metrics.
  destruct (is_nonempty requests); [|done].
  destruct (request_loop_ok fidelity_values _ Hall
              (units_in_range_each _ Hrange) new_acc) as (st & Hst & _).
  rewrite Hst. cbn [mbind result_bind].
  destruct Hrange as (_ & Hnodes' & Htotal).
  assert (Hitems : Forall (fun entry => Z.abs (nd_units entry.2) < float_limit)
                     (per_node_data st)).
  { eapply list.Forall_impl; [exact (request_loop_node_units _ _ _ Hst)|].
    intros entry Hentry. cbn in Hentry. rewrite Hentry. apply Hnodes'. }
  destruct (is_ok_inv _ (metrics_node_loop_ok (per_node_data st) Hitems
                           new_node_acc))
    as [nodes Hnodes].
  rewrite Hnodes. cbn [mbind result_bind].
  assert (Hsum : total_units st = requested_units requests).
  { destruct (request_loop_view _ _ _ _ [] Hst) as (_ & _ & Hunits & _);
      [done..|]. cbn in Hunits. exact Hunits. }
  destruct (is_ok_inv _ (throughput_ok (total_units st) simulation_time
                           ltac:(by rewrite Hsum)))
    as [t Ht].
  rewrite Ht. cbn [mbind result_bind].
  destruct (is_nonempty (fidelities st));
    [destruct (is_nonempty (per_node_fidelities nodes))|]; done.
Qed.

(** What [metrics.py] returns for a non-empty list, key by key. *)
Lemma metrics_py_shape requests (simulation_time : num)
    (fidelity_values : option (list num)) (rejected_states : Z)
    (m : gmap string value) :
  requests ≠ [] ->
  Metrics.aggregate_metrics requests simulation_time fidelity_values
    rejected_states = Ok m ->
  exists st nodes t,
    request_loop fidelity_values new_acc requests = Ok st /\
    Metrics.node_loop new_node_acc (per_node_data st) = Ok nodes /\
    throughput (total_units st) simulation_time = Ok t /\
    m !! "throughput" = Some (VFloat t) /\
    m !! "mean_request_latency" = Some (VFloat (np_mean (latencies st))) /\
    m !! "mean_unit_latency" = Some (VFloat (np_mean (unit_latencies st))) /\
    m !! "mean_scaled_latency" = Some (VFloat (np_mean (scaled_latencies st))) /\
    m !! "per_node_metrics" = Some (VNodes (per_node_metrics nodes)) /\
    m !! "rejected_states" = Some (VInt rejected_states) /\
    m !! "mean_fidelity"
    = (if is_nonempty (fidelities st)
       then Some (VFloat (np_mean (fidelities st))) else None).
Proof.
  intros Hne Hagg. unfold Metrics.aggregate_metrics in Hagg.
  destruct requests as [|req rest]; [done|]. cbn [is_nonempty] in Hagg.
  apply bind_ok in Hagg as (st & Hst & Hagg).
  apply bind_ok in Hagg as (nodes & Hnodes & Hagg).
  apply bind_ok in Hagg as (t & Ht & Hagg).
  exists st, nodes, t. split_and!; [done..| | | | | | |];
    (destruct (is_nonempty (fidelities st));
       [destruct (is_nonempty (per_node_fidelities nodes))|];
     injection Hagg as <-;
     repeat (rewrite lookup_insert_ne by done);
     first [by rewrite lookup_insert_eq | done]).
Qed.

(** What [aggregate_metrics.py] returns for a non-empty list, key by key. *)
Lemma aggregate_metrics_py_shape requests (simulation_time : num)
    (fidelity_values : option (list num)) (rejected_states : Z)
    (m : gmap string value) :
  requests ≠ [] ->
  AggregateMetrics.aggregate_metrics requests simulation_time fidelity_values
    rejected_states = Ok m ->
  exists st nodes splat,
    request_loop fidelity_values new_acc requests = Ok st /\
    AggregateMetrics.node_loop new_node_acc (per_node_data st) = Ok nodes /\
    AggregateMetrics.last_node_metrics nodes = Ok splat /\
    (forall k a, splat !! k = Some a -> m !! k = Some (atom_value a)) /\
    m !! "mean_request_latency" = Some (VFloat (np_mean (latencies st))) /\
    m !! "mean_unit_latency" = Some (VFloat (np_mean (unit_latencies st))) /\
    m !! "mean_scaled_latency" = Some (VFloat (np_mean (scaled_latencies st))) /\
    m !! "rejected_states" = Some (VInt rejected_states) /\
    m !! "mean_fidelity"
    = (if is_nonempty (fidelities st)
       then Some (VFloat (np_mean (fidelities st))) else None).
Proof.
  intros Hne Hagg. unfold AggregateMetrics.aggregate_metrics in Hagg.
  destruct requests as [|req rest]; [done|]. cbn [is_nonempty] in Hagg.
  apply bind_ok in Hagg as (st & Hst & Hagg).
  apply bind_ok in Hagg as (nodes & Hnodes & Hagg).
  apply bind_ok in Hagg as (splat & Hsplat & Hagg).
  assert (Hdom : dom splat ⊆ AggregateMetrics.node_keys).
  { unfold AggregateMetrics.last_node_metrics in Hsplat.
    destruct (last_node_id nodes) as [node|]; [|done].
    destruct (per_node_metrics nodes !! node) as [d|] eqn:Hd; [|done].
    injection Hsplat as <-.
    eapply (node_loop_keys _ _ _ Hnodes); [|exact Hd].
    intros ? ?. cbn. by rewrite lookup_empty. }
  assert (Hkeys : forall k, k ∉ AggregateMetrics.node_keys ->
                    (atom_value <$> splat) !! k = None).
  { intros k Hk. rewrite lookup_fmap.
    destruct (splat !! k) as [a|] eqn:Ha; [|done].
    exfalso. apply Hk, Hdom. apply elem_of_dom. eauto. }
  assert (Hnot : forall k, k ∈ ["mean_request_latency"; "mean_unit_latency";
                                "mean_scaled_latency"; "rejected_states";
                                "mean_fidelity"] ->
                  k ∉ AggregateMetrics.node_keys).
  { intros k Hk. unfold AggregateMetrics.node_keys.
    rewrite !elem_of_cons, elem_of_nil in Hk.
    rewrite !elem_of_union, !elem_of_singleton.
    destruct Hk as [->|[->|[->|[->|[->|[]]]]]];
      intros [[?|?]|?]; discriminate. }
  exists st, nodes, splat. split_and!; [done..| | | | | |].
  - intros k a Ha.
    assert (k ≠ "mean_fidelity").
    { intros ->. eapply Hnot; [|apply Hdom, elem_of_dom; eauto].
      rewrite !elem_of_cons. tauto. }
    destruct (is_nonempty (fidelities st)); injection Hagg as <-;
      rewrite ?lookup_insert_ne by done;
      apply lookup_union_Some_l; by rewrite lookup_fmap, Ha.
  - destruct (is_nonempty (fidelities st)); injection Hagg as <-;
      rewrite ?lookup_insert_ne by done;
      (rewrite lookup_union_r by (apply Hkeys, Hnot; rewrite !elem_of_cons; tauto));
      by rewrite lookup_insert_eq.
  - destruct (is_nonempty (fidelities st)); injection Hagg as <-;
      rewrite ?lookup_insert_ne by done;
      (rewrite lookup_union_r by (apply Hkeys, Hnot; rewrite !elem_of_cons; tauto));
      repeat (rewrite lookup_insert_ne by done); by rewrite lookup_insert_eq.
  - destruct (is_nonempty (fidelities st)); injection Hagg as <-;
      rewrite ?lookup_insert_ne by done;
      (rewrite lookup_union_r by (apply Hkeys, Hnot; rewrite !elem_of_cons; tauto));
      repeat (rewrite lookup_insert_ne by done); by rewrite lookup_insert_eq.
  - destruct (is_nonempty (fidelities st)); injection Hagg as <-;
      rewrite ?lookup_insert_ne by done;
      (rewrite lookup_union_r by (apply Hkeys, Hnot; rewrite !elem_of_cons; tauto));
      repeat (rewrite lookup_insert_ne by done); by rewrite lookup_insert_eq.
  - destruct (is_nonempty (fidelities st)); injection Hagg as <-.
    + by rewrite lookup_insert_eq.
    + rewrite lookup_union_r by (apply Hkeys, Hnot; rewrite !elem_of_cons; tauto).
      done.
Qed.

Lemma node_view_new_acc : node_view (per_node_data new_acc) = node_spec (A := A) [].
Proof. reflexivity. Qed.

End AggregatorResults.

Section AggregatorTheorems.
Context `{NdArray A}.
Implicit Types (req : request A) (requests : list (request A)).

(** X20: on requests whose unit counts fit a double, both aggregators
    return exactly when every request of the list has its completion time
    set; if one request has [None] there, both raise [TypeError] (the
    subtraction in [request_latency]), whatever the other arguments are. *)
Theorem aggregate_metrics_completion requests (simulation_time : num)
    (fidelity_values : option (list num)) (rejected_states : Z) :
  units_in_range requests ->
  if all_completed requests
  then
    is_ok (Metrics.aggregate_metrics requests simulation_time fidelity_values
             rejected_states) /\
    is_ok (AggregateMetrics.aggregate_metrics requests simulation_time
             fidelity_values rejected_states)
  else
    Metrics.aggregate_metrics requests simulation_time fidelity_values
      rejected_states = Raise TypeError /\
    AggregateMetrics.aggregate_metrics requests simulation_time
      fidelity_values rejected_states = Raise TypeError.
Proof.
  intros Hrange. destruct (all_completed requests) eqn:Hall.
  - apply all_completed_Forall in Hall.
    split; [by apply metrics_py_returns|by apply aggregate_metrics_returns].
  - unfold Metrics.aggregate_metrics, AggregateMetrics.aggregate_metrics.
    destruct requests as [|req rest]; [discriminate Hall|]. cbn [is_nonempty].
    rewrite (request_loop_raises fidelity_values (req :: rest) Hall
               (units_in_range_each _ Hrange)).
    split; reflexivity.
Qed.

(** X21: in every dictionary returned by either aggregator the mean scaled
    latency is present and equal to the mean unit latency: the two are
    computed from the same latency and the same number of units. *)
Theorem mean_scaled_latency_is_unit_latency requests (simulation_time : num)
    (fidelity_values : option (list num)) (rejected_states : Z)
    (m : gmap string value) :
  Metrics.aggregate_metrics requests simulation_time fidelity_values
    rejected_states = Ok m \/
  AggregateMetrics.aggregate_metrics requests simulation_time fidelity_values
    rejected_states = Ok m ->
  is_Some (m !! "mean_unit_latency") /\
  m !! "mean_scaled_latency" = m !! "mean_unit_latency".
Proof.
  intros Hagg.
  destruct (decide (requests = [])) as [->|Hne].
  { destruct Hagg as [Hagg|Hagg]; injection Hagg as <-; by eauto. }
  destruct Hagg as [Hagg|Hagg].
  - destruct (metrics_py_shape _ _ _ _ _ Hne Hagg)
      as (st & nodes & t & Hst & _ & _ & _ & _ & Hu & Hs & _).
    destruct (request_loop_view _ _ _ _ [] Hst) as (_ & Hsame & _); [done..|].
    rewrite Hu, Hs, Hsame. by eauto.
  - destruct (aggregate_metrics_py_shape _ _ _ _ _ Hne Hagg)
      as (st & nodes & splat & Hst & _ & _ & _ & _ & Hu & Hs & _).
    destruct (request_loop_view _ _ _ _ [] Hst) as (_ & Hsame & _); [done..|].
    rewrite Hu, Hs, Hsame. by eauto.
Qed.

(** X22: on the same arguments the two aggregators agree on the keys
    [mean_request_latency], [mean_unit_latency], [mean_scaled_latency],
    [rejected_states] and [mean_fidelity]: same presence, same value. *)
Theorem aggregate_metrics_shared_keys requests (simulation_time : num)
    (fidelity_values : option (list num)) (rejected_states : Z)
    (m1 m2 : gmap string value) (k : string) :
  Metrics.aggregate_metrics requests simulation_time fidelity_values
    rejected_states = Ok m1 ->
  AggregateMetrics.aggregate_metrics requests simulation_time fidelity_values
    rejected_states = Ok m2 ->
  k ∈ ["mean_request_latency"; "mean_unit_latency"; "mean_scaled_latency";
       "rejected_states"; "mean_fidelity"] ->
  m1 !! k = m2 !! k.
Proof.
  intros H1 H2 Hk.
  destruct (decide (requests = [])) as [->|Hne].
  { injection H1 as <-. by injection H2 as <-. }
  destruct (metrics_py_shape _ _ _ _ _ Hne H1)
    as (st & nodes & t & Hst & _ & _ & _ & Hl & Hu & Hs & _ & Hr & Hf).
  destruct (aggregate_metrics_py_shape _ _ _ _ _ Hne H2)
    as (st' & nodes' & splat & Hst' & _ & _ & _ & Hl' & Hu' & Hs' & Hr' & Hf').
  rewrite Hst in Hst'. injection Hst' as <-.
  rewrite !elem_of_cons, elem_of_nil in Hk.
  destruct Hk as [->|[->|[->|[->|[->|[]]]]]]; congruence.
Qed.

(** X23: for a non-empty list, [metrics.py] reports as [throughput] the
    function [throughput] applied to the sum of [num_units] over all
    requests and the simulation time, as [mean_request_latency] the mean of
    the requests' latencies, and passes [rejected_states] through. *)
Theorem metrics_py_totals requests (simulation_time : num)
    (fidelity_values : option (list num)) (rejected_states : Z)
    (m : gmap string value) :
  requests ≠ [] ->
  Metrics.aggregate_metrics requests simulation_time fidelity_values
    rejected_states = Ok m ->
  (exists t, throughput (requested_units requests) simulation_time = Ok t /\
             m !! "throughput" = Some (VFloat t)) /\
  m !! "mean_request_latency"
    = Some (VFloat (np_mean (omap latency_of requests))) /\
  m !! "rejected_states" = Some (VInt rejected_states).
Proof.
  intros Hne Hagg.
  destruct (metrics_py_shape _ _ _ _ _ Hne Hagg)
    as (st & nodes & t & Hst & _ & Ht & Hthr & Hl & _ & _ & _ & Hr & _).
  destruct (request_loop_view _ _ _ _ [] Hst) as (Hlat & _ & Hunits & _);
    [done..|].
  cbn in Hlat, Hunits. rewrite Hunits in Ht. rewrite Hlat in Hl.
  split_and!; [by exists t|done..].
Qed.

(** X24: for a non-empty list, the [per_node_metrics] of [metrics.py] has
    one entry for each node identifier of the list and no other; the entry
    of a node holds under [total_units] the sum of [num_units] over that
    node's requests and under [avg_latency] the mean of their latencies, in
    the order of the list. *)
Theorem metrics_py_per_node requests (simulation_time : num)
    (fidelity_values : option (list num)) (rejected_states : Z)
    (m : gmap string value) :
  requests ≠ [] ->
  Metrics.aggregate_metrics requests simulation_time fidelity_values
    rejected_states = Ok m ->
  exists nodes : gmap string (gmap string atom),
    m !! "per_node_metrics" = Some (VNodes nodes) /\
    (forall node, is_Some (nodes !! node) <-> node ∈ node_id <$> requests) /\
    (forall node, node ∈ node_id <$> requests ->
       exists e,
         nodes !! node = Some e /\
         e !! "total_units" = Some (AInt (node_units node requests)) /\
         e !! "avg_latency"
           = Some (AFloat (np_mean (node_latencies node requests)))).
Proof.
  intros Hne Hagg.
  destruct (metrics_py_shape _ _ _ _ _ Hne Hagg)
    as (st & nodes & t & Hst & Hnodes & _ & _ & _ & _ & _ & Hper & _).
  destruct (request_loop_view _ _ _ _ [] Hst) as (_ & _ & _ & Hview);
    [done..|].
  rewrite app_nil_l in Hview.
  assert (Hkeys : (per_node_data st).*1 = first_seen (node_id <$> requests)).
  { rewrite <- node_view_keys, Hview. unfold node_spec.
    rewrite <- list_fmap_compose. apply list_fmap_id. }
  destruct (metrics_node_loop_entries _ _ _ Hnodes) as (Hkeep & Hentries).
  { rewrite Hkeys. apply first_seen_NoDup. }
  assert (Hfound : forall node, node ∈ node_id <$> requests ->
    exists e,
      per_node_metrics nodes !! node = Some e /\
      e !! "total_units" = Some (AInt (node_units node requests)) /\
      e !! "avg_latency"
        = Some (AFloat (np_mean (node_latencies node requests)))).
  { intros node Hin. apply first_seen_elem in Hin. rewrite <- Hkeys in Hin.
    apply list_elem_of_fmap in Hin as ([k d] & -> & Hin).
    destruct (Hentries k d Hin) as (e & He & Hunits & Hlat).
    assert (Hspec : (k, (nd_units d, nd_latencies d)) ∈ node_spec requests).
    { rewrite <- Hview. unfold node_view.
      apply list_elem_of_fmap. by exists (k, d). }
    unfold node_spec in Hspec.
    apply list_elem_of_fmap in Hspec as (k' & [= <- Hu Hl] & _).
    exists e. cbn [fst]. by rewrite <- Hu, <- Hl. }
  exists (per_node_metrics nodes). split_and!; [done| |done].
  intros node. split.
  - intros Hsome.
    destruct (decide (node ∈ (per_node_data st).*1)) as [Hin|Hnot].
    + rewrite Hkeys in Hin. by apply first_seen_elem.
    + rewrite (Hkeep node Hnot) in Hsome. cbn in Hsome.
      rewrite lookup_empty in Hsome. by destruct Hsome.
  - intros Hin. destruct (Hfound node Hin) as (e & -> & _). by eauto.
Qed.

(** X25: for a non-empty list, the key [total_units] of the dictionary
    returned by [aggregate_metrics.py] holds the units of one node only:
    the node whose identifier is the last to occur for the first time in
    the list. *)
Theorem aggregate_metrics_last_node requests (simulation_time : num)
    (fidelity_values : option (list num)) (rejected_states : Z)
    (m : gmap string value) :
  requests ≠ [] ->
  AggregateMetrics.aggregate_metrics requests simulation_time fidelity_values
    rejected_states = Ok m ->
  exists node,
    list.last (first_seen (node_id <$> requests)) = Some node /\
    m !! "total_units" = Some (VInt (node_units node requests)) /\
    is_Some (m !! "throughput").
Proof.
  intros Hne Hagg.
  destruct (aggregate_metrics_py_shape _ _ _ _ _ Hne Hagg)
    as (st & nodes & splat & Hst & Hnodes & Hsplat & Hcopy & _).
  destruct (request_loop_view _ _ _ _ [] Hst) as (_ & _ & _ & Hview);
    [done..|].
  rewrite app_nil_l in Hview.
  destruct (per_node_data st) as [|entry0 items0] eqn:Hdata using rev_ind.
  { injection Hnodes as <-. discriminate Hsplat. }
  clear IHitems0. destruct entry0 as [k d].
  rewrite node_loop_snoc in Hnodes.
  apply bind_ok in Hnodes as (st1 & _ & Hstep).
  destruct (node_step_last _ _ _ _ Hstep)
    as (Hlast & e & t & He & _ & Hthr & Hunits).
  unfold AggregateMetrics.last_node_metrics in Hsplat.
  rewrite Hlast, He in Hsplat. injection Hsplat as <-.
  apply (f_equal list.last) in Hview.
  rewrite node_view_snoc, last_snoc in Hview.
  unfold node_spec in Hview.
  rewrite fmap_last in Hview.
  destruct (list.last (first_seen (node_id <$> requests))) as [node|];
    [|discriminate Hview].
  injection Hview as -> Hu _.
  exists node. split_and!; [done| |].
  - rewrite (Hcopy _ _ Hunits). cbn. by rewrite Hu.
  - rewrite (Hcopy _ _ Hthr). by eauto.
Qed.

End AggregatorTheorems.

(** X20 on the three example requests, and on the first of them without
    completion time. *)
Lemma aggregate_metrics_completion_witness :
  (is_ok (Metrics.aggregate_metrics three_requests (of_Z 40) None 0) /\
   is_ok (AggregateMetrics.aggregate_metrics three_requests (of_Z 40) None 0)) /\
  (Metrics.aggregate_metrics
     [mk_request (A := matrix) 0 2 "A" zero None None None 2] (of_Z 40) None 0
   = Raise TypeError /\
   AggregateMetrics.aggregate_metrics
     [mk_request (A := matrix) 0 2 "A" zero None None None 2] (of_Z 40) None 0
   = Raise TypeError).
Proof.
  split.
  - apply (aggregate_metrics_completion three_requests (of_Z 40) None 0).
    apply (units_in_range_bounded 3); [|by vm_compute].
    unfold three_requests. repeat constructor; cbn; lia.
  - apply (aggregate_metrics_completion
             [mk_request (A := matrix) 0 2 "A" zero None None None 2]
             (of_Z 40) None 0).
    apply (units_in_range_bounded 2); [|by vm_compute].
    repeat constructor; cbn; lia.
Defined.

(** The example dictionaries are the results on the three requests. *)
Lemma metrics_py_example_eq :
  Metrics.aggregate_metrics three_requests (of_Z 40) None 0
  = Ok metrics_py_example.
Proof. vm_cast_no_check (eq_refl (Ok metrics_py_example)). Qed.

Lemma aggregate_metrics_py_example_eq :
  AggregateMetrics.aggregate_metrics three_requests (of_Z 40) None 0
  = Ok aggregate_metrics_py_example.
Proof. vm_cast_no_check (eq_refl (Ok aggregate_metrics_py_example)). Qed.

(** X21 on the three example requests. *)
Lemma mean_scaled_latency_is_unit_latency_witness :
  aggregate_metrics_py_example !! "mean_scaled_latency"
  = aggregate_metrics_py_example !! "mean_unit_latency".
Proof.
  exact (proj2 (mean_scaled_latency_is_unit_latency three_requests (of_Z 40)
                  None 0 aggregate_metrics_py_example
                  (or_intror aggregate_metrics_py_example_eq))).
Defined.

(** X22 on the three example requests. *)
Lemma aggregate_metrics_shared_keys_witness :
  metrics_py_example !! "mean_request_latency"
  = aggregate_metrics_py_example !! "mean_request_latency".
Proof.
  apply (aggregate_metrics_shared_keys three_requests (of_Z 40) None 0 _ _ _
           metrics_py_example_eq aggregate_metrics_py_example_eq).
  apply elem_of_cons. by left.
Defined.

(** X23 on the three example requests. *)
Lemma metrics_py_totals_witness :
  metrics_py_example !! "rejected_states" = Some (VInt 0).
Proof.
  refine (proj2 (proj2 (metrics_py_totals three_requests (of_Z 40) None 0
                          metrics_py_example _ metrics_py_example_eq))).
  discriminate.
Defined.

(** X24 on the three example requests. *)
Lemma metrics_py_per_node_witness :
  exists nodes, metrics_py_example !! "per_node_metrics" = Some (VNodes nodes).
Proof.
  destruct (metrics_py_per_node three_requests (of_Z 40) None 0
              metrics_py_example)
    as (nodes & Hnodes & _).
  - discriminate.
  - exact metrics_py_example_eq.
  - by exists nodes.
Defined.

(** X25 on the three example requests: the node is B, with one unit of
    the six. *)
Lemma aggregate_metrics_last_node_witness :
  exists node,
    aggregate_metrics_py_example !! "total_units"
    = Some (VInt (node_units node three_requests)).
Proof.
  destruct (aggregate_metrics_last_node three_requests (of_Z 40) None 0
              aggregate_metrics_py_example)
    as (node & _ & Hunits & _).
  - discriminate.
  - exact aggregate_metrics_py_example_eq.
  - by exists node.
Defined.

(** ** [calculate_combined_metrics] *)

Lemma dict_get_cases (metrics : gmap string value) (key : string) :
  (metrics !! key = None /\ dict_get metrics key = Raise KeyError) \/
  (exists v, metrics !! key = Some v /\ dict_get metrics key = Ok v).
Proof. unfold dict_get. destruct (metrics !! key) as [v|]; eauto. Qed.

Lemma extract_step_cases (lists : node_lists) (metrics : gmap string value) :
  ((exists key, key ∈ combined_keys /\ metrics !! key = None) /\
   extract_step lists metrics = Raise KeyError) \/
  (exists t l u s f,
     metrics !! "throughput" = Some t /\
     metrics !! "mean_request_latency" = Some l /\
     metrics !! "mean_unit_latency" = Some u /\
     metrics !! "mean_scaled_latency" = Some s /\
     metrics !! "mean_fidelity" = Some f /\
     extract_step lists metrics
     = Ok {| nl_throughputs := nl_throughputs lists ++ [t];
             nl_latencies := nl_latencies lists ++ [l];
             nl_unit_latencies := nl_unit_latencies lists ++ [u];
             nl_scaled_latencies := nl_scaled_latencies lists ++ [s];
             nl_fidelities := nl_fidelities lists ++ [f] |}).
Proof.
  unfold extract_step, combined_keys.
  destruct (dict_get_cases metrics "throughput") as [[Hn ->]|(t & Ht & ->)];
    [left; split; [exists "throughput"; rewrite !elem_of_cons; tauto|done]|].
  destruct (dict_get_cases metrics "mean_request_latency")
    as [[Hn ->]|(l & Hl & ->)];
    [left; split; [exists "mean_request_latency"; rewrite !elem_of_cons; tauto
                  |done]|].
  destruct (dict_get_cases metrics "mean_unit_latency")
    as [[Hn ->]|(u & Hu & ->)];
    [left; split; [exists "mean_unit_latency"; rewrite !elem_of_cons; tauto
                  |done]|].
  destruct (dict_get_cases metrics "mean_scaled_latency")
    as [[Hn ->]|(s & Hs & ->)];
    [left; split; [exists "mean_scaled_latency"; rewrite !elem_of_cons; tauto
                  |done]|].
  destruct (dict_get_cases metrics "mean_fidelity")
    as [[Hn ->]|(f & Hf & ->)];
    [left; split; [exists "mean_fidelity"; rewrite !elem_of_cons; tauto|done]|].
  right. by exists t, l, u, s, f.
Qed.

(** The loop over the dictionaries raises nothing but [KeyError], and
    raises it as soon as one dictionary lacks one of the five keys. *)
Lemma extract_loop_key_error (all_metrics : list (gmap string value)) :
  forall lists,
    (exists metrics key, metrics ∈ all_metrics /\ key ∈ combined_keys /\
                         metrics !! key = None) ->
    extract_loop lists all_metrics = Raise KeyError.
Proof.
  induction all_metrics as [|m rest IH]; intros lists (metrics & key & Hin & Hkey & Hnone).
  - by apply elem_of_nil in Hin.
  - cbn [extract_loop].
    destruct (extract_step_cases lists m)
      as [[_ ->]|(t & l & u & s & f & Ht & Hl & Hu & Hs & Hf & ->)]; [done|].
    cbn [mbind result_bind]. apply IH.
    apply elem_of_cons in Hin as [->|Hin]; [|by eauto].
    exfalso. unfold combined_keys in Hkey.
    rewrite !elem_of_cons, elem_of_nil in Hkey.
    destruct Hkey as [->|[->|[->|[->|[->|[]]]]]]; congruence.
Qed.

Lemma extract_loop_only_key_error (all_metrics : list (gmap string value)) :
  forall lists e, extract_loop lists all_metrics = Raise e -> e = KeyError.
Proof.
  induction all_metrics as [|m rest IH]; intros lists e Hloop; [done|].
  cbn [extract_loop] in Hloop.
  destruct (extract_step_cases lists m)
    as [[_ Hstep]|(t & l & u & s & f & _ & _ & _ & _ & _ & Hstep)];
    rewrite Hstep in Hloop.
  - by injection Hloop as <-.
  - by eapply IH.
Qed.

Lemma extract_loop_lists (all_metrics : list (gmap string value)) :
  forall lists,
    Forall (fun metrics => forall key, key ∈ combined_keys ->
                                        is_Some (metrics !! key)) all_metrics ->
    exists lists',
      extract_loop lists all_metrics = Ok lists' /\
      nl_throughputs lists'
        = nl_throughputs lists ++ omap (.!! "throughput") all_metrics /\
      nl_latencies lists'
        = nl_latencies lists ++ omap (.!! "mean_request_latency") all_metrics /\
      nl_fidelities lists'
        = nl_fidelities lists ++ omap (.!! "mean_fidelity") all_metrics /\
      length (nl_throughputs lists')
        = (length (nl_throughputs lists) + length all_metrics)%nat /\
      length (nl_latencies lists')
        = (length (nl_latencies lists) + length all_metrics)%nat /\
      length (nl_fidelities lists')
        = (length (nl_fidelities lists) + length all_metrics)%nat.
Proof.
  induction all_metrics as [|m rest IH]; intros lists Hall.
  - exists lists. cbn. rewrite !app_nil_r. split_and!; try done; lia.
  - apply list.Forall_cons in Hall as [Hm Hrest]. cbn [extract_loop].
    destruct (extract_step_cases lists m)
      as [[(key & Hkey & Hnone) _]
         |(t & l & u & s & f & Ht & Hl & Hu & Hs & Hf & ->)].
    { destruct (Hm key Hkey) as [v Hv]. congruence. }
    cbn [mbind result_bind].
    destruct (IH {| nl_throughputs := nl_throughputs lists ++ [t];
                    nl_latencies := nl_latencies lists ++ [l];
                    nl_unit_latencies := nl_unit_latencies lists ++ [u];
                    nl_scaled_latencies := nl_scaled_latencies lists ++ [s];
                    nl_fidelities := nl_fidelities lists ++ [f] |} Hrest)
      as (lists' & -> & Hts & Hls & Hfs & Hnt & Hnl & Hnf).
    cbn [nl_throughputs nl_latencies nl_fidelities] in *.
    exists lists'. rewrite Hnt, Hnl, Hnf, Hts, Hls, Hfs.
    cbn [omap list_omap]. rewrite Ht, Hl, Hf, <- !app_assoc, !length_app.
    cbn [app length]. split_and!; try done; lia.
Qed.

Lemma as_numbers_ok (values : list value) :
  Forall (fun v => is_ok (as_number v)) values ->
  exists xs, as_numbers values = Ok xs /\ length xs = length values.
Proof.
  induction 1 as [|v rest Hv _ (xs & Hxs & Hlen)].
  - by exists [].
  - destruct (is_ok_inv _ Hv) as [x Hx]. exists (x :: xs).
    cbn [as_numbers]. rewrite Hx, Hxs. cbn. by rewrite Hlen.
Qed.

Lemma fairness_across_ok (values : list value) :
  Forall (fun v => is_ok (as_number v)) values ->
  exists j,
    fairness_across values = Ok j /\
    ((length values <= 1)%nat -> j = one) /\
    ((1 < length values)%nat ->
     exists xs, as_numbers values = Ok xs /\ j = fairness xs).
Proof.
  intros Hall. unfold fairness_across.
  destruct (as_numbers_ok values Hall) as (xs & Hxs & _).
  case_bool_decide as Hlen.
  - rewrite Hxs. cbn [mbind result_bind mret result_ret].
    exists (fairness xs). split_and!; [done|lia|]. intros _. by exists xs.
  - exists one. split_and!; [done|done|lia].
Qed.

Lemma lookups_numeric (key : string) (all_metrics : list (gmap string value)) :
  Forall (map_Forall (fun (_ : string) v => is_ok (as_number v))) all_metrics ->
  Forall (fun v => is_ok (as_number v)) (omap (.!! key) all_metrics).
Proof.
  induction 1 as [|m rest Hm _ IH]; [constructor|].
  cbn [omap list_omap]. destruct (m !! key) as [v|] eqn:Hv; [|done].
  constructor; [by eapply Hm|done].
Qed.

(** X26: if every dictionary of the two lists holds the five keys
    [throughput], [mean_request_latency], [mean_unit_latency],
    [mean_scaled_latency] and [mean_fidelity], and all its values convert
    to [float] (floats, and ints within the range of a double),
    [calculate_combined_metrics] returns; the lists of the result hold the
    values of the RA runs followed by those of the RB runs; with at most
    one run in all the three indices are 1.0, and with two or more
    [J_throughput] is Jain's index of the runs' throughputs. *)
Theorem calculate_combined_metrics_returns
    (all_metrics_ra all_metrics_rb : list (gmap string value)) :
  Forall (fun metrics =>
            (forall key, key ∈ combined_keys -> is_Some (metrics !! key)) /\
            map_Forall (fun (_ : string) v => is_ok (as_number v)) metrics)
         (all_metrics_ra ++ all_metrics_rb) ->
  exists r,
    calculate_combined_metrics all_metrics_ra all_metrics_rb = Ok r /\
    cm_node_throughputs r
      = omap (.!! "throughput") (all_metrics_ra ++ all_metrics_rb) /\
    cm_node_latencies r
      = omap (.!! "mean_request_latency") (all_metrics_ra ++ all_metrics_rb) /\
    cm_node_fidelities r
      = omap (.!! "mean_fidelity") (all_metrics_ra ++ all_metrics_rb) /\
    length (cm_node_throughputs r)
      = length (all_metrics_ra ++ all_metrics_rb) /\
    ((length (all_metrics_ra ++ all_metrics_rb) <= 1)%nat ->
     J_throughput r = one /\ J_latency r = one /\ J_fidelity r = one) /\
    ((1 < length (all_metrics_ra ++ all_metrics_rb))%nat ->
     exists xs, as_numbers (cm_node_throughputs r) = Ok xs /\
                J_throughput r = fairness xs).
Proof.
  intros Hall.
  assert (Hkeys : Forall (fun metrics => forall key, key ∈ combined_keys ->
                                           is_Some (metrics !! key))
                    (all_metrics_ra ++ all_metrics_rb))
    by (eapply list.Forall_impl; [exact Hall|]; by intros m [? _]).
  assert (Hnum : Forall (map_Forall (fun (_ : string) v => is_ok (as_number v)))
                   (all_metrics_ra ++ all_metrics_rb))
    by (eapply list.Forall_impl; [exact Hall|]; by intros m [_ ?]).
  apply Forall_app in Hkeys as [Hra Hrb].
  unfold calculate_combined_metrics.
  destruct (extract_loop_lists all_metrics_ra new_node_lists Hra)
    as (ra & Hra' & Hts & Hls & Hfs & Hnt & Hnl & Hnf).
  destruct (extract_loop_lists all_metrics_rb new_node_lists Hrb)
    as (rb & Hrb' & Hts' & Hls' & Hfs' & Hnt' & Hnl' & Hnf').
  rewrite Hra', Hrb'. cbn [mbind result_bind]. cbv zeta.
  cbn [new_node_lists nl_throughputs nl_latencies nl_fidelities app length]
    in Hts, Hls, Hfs, Hnt, Hnl, Hnf, Hts', Hls', Hfs', Hnt', Hnl', Hnf'.
  assert (Et : nl_throughputs ra ++ nl_throughputs rb
               = omap (.!! "throughput") (all_metrics_ra ++ all_metrics_rb))
    by (by rewrite Hts, Hts', omap_app).
  assert (El : nl_latencies ra ++ nl_latencies rb
               = omap (.!! "mean_request_latency")
                   (all_metrics_ra ++ all_metrics_rb))
    by (by rewrite Hls, Hls', omap_app).
  assert (Ef : nl_fidelities ra ++ nl_fidelities rb
               = omap (.!! "mean_fidelity") (all_metrics_ra ++ all_metrics_rb))
    by (by rewrite Hfs, Hfs', omap_app).
  assert (Nt : length (nl_throughputs ra ++ nl_throughputs rb)
               = length (all_metrics_ra ++ all_metrics_rb))
    by (rewrite !length_app; lia).
  assert (Nl : length (nl_latencies ra ++ nl_latencies rb)
               = length (all_metrics_ra ++ all_metrics_rb))
    by (rewrite !length_app; lia).
  assert (Nf : length (nl_fidelities ra ++ nl_fidelities rb)
               = length (all_metrics_ra ++ all_metrics_rb))
    by (rewrite !length_app; lia).
  destruct (fairness_across_ok (nl_throughputs ra ++ nl_throughputs rb))
    as (jt & Hjt & Hjt1 & Hjt2); [rewrite Et; by apply lookups_numeric|].
  destruct (fairness_across_ok (nl_latencies ra ++ nl_latencies rb))
    as (jl & Hjl & Hjl1 & _); [rewrite El; by apply lookups_numeric|].
  destruct (fairness_across_ok (nl_fidelities ra ++ nl_fidelities rb))
    as (jf & Hjf & Hjf1 & _); [rewrite Ef; by apply lookups_numeric|].
  rewrite Hjt, Hjl, Hjf. cbn [mbind result_bind mret result_ret].
  eexists. split; [reflexivity|].
  cbn [cm_node_throughputs cm_node_latencies cm_node_fidelities
       J_throughput J_latency J_fidelity].
  split_and!; try done.
  - intros Hle. split_and!; [apply Hjt1|apply Hjl1|apply Hjf1]; lia.
  - intros Hlt. apply Hjt2. lia.
Qed.

Section CombinedRuns.
Context `{NdArray A}.
Implicit Types (c : collector A).

(** A collector without a completed request or without a fidelity sample
    reports no [mean_fidelity]. *)
Lemma calculate_metrics_no_fidelity c (now : num) c' (m : gmap string value) :
  calculate_metrics c now = Ok (c', m) ->
  requests c = [] \/ fidelity_values c = [] ->
  m !! "mean_fidelity" = None.
Proof.
  unfold calculate_metrics. cbv zeta. intros Hm Hnone.
  apply bind_ok in Hm as (m0 & Hagg & Hm). injection Hm as _ <-.
  repeat (rewrite lookup_insert_ne by done).
  set (c1 := if num_eqb (end_time c) zero then end_simulation c now else c)
    in Hagg.
  assert (Hreqs : requests c1 = requests c)
    by (unfold c1; by destruct (num_eqb _ _)).
  assert (Hfid : fidelity_values c1 = fidelity_values c)
    by (unfold c1; by destruct (num_eqb _ _)).
  destruct (decide (requests c1 = [])) as [Hempty|Hne].
  - rewrite Hempty in Hagg. by injection Hagg as <-.
  - destruct Hnone as [Hnone|Hnone]; [congruence|].
    rewrite (aggregate_metrics_mean_fidelity _ _ _ _ _ Hne Hagg).
    cbn [given]. rewrite Hfid, Hnone. by rewrite take_nil.
Qed.

(** X27: [calculate_combined_metrics] raises [KeyError] as soon as one of
    the runs is the dictionary [calculate_metrics] returns for a collector
    that has no completed request or has recorded no fidelity sample: that
    dictionary has no [mean_fidelity]. *)
Theorem calculate_combined_metrics_without_samples c (now : num) c'
    (m : gmap string value)
    (all_metrics_ra all_metrics_rb : list (gmap string value)) :
  calculate_metrics c now = Ok (c', m) ->
  requests c = [] \/ fidelity_values c = [] ->
  m ∈ all_metrics_ra ++ all_metrics_rb ->
  calculate_combined_metrics all_metrics_ra all_metrics_rb = Raise KeyError.
Proof.
  intros Hm Hnone Hin.
  pose proof (calculate_metrics_no_fidelity c now c' m Hm Hnone) as Hfid.
  assert (Hkey : "mean_fidelity" ∈ combined_keys)
    by (unfold combined_keys; rewrite !elem_of_cons; tauto).
  unfold calculate_combined_metrics.
  apply elem_of_app in Hin as [Hin|Hin].
  - rewrite (extract_loop_key_error all_metrics_ra new_node_lists); [done|].
    by exists m, "mean_fidelity".
  - destruct (extract_loop new_node_lists all_metrics_ra) as [ra|e] eqn:Hra.
    + cbn [mbind result_bind].
      rewrite (extract_loop_key_error all_metrics_rb new_node_lists); [done|].
      by exists m, "mean_fidelity".
    + by rewrite (extract_loop_only_key_error _ _ _ Hra).
Qed.

End CombinedRuns.

(** X27 on the collector with one active request. *)
Lemma calculate_combined_metrics_without_samples_witness :
  calculate_combined_metrics [stamped_metrics] [] = Raise KeyError.
Proof.
  apply (calculate_combined_metrics_without_samples stamped_collector
           (of_Z 40) stamped_collector stamped_metrics).
  - reflexivity.
  - left. reflexivity.
  - apply elem_of_cons. by left.
Defined.

(** X26 on two runs with throughputs 1 and 3. *)
Lemma calculate_combined_metrics_returns_witness :
  exists r,
    calculate_combined_metrics [run_metrics one one] [run_metrics (of_Z 3) half]
    = Ok r.
Proof.
  destruct (calculate_combined_metrics_returns
              [run_metrics one one] [run_metrics (of_Z 3) half])
    as (r & Hr & _); [|by exists r].
  repeat constructor.
  - intros key Hkey. unfold combined_keys in Hkey.
    rewrite !elem_of_cons, elem_of_nil in Hkey.
    destruct Hkey as [->|[->|[->|[->|[->|[]]]]]]; vm_compute; by eauto.
  - unfold run_metrics.
    repeat (apply map_Forall_insert_2; [exact I|]). apply map_Forall_empty.
  - intros key Hkey. unfold combined_keys in Hkey.
    rewrite !elem_of_cons, elem_of_nil in Hkey.
    destruct Hkey as [->|[->|[->|[->|[->|[]]]]]]; vm_compute; by eauto.
  - unfold run_metrics.
    repeat (apply map_Forall_insert_2; [exact I|]). apply map_Forall_empty.
Defined.
